(** * Emily, the admissions assistant of Cheltenham College: the question-resolution core

    A shallow embedding of [src/app.py]: the conversation tracker, the
    response enhancer, the guards of the vector search and the tiered
    matcher [find_best_answer], with the shipped answer table of
    [src/static_qa_config.py] and the part of Python's [difflib] that the
    fuzzy tier calls.  The definitions come first; the properties, among
    them the ten claims C1 to C10 of the specification, follow.

    Conventions.
    - Python [str] values are Rocq strings; a character is a code point in
      0..255 (Latin-1), on which [str.lower], [str.strip], string
      comparison and [repr] are modelled exactly.  The three signs of the
      fixed texts that lie outside this range are one character each, as
      in Python (see [apostrophe], [bullet] and [ellipsis]).
    - Python exceptions are the [Raise] outcome of [Result].
    - The process-wide registry [conversation_memory], the wall clock and a
      ghost trace of the calls made on trackers form the [World] threaded
      through [find_best_answer].
    - External services and libraries (translator, embedding and
      generation services, database, open-days cache, numpy's
      arithmetic, the [re] module) are the fields of [Env].
    - [print] calls write to the log only and are left out. *)

From Stdlib Require Import Ascii QArith.
From stdpp Require Import base gmap strings list sorting.

Open Scope string_scope.
Open Scope nat_scope.
Open Scope list_scope.

(** ** Python text primitives *)

Module PyStr.

Definition code (c : ascii) : nat := Ascii.nat_of_ascii c.

(** [str.lower] on one code point below 256: A-Z and the Latin-1 capitals
    (all of 0xC0..0xDE but the multiplication sign 0xD7) move up by 32.
    Below 256 every character is lowered to one character; outside this
    range [str.lower] can lengthen a text (U+0130 becomes two characters),
    so no statement is made of the length of a lowered text in terms of
    the length of the text itself. *)
Definition lower_char (c : ascii) : ascii :=
  let n := code c in
  if ((65 <=? n) && (n <=? 90)) || ((192 <=? n) && (n <=? 222) && negb (n =? 215))
  then Ascii.ascii_of_nat (n + 32)
  else c.

Fixpoint lower (s : string) : string :=
  match s with
  | EmptyString => EmptyString
  | String c s' => String (lower_char c) (lower s')
  end.

(** [str.isspace] on one code point below 256. *)
Definition is_space (c : ascii) : bool :=
  let n := code c in
  ((9 <=? n) && (n <=? 13)) || ((28 <=? n) && (n <=? 32)) || (n =? 133) || (n =? 160).

Fixpoint lstrip (s : string) : string :=
  match s with
  | EmptyString => EmptyString
  | String c s' => if is_space c then lstrip s' else s
  end.

Fixpoint rstrip (s : string) : string :=
  match s with
  | EmptyString => EmptyString
  | String c s' =>
      match rstrip s' with
      | EmptyString => if is_space c then EmptyString else String c EmptyString
      | r => String c r
      end
  end.

(** [s.strip()] *)
Definition strip (s : string) : string := rstrip (lstrip s).

(** [needle in hay] for two strings: [needle] occurs as a substring. *)
Fixpoint contains (needle hay : string) : bool :=
  String.prefix needle hay ||
  match hay with
  | EmptyString => false
  | String _ hay' => contains needle hay'
  end.

(** [any(kw in s for kw in kws)] *)
Definition any_in (kws : list string) (s : string) : bool :=
  existsb (fun kw => contains kw s) kws.

(** [s[:n]] *)
Fixpoint take (n : nat) (s : string) : string :=
  match n, s with
  | S n', String c s' => String c (take n' s')
  | _, _ => EmptyString
  end.

(** [s.replace(old, new)] for a non-empty [old]: occurrences are replaced
    left to right without overlap; [skip] counts the characters of an
    occurrence still to be dropped. *)
Fixpoint replace_from (old new : string) (skip : nat) (s : string) : string :=
  match s with
  | EmptyString => EmptyString
  | String c s' =>
      match skip with
      | S k => replace_from old new k s'
      | O =>
          if String.prefix old s
          then new +:+ replace_from old new (String.length old - 1) s'
          else String c (replace_from old new 0 s')
      end
  end.

Definition replace (old new s : string) : string := replace_from old new 0 s.

(** [sep.join(parts)] *)
Fixpoint join (sep : string) (parts : list string) : string :=
  match parts with
  | [] => EmptyString
  | [p] => p
  | p :: rest => p +:+ sep +:+ join sep rest
  end.

(** Truthiness of an [Optional[str]]: [None] and the empty string are false. *)
Definition truthy (o : option string) : bool :=
  match o with
  | Some (String _ _) => true
  | _ => false
  end.

(** [x or default] on an [Optional[str]]. *)
Definition or_else (o : option string) (d : string) : string :=
  match o with
  | Some (String c s) => String c s
  | _ => d
  end.

Definition nl : string := String (Ascii.ascii_of_nat 10) EmptyString.

End PyStr.

(** ** The signs outside Latin-1

    Three signs of the fixed texts lie outside Latin-1: the apostrophe
    U+2019 in two answers of the table, the bullet U+2022 of the answer
    templates and the ellipsis U+2026 that [safe_trim] appends.  Each is
    one character here, as it is in Python, so that the length and the
    slices of a text that holds one are those of the code.  They take the
    code points 128, 129 and 130, in the order of the signs: control
    characters that no text of the application holds, and which
    [str.lower] and [str.isspace] treat as they treat the signs
    (unchanged, not white space).  [repr] and the order of texts read
    every character as its Latin-1 code point. *)
Definition apostrophe : string := String (Ascii.ascii_of_nat 128) EmptyString.
Definition bullet : string := String (Ascii.ascii_of_nat 129) EmptyString.
Definition ellipsis : string := String (Ascii.ascii_of_nat 130) EmptyString.

(** ** Outcomes of Python calls *)

Inductive PyExc : Type :=
  | TypeError
  | IndexError
  | ExternalError (msg : string).

Inductive Result (A : Type) : Type :=
  | Ok (a : A)
  | Raise (e : PyExc).
Arguments Ok {A} a.
Arguments Raise {A} e.

Definition is_ok {A} (r : Result A) : bool :=
  match r with Ok _ => true | Raise _ => false end.

(** ** Conversation tracker ([class ConversationTracker]) *)

Inductive Emotion : Type := neutral | concerned.

Global Instance Emotion_eq_dec : EqDecision Emotion.
Proof. solve_decision. Defined.

Record Interaction : Type := {
  i_timestamp : nat;
  i_question : string;
  i_answer : string;
  i_topic : option string
}.

Record ConversationTracker : Type := {
  session_id : string;
  family_id : option string;
  started_at : nat;
  interactions : list Interaction;
  (** a Python [set]; the list holds its members once each, in the order
      [str()] iterates them *)
  topics_discussed : list string;
  concerns : list string;
  child_name : option string;
  parent_name : option string;
  year_group : option string;
  interests : list string;
  high_intent_signals : nat;
  last_topic : option string;
  emotional_state : Emotion
}.

(** [ConversationTracker.__init__] at clock reading [now]. *)
Definition new_tracker (now : nat) (sid : string) (fid : option string)
  : ConversationTracker :=
  {| session_id := sid; family_id := fid; started_at := now;
     interactions := []; topics_discussed := []; concerns := [];
     child_name := None; parent_name := None; year_group := None;
     interests := []; high_intent_signals := 0; last_topic := None;
     emotional_state := neutral |}.

(** [set.add].  The set [topics_discussed] is the list of its members,
    each once, in the order they were added.  A Python set keeps no such
    order and is iterated in an order of its own: what the list says of
    the code is which topics are members, not where they stand. *)
Definition set_add (x : string) (s : list string) : list string :=
  if bool_decide (x ∈ s) then s else s ++ [x].

Definition high_intent_keywords : list string :=
  ["apply"; "visit"; "fee"; "scholarship"; "when can"; "how do I"; "register"].

Definition concern_keywords : list string :=
  ["worried"; "concern"; "anxiety"; "difficult"; "struggle"; "help"; "support"; "nervous"].

(** [ConversationTracker.add_interaction]; [now] is the clock reading used
    for the timestamp. *)
Definition add_interaction (now : nat) (self : ConversationTracker)
    (question answer : string) (topic : option string) : ConversationTracker :=
  let entry := {| i_timestamp := now; i_question := question;
                  i_answer := PyStr.take 200 answer; i_topic := topic |} in
  let topical := PyStr.truthy topic in
  let intent := PyStr.any_in high_intent_keywords (PyStr.lower question) in
  let worry := PyStr.any_in concern_keywords (PyStr.lower question) in
  {| session_id := session_id self;
     family_id := family_id self;
     started_at := started_at self;
     interactions := interactions self ++ [entry];
     topics_discussed :=
       match topic with
       | Some t => if topical then set_add t (topics_discussed self)
                   else topics_discussed self
       | None => topics_discussed self
       end;
     concerns := if worry then concerns self ++ [question] else concerns self;
     child_name := child_name self;
     parent_name := parent_name self;
     year_group := year_group self;
     interests := interests self;
     high_intent_signals :=
       if intent then S (high_intent_signals self) else high_intent_signals self;
     last_topic := if topical then topic else last_topic self;
     emotional_state := if worry then concerned else emotional_state self |}.

(** [ConversationTracker.should_offer_human_handoff] *)
Definition should_offer_human_handoff (self : ConversationTracker) : bool :=
  (3 <=? high_intent_signals self) ||
  (2 <=? length (concerns self)) ||
  (10 <=? length (interactions self)) ||
  bool_decide (emotional_state self = concerned).

(** ** Python [repr] of strings and [str] of a set of strings *)

Module PyRepr.

Definition hex_digit (n : nat) : ascii :=
  Ascii.ascii_of_nat (if n <? 10 then 48 + n else 87 + n).

Definition backslash : ascii := Ascii.ascii_of_nat 92.
Definition squote : ascii := Ascii.ascii_of_nat 39.
Definition dquote : ascii := Ascii.ascii_of_nat 34.

(** Code points below 256 for which [str.isprintable] is false. *)
Definition unprintable (n : nat) : bool :=
  (n <? 32) || ((127 <=? n) && (n <=? 160)) || (n =? 173).

Definition escape_char (quote c : ascii) : string :=
  let n := PyStr.code c in
  if bool_decide (c = quote) || bool_decide (c = backslash)
  then String backslash (String c EmptyString)
  else if n =? 9 then String backslash "t"
  else if n =? 10 then String backslash "n"
  else if n =? 13 then String backslash "r"
  else if unprintable n
  then String backslash
         (String "x" (String (hex_digit (n / 16)) (String (hex_digit (n mod 16)) EmptyString)))
  else String c EmptyString.

Fixpoint escape (quote : ascii) (s : string) : string :=
  match s with
  | EmptyString => EmptyString
  | String c s' => escape_char quote c +:+ escape quote s'
  end.

Fixpoint has_char (c : ascii) (s : string) : bool :=
  match s with
  | EmptyString => false
  | String d s' => bool_decide (c = d) || has_char c s'
  end.

(** [repr(s)]: single quotes unless the text has a single quote and no
    double quote. *)
Definition repr (s : string) : string :=
  let quote := if has_char squote s && negb (has_char dquote s) then dquote else squote in
  String quote (escape quote s) +:+ String quote EmptyString.

(** [str(s)] for a set of strings, printed in the order of the list that
    holds its members.  Python prints them in the set's iteration order;
    whether the [repr] of a member occurs in the text does not depend on
    that order. *)
Definition str_of_set (members : list string) : string :=
  match members with
  | [] => "set()"
  | _ => "{" +:+ PyStr.join ", " (map repr members) +:+ "}"
  end.

(** [x in s] where [s] is a string and [x] an [Optional[str]]: a left
    operand that is not a string raises [TypeError]. *)
Definition in_str (x : option string) (s : string) : Result bool :=
  match x with
  | None => Raise TypeError
  | Some needle => Ok (PyStr.contains needle s)
  end.

End PyRepr.

(** ** Family context (the dict built by [fetch_family_context]) *)

Record FamilyContext : Type := {
  fc_family_id : string;
  fc_child_name : option string;
  fc_year_group : string;
  fc_boarding_status : string;
  fc_interests : string;
  fc_country : string;
  fc_language_pref : string;
  fc_parent_name : option string;
  fc_parent_email : option string
}.

(** [family_ctx and family_ctx.get('child_name')]: the name when both are
    truthy. *)
Definition known_child_name (family_ctx : option FamilyContext) : option string :=
  match family_ctx with
  | Some fc => if PyStr.truthy (fc_child_name fc) then fc_child_name fc else None
  | None => None
  end.

(** ** Response enhancer ([class ResponseEnhancer]) *)

Module ResponseEnhancer.

Definition follow_up_questions (topic_key : string) : option (list string) :=
  if String.eqb topic_key "fees" then Some
    ["Are you also interested in our scholarship opportunities?";
     "Would you like to know about our payment plans?";
     "Shall I explain our bursary programme?"]
  else if String.eqb topic_key "sports" then Some
    ["What sports does {child_name} enjoy currently?";
     "Is {child_name} interested in competitive teams or recreational activities?";
     "Would you like to know about our sports facilities?"]
  else if String.eqb topic_key "academic" then Some
    ["What subjects does {child_name} particularly enjoy?";
     "Are you interested in our academic enrichment programmes?";
     "Would you like to see our recent exam results?"]
  else if String.eqb topic_key "admissions" then Some
    ["Which year group are you considering for entry?";
     "Would you like to book a personal tour?";
     "Shall I explain our application timeline?"]
  else if String.eqb topic_key "pastoral" then Some
    ["Is there anything specific about {child_name}'s needs I should know?";
     "Would you like to speak with our pastoral team?";
     "Are you interested in our wellbeing programmes?"]
  else None.

Definition reassurance_phrases : list string :=
  ["That's a very common concern, and I'm happy to address it...";
   "Many parents ask about this, and it's important to get it right...";
   "I completely understand why you'd want to know about this...";
   "That's an excellent question, and I'm glad you asked..."].

Definition acknowledgments : list string :=
  ["That's a great question.";
   "I'm glad you asked about that.";
   "Let me tell you about that.";
   "Excellent question.";
   "Many families ask about this."].

Definition greeting : string := "Hello! What a lovely question to start with.".
Definition following_on : string := "Following on from what we discussed...".
Definition empathetic : string := "I can hear this is important to you.".

(** [pool[n % len(pool)]] for a non-empty literal pool. *)
Definition rotate (pool : list string) (n : nat) : string :=
  default EmptyString (pool !! (n mod length pool)).

(** [_add_acknowledgment] *)
Definition _add_acknowledgment (context : ConversationTracker) : Result string :=
  if length (interactions context) =? 0 then Ok greeting
  else
    match PyRepr.in_str (last_topic context)
                        (PyRepr.str_of_set (topics_discussed context)) with
    | Raise e => Raise e
    | Ok true => Ok following_on
    | Ok false =>
        if bool_decide (emotional_state context = concerned) then Ok empathetic
        else Ok (rotate acknowledgments (length (interactions context)))
    end.

(** [_categorize_topic] *)
Definition _categorize_topic (topic : option string) : string :=
  let topic_lower := if PyStr.truthy topic then PyStr.lower (default EmptyString topic)
                     else EmptyString in
  if PyStr.any_in ["fee"; "cost"; "price"; "burs"; "scholar"] topic_lower then "fees"
  else if PyStr.any_in ["sport"; "athletic"; "team"; "football"; "netball"] topic_lower
  then "sports"
  else if PyStr.any_in ["academic"; "subject"; "curriculum"; "exam"; "result"] topic_lower
  then "academic"
  else if PyStr.any_in ["admission"; "apply"; "join"; "entry"; "register"] topic_lower
  then "admissions"
  else if PyStr.any_in ["pastoral"; "care"; "wellbeing"; "support"; "help"] topic_lower
  then "pastoral"
  else "general".

(** [_get_follow_up_question] *)
Definition _get_follow_up_question (context : ConversationTracker)
    (family_ctx : option FamilyContext) : string :=
  if negb (PyStr.truthy (last_topic context))
  then "Is there anything specific you'd like to know about Cheltenham College?"
  else
    let topic_key := _categorize_topic (last_topic context) in
    let questions := default ["What else would you like to know?"]
                             (follow_up_questions topic_key) in
    let question := rotate questions (length (interactions context)) in
    match known_child_name family_ctx with
    | Some name => PyStr.replace "{child_name}" name question
    | None => PyStr.replace "{child_name}" "your daughter" question
    end.

Definition handoff_offer : string :=
  " By the way, would you like me to arrange for someone from our admissions team to call you directly?".

(** [enhance_for_voice] *)
Definition enhance_for_voice (base_answer : string) (context : ConversationTracker)
    (family_ctx : option FamilyContext) : Result string :=
  match _add_acknowledgment context with
  | Raise e => Raise e
  | Ok ack =>
      let enhanced := ack +:+ " " +:+ base_answer in
      let enhanced :=
        match known_child_name family_ctx with
        | Some name =>
            PyStr.replace "your daughter" name (PyStr.replace "your child" name enhanced)
        | None => enhanced
        end in
      let enhanced :=
        if bool_decide (emotional_state context = concerned)
        then rotate reassurance_phrases (length (concerns context)) +:+ " " +:+ enhanced
        else enhanced in
      let follow_up := _get_follow_up_question context family_ctx in
      let enhanced :=
        match follow_up with
        | EmptyString => enhanced
        | _ => enhanced +:+ " " +:+ follow_up
        end in
      let enhanced :=
        if should_offer_human_handoff context && (length (interactions context) mod 5 =? 0)
        then enhanced +:+ handoff_offer
        else enhanced in
      Ok enhanced
  end.

End ResponseEnhancer.

(** ** [difflib.SequenceMatcher(None, a, b).ratio()]

    The standard-library matcher as the fuzzy tier calls it: no junk
    predicate ([isjunk] is [None], so [bjunk] stays empty and the two loops
    of [find_longest_match] that absorb junk never run) and [autojunk] left
    at its default. *)

Module difflib.

(** A [Match(a, b, size)] triple. *)
Definition Match : Type := (nat * nat * nat)%type.

Definition match_size (m : Match) : nat := m.2.

(** Tuple comparison, as used by [list.sort]. *)
Definition match_le (x y : Match) : Prop :=
  x.1.1 < y.1.1 ∨ (x.1.1 = y.1.1 ∧ (x.1.2 < y.1.2 ∨ (x.1.2 = y.1.2 ∧ x.2 ≤ y.2))).

Global Instance match_le_dec : RelDecision match_le.
Proof. intros x y. unfold match_le. apply _. Defined.

(** [__chain_b], first loop: [b2j[elt]] lists the positions of [elt]. *)
Fixpoint chain_b_index (l : list ascii) (i : nat) (b2j : gmap ascii (list nat))
  : gmap ascii (list nat) :=
  match l with
  | [] => b2j
  | elt :: l' =>
      chain_b_index l' (S i) (<[elt := default [] (b2j !! elt) ++ [i]]> b2j)
  end.

(** [__chain_b], purge of popular elements: with at least 200 elements,
    any element that fills more than 1% of [b] (plus one) loses its entry. *)
Definition chain_b (b : list ascii) : gmap ascii (list nat) :=
  let b2j := chain_b_index b 0 ∅ in
  let n := length b in
  if 200 <=? n
  then let ntest := n / 100 + 1 in
       filter (λ kv : ascii * list nat, length kv.2 ≤ ntest) b2j
  else b2j.

Section find_longest_match.
Variables (a b : list ascii) (b2j : gmap ascii (list nat)).
Variables (alo ahi blo bhi : nat).

(** [a[i] == b[j]] for positions inside both sequences. *)
Definition same_at (i j : nat) : bool :=
  match a !! i, b !! j with
  | Some x, Some y => bool_decide (x = y)
  | _, _ => false
  end.

(** The inner [for j in b2j.get(a[i], nothing)] loop.  [j2len.get(j-1, 0)]
    looks up key [-1] when [j] is 0, which the dict never holds. *)
Fixpoint scan_row (i : nat) (js : list nat) (j2len newj2len : gmap nat nat)
    (best : Match) : gmap nat nat * Match :=
  match js with
  | [] => (newj2len, best)
  | j :: js' =>
      if j <? blo then scan_row i js' j2len newj2len best
      else if bhi <=? j then (newj2len, best)
      else
        let k := match j with
                 | O => 0
                 | S j' => default 0 (j2len !! j')
                 end + 1 in
        let newj2len := <[j := k]> newj2len in
        let best := if best.2 <? k then (i + 1 - k, j + 1 - k, k) else best in
        scan_row i js' j2len newj2len best
  end.

(** The outer [for i in range(alo, ahi)] loop. *)
Fixpoint scan_rows (rows : list nat) (j2len : gmap nat nat) (best : Match) : Match :=
  match rows with
  | [] => best
  | i :: rows' =>
      let js := match a !! i with
                | Some elt => default [] (b2j !! elt)
                | None => []
                end in
      let '(newj2len, best) := scan_row i js j2len ∅ best in
      scan_rows rows' newj2len best
  end.

(** First [while]: grow the match to the left. *)
Fixpoint extend_left (besti bestj bestsize : nat) : Match :=
  match besti, bestj with
  | S i', S j' =>
      if (alo <? besti) && (blo <? bestj) && same_at i' j'
      then extend_left i' j' (bestsize + 1)
      else (besti, bestj, bestsize)
  | _, _ => (besti, bestj, bestsize)
  end.

(** Second [while]: grow the match to the right; [room] is the distance
    from the end of the match to [ahi], after which the loop test fails. *)
Fixpoint extend_right (room besti bestj bestsize : nat) : Match :=
  match room with
  | O => (besti, bestj, bestsize)
  | S room' =>
      if (besti + bestsize <? ahi) && (bestj + bestsize <? bhi)
         && same_at (besti + bestsize) (bestj + bestsize)
      then extend_right room' besti bestj (bestsize + 1)
      else (besti, bestj, bestsize)
  end.

Definition find_longest_match : Match :=
  let '(besti, bestj, bestsize) := scan_rows (seq alo (ahi - alo)) ∅ (alo, blo, 0) in
  let '(besti, bestj, bestsize) := extend_left besti bestj bestsize in
  extend_right (ahi - (besti + bestsize)) besti bestj bestsize.

End find_longest_match.

(** The work list of [get_matching_blocks]: [queue.pop()] takes the head.
    [None] when [fuel] runs out before the queue does. *)
Fixpoint matching_loop (a b : list ascii) (b2j : gmap ascii (list nat)) (fuel : nat)
    (queue : list (nat * nat * nat * nat)) (matching_blocks : list Match)
  : option (list Match) :=
  match queue with
  | [] => Some matching_blocks
  | (alo, ahi, blo, bhi) :: queue =>
      match fuel with
      | O => None
      | S fuel' =>
          let x := find_longest_match a b b2j alo ahi blo bhi in
          let '(i, j, k) := x in
          if k =? 0 then matching_loop a b b2j fuel' queue matching_blocks
          else
            let queue := if (alo <? i) && (blo <? j)
                         then (alo, i, blo, j) :: queue else queue in
            let queue := if (i + k <? ahi) && (j + k <? bhi)
                         then (i + k, ahi, j + k, bhi) :: queue else queue in
            matching_loop a b b2j fuel' queue (matching_blocks ++ [x])
      end
  end.

(** Merging of adjacent blocks: the loop state is [(i1, j1, k1)] and the
    list built so far. *)
Fixpoint collapse (blocks : list Match) (cur : Match) (non_adjacent : list Match)
  : list Match :=
  match blocks with
  | [] => if cur.2 =? 0 then non_adjacent else non_adjacent ++ [cur]
  | (i2, j2, k2) :: rest =>
      let '(i1, j1, k1) := cur in
      if (i1 + k1 =? i2) && (j1 + k1 =? j2)
      then collapse rest (i1, j1, k1 + k2) non_adjacent
      else collapse rest (i2, j2, k2)
             (if k1 =? 0 then non_adjacent else non_adjacent ++ [cur])
  end.

(** Every pass of the work list with a non-empty match shortens the ranges
    left in the queue, so [2 * len(a) + 1] passes are enough
    (see [matching_loop_terminates]). *)
Definition enough_fuel (a : list ascii) : nat := 2 * length a + 1.

Definition get_matching_blocks (a b : list ascii) : list Match :=
  let la := length a in
  let lb := length b in
  match matching_loop a b (chain_b b) (enough_fuel a) [(0, la, 0, lb)] [] with
  | Some matching_blocks =>
      collapse (merge_sort match_le matching_blocks) (0, 0, 0) [] ++ [(la, lb, 0)]
  | None => []
  end.

(** [_calculate_ratio]; the float [2.0 * matches / length] is kept as the
    exact fraction.  Rounding to a double is monotone and, for texts
    shorter than 2^26 characters, maps distinct fractions of this form to
    distinct doubles, so the comparisons the fuzzy tier makes (between two
    scores, and of a score with 0.8) agree with those of the fractions. *)
Definition _calculate_ratio (matches length : nat) : Q :=
  match length with
  | O => 1
  | S _ => Z.of_nat (2 * matches) # Pos.of_nat length
  end.

(** [SequenceMatcher(None, a, b).ratio()] *)
Definition ratio (a b : string) : Q :=
  let sa := String.list_ascii_of_string a in
  let sb := String.list_ascii_of_string b in
  let matches := sum_list_with match_size (get_matching_blocks sa sb) in
  _calculate_ratio matches (length sa + length sb).

End difflib.

(** ** Data and collaborators of the matcher *)

(** An entry of [STATIC_QA_LIST]; [url], [label] and [variants] are read
    with [dict.get] and may be absent. *)
Record StaticQA : Type := {
  qa_key : string;
  qa_language : string;
  qa_answer : string;
  qa_url : option string;
  qa_label : option string;
  qa_variants : option (list string)
}.

(** An event of the open-days cache. *)
Record OpenDayEvent : Type := {
  event_name : string;
  date_iso : string;
  date_human : string;
  booking_link : string
}.

(** A knowledge-base chunk, as far as the matcher reads it. *)
Record Chunk : Type := {
  chunk_text : option string;
  chunk_url : option string
}.

(** What [find_best_answer] reads from outside its own code: the loaded
    tables and the external services.  [scalar] stands for numpy's
    [float32]; the arithmetic on it (norms, matrix product, [argsort] and
    [argpartition]) is [cosine_top_k].  [re_sub], [re_search] and
    [re_findall4] are [re.sub] (its first argument tells whether
    [re.MULTILINE] is set), [bool(re.search(...))] and [re.findall] for a
    pattern with four groups. *)
Record Env : Type := {
  scalar : Type;
  STATIC_QAS : list StaticQA;
  translate : string → string → Result string;
  get_open_day_events : list OpenDayEvent;
  fetch_family_context : string → option FamilyContext;
  uuid4 : nat → string;
  embeddings_create : string → Result (list scalar);
  EMBEDDINGS_shape : list nat;
  METADATA : list Chunk;
  cosine_top_k : list scalar → nat → list scalar * list nat;
  chat_completion : string → Result string;
  re_sub : bool → string → string → string → string;
  re_search : string → string → bool;
  re_findall4 : string → string → list (string * string * string * string)
}.

(** The five-tuple returned by [find_best_answer]. *)
Record Answer : Type := {
  answer : string;
  url : option string;
  label : option string;
  matched_key : option string;
  source : string
}.

Global Instance Answer_eq_dec : EqDecision Answer.
Proof. solve_decision. Defined.

(** ** Vector search *)

Module Retrieval.

(** [shape[i]] on a shape tuple. *)
Definition shape_at (shape : list nat) (i : nat) : Result nat :=
  match shape !! i with
  | Some n => Ok n
  | None => Raise IndexError
  end.

Definition bind {A B} (r : Result A) (k : A → Result B) : Result B :=
  match r with
  | Ok a => k a
  | Raise e => Raise e
  end.

(** [x and y], [x or y] with the right operand evaluated on demand. *)
Definition and_then (x : bool) (y : Result bool) : Result bool :=
  if x then y else Ok false.
Definition or_else (x : bool) (y : Result bool) : Result bool :=
  if x then Ok true else y.

Section with_env.
Variable env : Env.

Definition ndim : nat := length (EMBEDDINGS_shape env).

(** [embed_text]: the mismatch test only prints a warning. *)
Definition embed_text (text : string) : Result (list (scalar env)) :=
  bind (embeddings_create env (PyStr.strip text)) (λ vec,
  bind (and_then (ndim =? 2)
          (bind (shape_at (EMBEDDINGS_shape env) 0) (λ n0,
           and_then (0 <? n0)
             (bind (shape_at (EMBEDDINGS_shape env) 1) (λ n1,
              Ok (negb (n1 =? length vec))))))) (λ _warned,
  Ok vec)).

(** [vector_search] *)
Definition vector_search (query : string) (k : nat)
  : Result (list (scalar env) * list nat) :=
  bind (embed_text query) (λ q_vec,
  bind (or_else (negb (ndim =? 2))
          (bind (shape_at (EMBEDDINGS_shape env) 0) (λ n0, Ok (n0 =? 0)))) (λ not_ready,
  if not_ready then Ok ([], [])
  else
    bind (shape_at (EMBEDDINGS_shape env) 1) (λ n1,
    if negb (n1 =? length q_vec) then Ok ([], [])
    else Ok (cosine_top_k env q_vec k)))).

End with_env.

End Retrieval.

(** ** The world of a request *)

(** What the local variable [tracker] refers to: the object stored in the
    registry under a session id, or an object no one else holds. *)
Inductive TrackerRef : Type :=
  | InRegistry (sid : string)
  | Private.

(** Ghost record of the calls made on trackers, oldest first. *)
Inductive Event : Type :=
  | EvAddInteraction (ref : TrackerRef) (after : ConversationTracker)
  | EvEnhance (base_answer : string) (context : ConversationTracker)
              (family_ctx : option FamilyContext).

Record World : Type := {
  conversation_memory : gmap string ConversationTracker;
  clock : nat;
  trace : list Event
}.

Definition M (A : Type) : Type := World → Result A * World.

Definition ret {A} (a : A) : M A := λ w, (Ok a, w).
Definition raise {A} (e : PyExc) : M A := λ w, (Raise e, w).
Definition bind {A B} (m : M A) (k : A → M B) : M B :=
  λ w, match m w with
       | (Ok a, w') => k a w'
       | (Raise e, w') => (Raise e, w')
       end.
Definition lift {A} (r : Result A) : M A := λ w, (r, w).

(** [try: m except Exception: handler] *)
Definition try_except {A} (m : M A) (handler : PyExc → M A) : M A :=
  λ w, match m w with
       | (Ok a, w') => (Ok a, w')
       | (Raise e, w') => handler e w'
       end.

Global Instance M_ret : MRet M := @ret.
Global Instance M_bind : MBind M := λ A B k m, bind m k.

(** [datetime.now()]: reads the clock, which then moves on. *)
Definition datetime_now : M nat :=
  λ w, (Ok (clock w),
        {| conversation_memory := conversation_memory w;
           clock := S (clock w); trace := trace w |}).

Definition log (ev : Event) : M unit :=
  λ w, (Ok tt,
        {| conversation_memory := conversation_memory w;
           clock := clock w; trace := trace w ++ [ev] |}).

Definition registry_lookup (sid : string) : M (option ConversationTracker) :=
  λ w, (Ok (conversation_memory w !! sid), w).

Definition registry_store (sid : string) (t : ConversationTracker) : M unit :=
  λ w, (Ok tt,
        {| conversation_memory := <[sid := t]> (conversation_memory w);
           clock := clock w; trace := trace w |}).

(** A mutation through [ref] reaches the registry when [ref] is a registry
    entry, and nothing else when it is private. *)
Definition write_through (ref : TrackerRef) (t : ConversationTracker) : M unit :=
  match ref with
  | InRegistry sid => registry_store sid t
  | Private => ret tt
  end.

(** ** The matcher pipeline ([find_best_answer] and its helpers) *)

(** [detect_topic_from_question] *)
Definition detect_topic_from_question (question_text : string) : option string :=
  let q_lower := PyStr.lower question_text in
  if PyStr.any_in ["fee"; "cost"; "price"; "tuition"; "charges"] q_lower then Some "fees"
  else if PyStr.any_in ["admission"; "apply"; "join"; "register"] q_lower then Some "admissions"
  else if PyStr.any_in ["subject"; "curriculum"; "academic"] q_lower then Some "subjects"
  else if PyStr.any_in ["boarding"; "boarder"; "house"] q_lower then Some "boarding"
  else if PyStr.any_in ["scholarship"; "bursary"; "award"] q_lower then Some "scholarships"
  else if PyStr.any_in ["open"; "visit"; "tour"] q_lower then Some "open_events"
  else if PyStr.any_in ["sixth form"; "a level"; "upper college"] q_lower then Some "sixth_form"
  else if PyStr.any_in ["sport"; "athletics"; "rugby"; "netball"] q_lower then Some "sport"
  else None.

Definition topic_urls (topic : string) : option (string * string) :=
  if String.eqb topic "fees"
  then Some ("https://www.cheltenhamcollege.org/admissions/fees/", "View fees page")
  else if String.eqb topic "admissions"
  then Some ("https://www.cheltenhamcollege.org/admissions/", "Visit admissions page")
  else if String.eqb topic "subjects"
  then Some ("https://www.cheltenhamcollege.org/college/curriculum/", "Explore curriculum")
  else if String.eqb topic "boarding"
  then Some ("https://www.cheltenhamcollege.org/college/boarding/", "Discover boarding life")
  else if String.eqb topic "scholarships"
  then Some ("https://www.cheltenhamcollege.org/admissions/scholarships-awards/",
             "View scholarships")
  else if String.eqb topic "open_events"
  then Some ("https://www.cheltenhamcollege.org/admissions/visit-us/open-events/",
             "Book open event")
  else if String.eqb topic "sixth_form"
  then Some ("https://www.cheltenhamcollege.org/college/upper-college-16-18/",
             "Learn about Sixth Form")
  else if String.eqb topic "sport"
  then Some ("https://www.cheltenhamcollege.org/college/co-curricular/sport/",
             "Explore sports")
  else None.

(** [get_better_url_and_label] *)
Definition get_better_url_and_label (detected_topic meta_url : option string)
  : string * string :=
  match (if PyStr.truthy detected_topic
         then topic_urls (default EmptyString detected_topic) else None) with
  | Some found => found
  | None => (PyStr.or_else meta_url "https://www.cheltenhamcollege.org/", "Visit website")
  end.

Definition OPEN_DAYS_URL : string :=
  "https://www.cheltenhamcollege.org/admissions/visit-us/open-events/".

Definition open_day_keywords : list string :=
  ["open day"; "open morning"; "open evening"; "visit"; "tour"].

(** [sorted(events, key=lambda e: e["date_iso"])]: a stable sort, so among
    equal dates the earlier event stays first. *)
Fixpoint insert_by_date (e : OpenDayEvent) (sorted : list OpenDayEvent)
  : list OpenDayEvent :=
  match sorted with
  | [] => [e]
  | x :: rest =>
      if String.ltb (date_iso e) (date_iso x) then e :: x :: rest
      else x :: insert_by_date e rest
  end.

Definition sorted_by_date (events : list OpenDayEvent) : list OpenDayEvent :=
  fold_left (λ acc e, insert_by_date e acc) events [].

Definition no_match_response : string :=
  "I'm sorry, I don't have that specific information to hand. Would you like me to connect you with our admissions team who can help?".

(** [[qa['key']] + qa.get('variants', [])] *)
Definition all_variants (qa : StaticQA) : list string :=
  qa_key qa :: default [] (qa_variants qa).

(** [q_lower in [v.lower() for v in variants]] *)
Definition exact_hit (q_lower : string) (qa : StaticQA) : bool :=
  bool_decide (q_lower ∈ map PyStr.lower (all_variants qa)).

(** The loop of the exact tier, up to its [return]: the first entry of the
    request language that lists the question. *)
Fixpoint exact_match (table : list StaticQA) (language q_lower : string)
  : option StaticQA :=
  match table with
  | [] => None
  | qa :: rest =>
      if negb (String.eqb (qa_language qa) language) then exact_match rest language q_lower
      else if exact_hit q_lower qa then Some qa
      else exact_match rest language q_lower
  end.

(** [x > y] on scores. *)
Definition Qgtb (x y : Q) : bool := negb (Qle_bool x y).

(** The inner loop of the fuzzy tier over one entry's variants; the state
    is [(best_score, best_match)]. *)
Fixpoint fuzzy_variants (q_lower : string) (qa : StaticQA) (variants : list string)
    (best : Q * option StaticQA) : Q * option StaticQA :=
  match variants with
  | [] => best
  | var :: rest =>
      let score := difflib.ratio q_lower (PyStr.lower var) in
      fuzzy_variants q_lower qa rest
        (if Qgtb score best.1 then (score, Some qa) else best)
  end.

(** The outer loop of the fuzzy tier. *)
Fixpoint fuzzy_scan (table : list StaticQA) (language q_lower : string)
    (best : Q * option StaticQA) : Q * option StaticQA :=
  match table with
  | [] => best
  | qa :: rest =>
      if negb (String.eqb (qa_language qa) language)
      then fuzzy_scan rest language q_lower best
      else fuzzy_scan rest language q_lower
             (fuzzy_variants q_lower qa (all_variants qa) best)
  end.

(** [if best_match and best_score > 0.8]; an entry is a non-empty dict and
    so is true. *)
Definition fuzzy_match (table : list StaticQA) (language q_lower : string)
  : option StaticQA :=
  match fuzzy_scan table language q_lower (0%Q, None) with
  | (best_score, Some best_match) =>
      if Qgtb best_score (8 # 10) then Some best_match else None
  | (_, None) => None
  end.

(** [lst[-n:]] *)
Definition last_n {A} (n : nat) (l : list A) : list A := drop (length l - n) l.

(** [METADATA[i]] *)
Definition metadata_at (metadata : list Chunk) (i : nat) : Result Chunk :=
  match metadata !! i with
  | Some c => Ok c
  | None => Raise IndexError
  end.

(** [[METADATA[i].get("text", "") for i in idxs]] *)
Fixpoint context_texts (metadata : list Chunk) (idxs : list nat)
  : Result (list string) :=
  match idxs with
  | [] => Ok []
  | i :: rest =>
      Retrieval.bind (metadata_at metadata i) (λ c,
      Retrieval.bind (context_texts metadata rest) (λ texts,
      Ok (default EmptyString (chunk_text c) :: texts)))
  end.

(** The prompt sent to the generative model. *)
Definition build_prompt (tracker : ConversationTracker) (contexts : list string)
    (question : string) : string :=
  let conversation_context :=
    if 0 <? length (interactions tracker)
    then "Previous context: " +:+
         PyStr.join " | "
           (map (λ i, "Q: " +:+ PyStr.take 50 (i_question i))
                (last_n 3 (interactions tracker)))
    else EmptyString in
  (match conversation_context with
   | EmptyString => EmptyString
   | _ => conversation_context +:+ PyStr.nl +:+ PyStr.nl
   end) +:+
  "Use ONLY the passages below to answer." +:+ PyStr.nl +:+ PyStr.nl +:+
  PyStr.join (PyStr.nl +:+ "---" +:+ PyStr.nl) contexts +:+
  PyStr.nl +:+ PyStr.nl +:+ "Question: " +:+ question +:+ PyStr.nl +:+ "Answer:".

(** The pound sign U+00A3 of the patterns. *)
Definition pound : string := String (Ascii.ascii_of_nat 163) EmptyString.

(** A triple-quoted text, line by line. *)
Definition lines (ls : list string) : string := PyStr.join PyStr.nl ls.

(** [remove_bullets] *)
Definition remove_bullets (env : Env) (text : string) : string :=
  re_sub env true ("^[\s]*([" +:+ bullet +:+ "\-\*\d]+\s*)+") EmptyString text.

(** [format_response] *)
Definition format_response (env : Env) (text : string) : string :=
  re_sub env false "\n{2,}" (PyStr.nl +:+ PyStr.nl) (PyStr.strip text).

(** The "improved formatting" block of the retrieval tier: from the
    detected topic and the cleaned model output to [improved_answer]. *)
Definition improve_answer (env : Env) (detected_topic : option string) (clean : string)
  : string :=
  let bold_label := "\*\*([^*]+)\*\*:" in
  let bold := "\*\*([^*]+)\*\*" in
  let heading := "(\w)\s*([A-Z][^:]*:)" in
  let heading_repl := "\1\n\n\2" in
  if bool_decide (detected_topic = Some "fees") then
    let clean := re_sub env false bold_label "\1:" clean in
    let clean := re_sub env false bold "\1" clean in
    let clean := re_sub env false heading heading_repl clean in
    let clean := re_sub env false "\n{3,}" (PyStr.nl +:+ PyStr.nl) clean in
    let has_amounts := re_search env (pound +:+ "[\d,]+") clean in
    if has_amounts then
      lines ["SCHOOL FEES 2025-26"; "";
             PyStr.strip clean; "";
             "IMPORTANT INFORMATION:"; "";
             bullet +:+ " All fees exclude VAT (20% will be added to final amount)";
             bullet +:+ " Bursaries and scholarships available for eligible families  ";
             bullet +:+ " Flexible payment plans can be arranged"; "";
             "For complete fee schedules and additional cost breakdowns, please visit our fees page."]
    else
      lines ["FEES & FINANCIAL INFORMATION"; "";
             PyStr.strip clean; "";
             "IMPORTANT INFORMATION:"; "";
             bullet +:+ " All fees exclude VAT (20% will be added to final amount)";
             bullet +:+ " Bursaries and scholarships available for eligible families";
             bullet +:+ " Flexible payment plans can be arranged"; "";
             "For detailed fee schedules, payment options, and financial support information, please visit our fees page."]
  else if bool_decide (detected_topic = Some "open_events")
          || PyStr.contains "open morning" (PyStr.lower clean) then
    let clean := re_sub env false bold "\1" clean in
    let date_pattern := "(\w+day),?\s*(\d{1,2})[a-z]*\s*(\w+)\s*(\d{4})" in
    let dates := re_findall4 env date_pattern clean in
    match dates with
    | _ :: _ =>
        let formatted_dates :=
          map (λ '(day, date_num, month, year),
                 day +:+ " " +:+ date_num +:+ " " +:+ month +:+ " " +:+ year +:+
                 " from 9:30 AM - 12:30 PM") dates in
        if 0 <? length formatted_dates then
          let events_list :=
            PyStr.join PyStr.nl (map (λ date, bullet +:+ " " +:+ date) formatted_dates) in
          lines ["OPEN MORNING EVENTS"; "";
                 "Join us for an Open Morning to explore our facilities, meet staff and students, and experience school life firsthand.";
                 "";
                 "UPCOMING DATES:"; "";
                 events_list; "";
                 "HOW TO BOOK:"; "";
                 "Email: visits@cheltenhamcollege.org";
                 "Phone: 01242 265600"; "";
                 "These events fill up quickly, so we recommend booking early to secure your place."]
        else re_sub env false bold "\1" clean
    | [] => re_sub env false bold "\1" clean
    end
  else if PyStr.contains "head" (PyStr.lower clean)
          && (PyStr.contains "nicola" (PyStr.lower clean)
              || PyStr.contains "huggett" (PyStr.lower clean)) then
    lines ["SCHOOL LEADERSHIP"; "";
           "Head: Mrs Nicola Huggett"; "";
           "Mrs Huggett leads Cheltenham College with extensive experience in independent education. She is committed to academic excellence, pastoral care, and developing well-rounded students who are prepared for future success.";
           "";
           "For more information about our leadership team and staff, please visit our website."]
  else
    let improved_answer := re_sub env false bold_label "\1:" clean in
    let improved_answer := re_sub env false bold "\1" improved_answer in
    let improved_answer := re_sub env false heading heading_repl improved_answer in
    PyStr.strip (re_sub env false "\n{3,}" (PyStr.nl +:+ PyStr.nl) improved_answer).

Section pipeline.
Variable env : Env.

(** [tracker.add_interaction(...)] on the object behind [ref]. *)
Definition tracker_add_interaction (ref : TrackerRef) (tracker : ConversationTracker)
    (question answer : string) (topic : option string) : M ConversationTracker :=
  now ← datetime_now;
  let tracker' := add_interaction now tracker question answer topic in
  _ ← write_through ref tracker';
  _ ← log (EvAddInteraction ref tracker');
  mret tracker'.

(** [response_enhancer.enhance_for_voice(...)] *)
Definition call_enhance (base_answer : string) (tracker : ConversationTracker)
    (family_ctx : option FamilyContext) : M string :=
  _ ← log (EvEnhance base_answer tracker family_ctx);
  lift (ResponseEnhancer.enhance_for_voice base_answer tracker family_ctx).

(** [fetch_family_context(family_id) if family_id else None] *)
Definition family_context_for (family_id : option string) : option FamilyContext :=
  match family_id with
  | Some fid => if PyStr.truthy family_id then fetch_family_context env fid else None
  | None => None
  end.

(** The "get or create conversation tracker" block. *)
Definition resolve_tracker (session_id family_id : option string)
  : M (TrackerRef * ConversationTracker) :=
  match session_id with
  | Some sid =>
      if PyStr.truthy session_id then
        found ← registry_lookup sid;
        match found with
        | Some tracker => mret (InRegistry sid, tracker)
        | None =>
            now ← datetime_now;
            let tracker := new_tracker now sid family_id in
            _ ← registry_store sid tracker;
            mret (InRegistry sid, tracker)
        end
      else
        now ← datetime_now;
        mret (Private, new_tracker now (uuid4 env now) family_id)
  | None =>
      now ← datetime_now;
      mret (Private, new_tracker now (uuid4 env now) family_id)
  end.

(** The "enhance for voice" block shared by the answering tiers. *)
Definition enhance_if_session (session_id family_id : option string)
    (answer : string) (tracker : ConversationTracker) : M string :=
  if PyStr.truthy session_id
  then call_enhance answer tracker (family_context_for family_id)
  else mret answer.

(** [find_best_answer] *)
Definition find_best_answer (question language : string)
    (session_id family_id : option string) : M Answer :=
  let q_lower := PyStr.lower (PyStr.strip question) in
  q_for_match ←
    (if negb (String.eqb language "en")
     then try_except
            (translated ← lift (translate env question "en");
             mret (PyStr.lower (PyStr.strip translated)))
            (λ _, mret q_lower)
     else mret q_lower);
  if PyStr.any_in open_day_keywords q_lower then
    match sorted_by_date (get_open_day_events env) with
    | next_event :: _ =>
        mret {| answer := "Our next " +:+ event_name next_event +:+ " is on " +:+
                          date_human next_event +:+ ". " +:+
                          "You can find more details and register here: " +:+
                          booking_link next_event;
                url := Some (booking_link next_event);
                label := Some "Open Days";
                matched_key := Some "open_days";
                source := "open_days" |}
    | [] =>
        mret {| answer := "We don't currently have any upcoming Open Days listed. " +:+
                          "You can check back soon on our [Admissions page](" +:+
                          OPEN_DAYS_URL +:+ ").";
                url := Some OPEN_DAYS_URL;
                label := Some "Admissions";
                matched_key := Some "open_days";
                source := "open_days" |}
    end
  else
    '(ref, tracker) ← resolve_tracker session_id family_id;
    match exact_match (STATIC_QAS env) language q_lower with
    | Some qa =>
        tracker ← tracker_add_interaction ref tracker question (qa_answer qa)
                    (Some (qa_key qa));
        answer ← enhance_if_session session_id family_id (qa_answer qa) tracker;
        mret {| answer := answer; url := qa_url qa; label := qa_label qa;
                matched_key := Some (qa_key qa); source := "static" |}
    | None =>
    match fuzzy_match (STATIC_QAS env) language q_lower with
    | Some best_match =>
        tracker ← tracker_add_interaction ref tracker question (qa_answer best_match)
                    (Some (qa_key best_match));
        answer ← enhance_if_session session_id family_id (qa_answer best_match) tracker;
        mret {| answer := answer; url := qa_url best_match; label := qa_label best_match;
                matched_key := Some (qa_key best_match); source := "fuzzy" |}
    | None =>
        '(sims, idxs) ← lift (Retrieval.vector_search env question 10);
        if 0 <? length idxs then
          contexts ← lift (context_texts (METADATA env) (take 10 idxs));
          raw ← lift (chat_completion env (build_prompt tracker contexts question));
          let clean := format_response env (remove_bullets env raw) in
          meta ← lift (metadata_at (METADATA env) (default 0 (head idxs)));
          let detected_topic := detect_topic_from_question question in
          let improved_answer := improve_answer env detected_topic clean in
          let '(better_url, better_label) :=
            get_better_url_and_label detected_topic (chunk_url meta) in
          tracker ← tracker_add_interaction ref tracker question improved_answer
                      (Some "general");
          improved_answer ← enhance_if_session session_id family_id improved_answer tracker;
          improved_answer ←
            (if negb (String.eqb language "en")
             then try_except (lift (translate env improved_answer language))
                             (λ _, mret improved_answer)
             else mret improved_answer);
          mret {| answer := improved_answer; url := Some better_url;
                  label := Some better_label; matched_key := None; source := "rag" |}
        else
          _ ← (if PyStr.truthy session_id
               then _ ← tracker_add_interaction ref tracker question no_match_response
                          (Some "unknown"); mret tt
               else mret tt);
          mret {| answer := no_match_response; url := None; label := None;
                  matched_key := None; source := "none" |}
    end
    end.

End pipeline.
(** ** The static answer table ([static_qa_config.py])

    The generated table as shipped.  The apostrophe U+2019 in the answers of
    "enquiry" and "destinations" is the character [apostrophe]. *)

Definition SITE_ROOT : string := "https://www.cheltenhamcollege.org".

Definition PAGE_LINKS : gmap string string :=
  list_to_map
    [ ("admissions", "https://www.cheltenhamcollege.org/admissions/");
      ("anti-bullying", "https://www.cheltenhamcollege.org/wp-content/uploads/2025/02/Modern-Slavery-Statement.pdf");
      ("behaviour policy", "https://www.cheltenhamcollege.org/wp-content/uploads/2025/02/Modern-Slavery-Statement.pdf");
      ("boarding", "https://www.cheltenhamcollege.org/college/houses/");
      ("calendar", "https://www.cheltenhamcollege.org/key-information-for-parents/term-dates/");
      ("co-curricular", "https://www.cheltenhamcollege.org/college/co-curricular/");
      ("complaints", "https://www.cheltenhamcollege.org/wp-content/uploads/2025/02/Modern-Slavery-Statement.pdf");
      ("contact", "https://www.cheltenhamcollege.org/contact-us/");
      ("cookies", "https://www.cheltenhamcollege.org/");
      ("destinations", "https://www.cheltenhamcollege.org/");
      ("enquiry", "https://www.cheltenhamcollege.org/contact-us/");
      ("fees", "https://www.cheltenhamcollege.org/admissions/fees/");
      ("governors", "https://www.cheltenhamcollege.org/");
      ("home", "https://www.cheltenhamcollege.org/");
      ("homepage", "https://www.cheltenhamcollege.org/");
      ("isi report", "https://www.cheltenhamcollege.org/wp-content/uploads/2025/02/Modern-Slavery-Statement.pdf");
      ("main page", "https://www.cheltenhamcollege.org/");
      ("music", "https://www.cheltenhamcollege.org/individual-music-lessons/");
      ("open events", "https://www.cheltenhamcollege.org/admissions/visit-us/");
      ("pastoral", "https://www.cheltenhamcollege.org/college/health-wellbeing/");
      ("policies", "https://www.cheltenhamcollege.org/about-us/aims-policies/");
      ("privacy", "https://www.cheltenhamcollege.org/privacy-terms/");
      ("results", "https://www.cheltenhamcollege.org/college/2025-results/");
      ("safeguarding", "https://www.cheltenhamcollege.org/wp-content/uploads/2025/02/Modern-Slavery-Statement.pdf");
      ("scholarships", "https://www.cheltenhamcollege.org/scholarships-key-dates/");
      ("send", "https://www.cheltenhamcollege.org/health-promotion/");
      ("sixth form", "https://www.cheltenhamcollege.org/college/sixth-form/");
      ("sport", "https://www.cheltenhamcollege.org/college/sport/");
      ("staff", "https://www.cheltenhamcollege.org/about-us/our-staff/");
      ("head", "https://www.cheltenhamcollege.org/about-us/our-staff/");
      ("subjects", "https://www.cheltenhamcollege.org/college/lower-college-curriculum/");
      ("term dates", "https://www.cheltenhamcollege.org/key-information-for-parents/term-dates/");
      ("transport", "https://www.cheltenhamcollege.org/key-information-for-parents/bus-service/");
      ("uniform", "https://www.cheltenhamcollege.org/key-information-for-parents/uniform/") ].

(** [L(key)]: [PAGE_LINKS.get(key, SITE_ROOT)] *)
Definition L (key : string) : string := default SITE_ROOT (PAGE_LINKS !! key).

Definition qa_admissions : StaticQA :=
  {| qa_key := "admissions"; qa_language := "en";
     qa_answer := "Cheltenham College admissions information, entry process and who to contact.";
     qa_url := Some (L "admissions");
     qa_label := Some "Admissions";
     qa_variants := Some ["admissions"; "apply"; "join"; "application"; "registration";
                         "how to apply"; "entry process"] |}.

Definition qa_open_events : StaticQA :=
  {| qa_key := "open events"; qa_language := "en";
     qa_answer := "We host open mornings and visit opportunities throughout the year. Choose a date and register online.";
     qa_url := Some (L "open events");
     qa_label := Some "Open events";
     qa_variants := Some ["open morning"; "open day"; "visit"; "tour"; "open evening"] |}.

Definition STATIC_QA_LIST : list StaticQA :=
  [ qa_admissions;
    {| qa_key := "enquiry"; qa_language := "en";
       qa_answer := "Send an enquiry to our Admissions team and we" +:+ apostrophe +:+
                    "ll be in touch with next steps.";
       qa_url := Some (L "enquiry");
       qa_label := Some "Send an enquiry";
       qa_variants := Some ["enquiry"; "enquire"; "contact admissions"; "ask a question";
                           "request information"] |};
    qa_open_events;
    {| qa_key := "fees_vat"; qa_language := "en";
       qa_answer := "School fees at Cheltenham College **do include VAT** in line with current UK regulations. Please see our [fees page](https://www.cheltenhamcollege.org/admissions/fees/) for details of charges.";
       qa_url := Some (L "fees");
       qa_label := Some "Fees and VAT";
       qa_variants := Some ["vat"; "vat on fees"; "fees vat"; "fees include vat";
                           "school fees vat"; "do fees include vat"] |};
    {| qa_key := "scholarships"; qa_language := "en";
       qa_answer := "We offer a range of scholarships and bursaries. Guidance and criteria are available online.";
       qa_url := Some (L "scholarships");
       qa_label := Some "Scholarships & bursaries";
       qa_variants := Some ["scholarships"; "bursaries"; "financial aid"; "awards"] |};
    {| qa_key := "term dates"; qa_language := "en";
       qa_answer := "Term dates and the school calendar are available online.";
       qa_url := Some (L "term dates");
       qa_label := Some "Term dates";
       qa_variants := Some ["term dates"; "calendar"; "half term"; "holiday dates"] |};
    {| qa_key := "sixth form"; qa_language := "en";
       qa_answer := "Explore Sixth Form life, subjects and opportunities.";
       qa_url := Some (L "sixth form");
       qa_label := Some "Sixth Form";
       qa_variants := Some ["sixth form"; "a level"; "a-level"] |};
    {| qa_key := "subjects"; qa_language := "en";
       qa_answer := "Find details of subjects and the academic programme.";
       qa_url := Some (L "subjects");
       qa_label := Some "Subjects & curriculum";
       qa_variants := Some ["subjects"; "curriculum"; "departments"; "academic"] |};
    {| qa_key := "pastoral"; qa_language := "en";
       qa_answer := "Pastoral care and wellbeing information.";
       qa_url := Some (L "pastoral");
       qa_label := Some "Pastoral care";
       qa_variants := Some ["pastoral"; "wellbeing"; "support"] |};
    {| qa_key := "boarding"; qa_language := "en";
       qa_answer := "Cheltenham College offers boarding and day places. Read about our boarding information and principles.";
       qa_url := Some (L "boarding");
       qa_label := Some "Boarding";
       qa_variants := Some ["boarding"; "houses"; "boarder"; "boarding principles"] |};
    {| qa_key := "safeguarding"; qa_language := "en";
       qa_answer := "Read about safeguarding and our policies.";
       qa_url := Some (L "safeguarding");
       qa_label := Some "Safeguarding";
       qa_variants := Some ["safeguarding"; "child protection"] |};
    {| qa_key := "send"; qa_language := "en";
       qa_answer := "Information about learning support (SEND).";
       qa_url := Some (L "send");
       qa_label := Some "Learning support (SEND)";
       qa_variants := Some ["send"; "sen"; "learning support"; "academic support"; "eal"] |};
    {| qa_key := "behaviour policy"; qa_language := "en";
       qa_answer := "Read the behaviour policy.";
       qa_url := Some (L "behaviour policy");
       qa_label := Some "Behaviour policy";
       qa_variants := Some ["behaviour"; "discipline"; "code of conduct"] |};
    {| qa_key := "anti-bullying"; qa_language := "en";
       qa_answer := "Read the anti-bullying policy.";
       qa_url := Some (L "anti-bullying");
       qa_label := Some "Anti-bullying policy";
       qa_variants := Some ["anti bullying"; "bullying"] |};
    {| qa_key := "complaints"; qa_language := "en";
       qa_answer := "Read the complaints policy and procedure.";
       qa_url := Some (L "complaints");
       qa_label := Some "Complaints policy";
       qa_variants := Some ["complaints"; "complaint procedure"] |};
    {| qa_key := "isi report"; qa_language := "en";
       qa_answer := "Read the latest inspection (ISI) report.";
       qa_url := Some (L "isi report");
       qa_label := Some "ISI report";
       qa_variants := Some ["isi"; "inspection report"; "isi inspection"] |};
    {| qa_key := "co-curricular"; qa_language := "en";
       qa_answer := "Co-curricular opportunities, clubs and activities.";
       qa_url := Some (L "co-curricular");
       qa_label := Some "Co-curricular";
       qa_variants := Some ["co-curricular"; "clubs"; "activities"; "societies"] |};
    {| qa_key := "sport"; qa_language := "en";
       qa_answer := "Sport at school, including fixtures and programmes.";
       qa_url := Some (L "sport");
       qa_label := Some "Sport";
       qa_variants := Some ["sport"; "games"; "pe"; "fixtures"] |};
    {| qa_key := "music"; qa_language := "en";
       qa_answer := "Music opportunities and ensembles.";
       qa_url := Some (L "music");
       qa_label := Some "Music";
       qa_variants := Some ["music"; "choir"; "orchestra"] |};
    {| qa_key := "results"; qa_language := "en";
       qa_answer := "Recent academic results and headline outcomes.";
       qa_url := Some (L "results");
       qa_label := Some "Results";
       qa_variants := Some ["results"; "exam results"; "academic results"; "grades"] |};
    {| qa_key := "destinations"; qa_language := "en";
       qa_answer := "Leavers" +:+ apostrophe +:+ " destinations and university entries.";
       qa_url := Some (L "destinations");
       qa_label := Some ("Leavers" +:+ apostrophe +:+ " destinations");
       qa_variants := Some ["destinations"; "university destinations"; "leavers"] |};
    {| qa_key := "uniform"; qa_language := "en";
       qa_answer := "Uniform information and outfitters.";
       qa_url := Some (L "uniform");
       qa_label := Some "Uniform";
       qa_variants := Some ["uniform"; "outfitters"] |};
    {| qa_key := "transport"; qa_language := "en";
       qa_answer := "Transport routes and travel information.";
       qa_url := Some (L "transport");
       qa_label := Some "Transport";
       qa_variants := Some ["transport"; "bus"; "coach"; "minibus"] |};
    {| qa_key := "governors"; qa_language := "en";
       qa_answer := "Meet the Governors / Trustees.";
       qa_url := Some (L "governors");
       qa_label := Some "Governors";
       qa_variants := Some ["governors"; "board of governors"; "trustees"] |};
    {| qa_key := "staff"; qa_language := "en";
       qa_answer := "Find staff information and contacts.";
       qa_url := Some (L "staff");
       qa_label := Some "Staff";
       qa_variants := Some ["staff"; "staff list"; "directory"; "teachers"] |};
    {| qa_key := "policies"; qa_language := "en";
       qa_answer := "Browse all policies.";
       qa_url := Some (L "policies");
       qa_label := Some "Policies";
       qa_variants := Some ["policies"; "policy list"] |};
    {| qa_key := "privacy"; qa_language := "en";
       qa_answer := "Read our Privacy Policy.";
       qa_url := Some (L "privacy");
       qa_label := Some "Privacy Policy";
       qa_variants := Some ["privacy"; "gdpr"; "data protection"] |};
    {| qa_key := "cookies"; qa_language := "en";
       qa_answer := "Cookie Policy.";
       qa_url := Some (L "cookies");
       qa_label := Some "Cookies";
       qa_variants := Some ["cookies"; "cookie policy"] |};
    {| qa_key := "contact"; qa_language := "en";
       qa_answer := "Get in touch with the school team.";
       qa_url := Some (L "contact");
       qa_label := Some "Contact";
       qa_variants := Some ["contact"; "contact us"; "how to find us"; "phone number"; "email"] |};
    {| qa_key := "policy::13 scholarship application form 2026"; qa_language := "en";
       qa_answer := "Read the 13 Scholarship Application Form 2026.";
       qa_url := Some ("https://cheltenham-college.s3.eu-west-2.amazonaws.com/wp-content/uploads/2025/09/01090352/13-Scholarship-Application-Form-2026.pdf");
       qa_label := Some "13 Scholarship Application Form 2026";
       qa_variants := Some ["policy scholarship application form";
                           "13 scholarship application form 2026"; "scholarship application form"] |};
    {| qa_key := "policy::16 scholarship application form 2025"; qa_language := "en";
       qa_answer := "Read the 16 Scholarship Application Form 2025.";
       qa_url := Some ("https://cheltenham-college.s3.eu-west-2.amazonaws.com/wp-content/uploads/2025/09/01090417/16-Scholarship-Application-Form-2025.pdf");
       qa_label := Some "16 Scholarship Application Form 2025";
       qa_variants := Some ["16 scholarship application form 2025";
                           "policy scholarship application form"; "scholarship application form"] |};
    {| qa_key := "policy::2023 overseas schools 1"; qa_language := "en";
       qa_answer := "Read the 2023 Overseas Schools 1.";
       qa_url := Some ("https://cheltenham-college.s3.eu-west-2.amazonaws.com/wp-content/uploads/2023/11/27145407/2023-Overseas-Schools-1.pdf");
       qa_label := Some "2023 Overseas Schools 1";
       qa_variants := Some ["policy overseas schools"; "2023 overseas schools 1";
                           "overseas schools"] |};
    {| qa_key := "policy::admissions policy cc"; qa_language := "en";
       qa_answer := "Read the Admissions Policy Cc.";
       qa_url := Some ("https://cheltenham-college.s3.eu-west-2.amazonaws.com/wp-content/uploads/2025/06/24143341/Admissions-Policy-CC.pdf");
       qa_label := Some "Admissions Policy Cc";
       qa_variants := Some ["admissions  cc"; "admissions policy cc"; "policy admissions cc";
                           "admissions cc"] |};
    {| qa_key := "policy::anti bullying p policy"; qa_language := "en";
       qa_answer := "Read the Anti Bullying P Policy.";
       qa_url := Some ("https://cheltenham-college.s3.eu-west-2.amazonaws.com/wp-content/uploads/2025/06/24143508/Anti-Bullying-P.pdf");
       qa_label := Some "Anti Bullying P Policy";
       qa_variants := Some ["anti bullying p policy"; "anti bullying p"; "policy anti bullying p"] |};
    {| qa_key := "policy::anti bullying policy c"; qa_language := "en";
       qa_answer := "Read the Anti Bullying Policy C.";
       qa_url := Some ("https://cheltenham-college.s3.eu-west-2.amazonaws.com/wp-content/uploads/2025/06/24143718/Anti-Bullying-Policy-C.pdf");
       qa_label := Some "Anti Bullying Policy C";
       qa_variants := Some ["anti bullying c"; "anti bullying  c"; "anti bullying policy c";
                           "policy anti bullying c"] |};
    {| qa_key := "policy::assistant camp co ordinator"; qa_language := "en";
       qa_answer := "Read the Assistant Camp Co Ordinator.";
       qa_url := Some ("https://cheltenham-college.s3.eu-west-2.amazonaws.com/wp-content/uploads/2025/08/27134315/Assistant-Camp-Co-Ordinator.pdf");
       qa_label := Some "Assistant Camp Co Ordinator";
       qa_variants := Some ["policy assistant camp co ordinator"; "assistant camp co ordinator"] |};
    {| qa_key := "policy::attendance and registration policy c"; qa_language := "en";
       qa_answer := "Read the Attendance and Registration Policy C.";
       qa_url := Some ("https://cheltenham-college.s3.eu-west-2.amazonaws.com/wp-content/uploads/2025/09/08143223/Attendance-and-Registration-Policy-C.pdf");
       qa_label := Some "Attendance and Registration Policy C";
       qa_variants := Some ["attendance and registration c";
                           "policy attendance and registration c";
                           "attendance and registration  c";
                           "attendance and registration policy c"] |};
    {| qa_key := "policy::attendance and registration policy p"; qa_language := "en";
       qa_answer := "Read the Attendance and Registration Policy P.";
       qa_url := Some ("https://cheltenham-college.s3.eu-west-2.amazonaws.com/wp-content/uploads/2025/09/09090834/Attendance-and-Registration-Policy-P-.pdf");
       qa_label := Some "Attendance and Registration Policy P";
       qa_variants := Some ["attendance and registration p";
                           "policy attendance and registration p";
                           "attendance and registration  p";
                           "attendance and registration policy p"] |};
    {| qa_key := "policy::boarding principles p"; qa_language := "en";
       qa_answer := "Read the Boarding Principles P.";
       qa_url := Some ("https://cheltenham-college.s3.eu-west-2.amazonaws.com/wp-content/uploads/2025/08/06145039/Boarding-Principles-P.pdf");
       qa_label := Some "Boarding Principles P";
       qa_variants := Some ["policy boarding principles p"; "boarding principles p"] |};
    {| qa_key := "policy::bursary policy cc"; qa_language := "en";
       qa_answer := "Read the Bursary Policy Cc.";
       qa_url := Some ("https://cheltenham-college.s3.eu-west-2.amazonaws.com/wp-content/uploads/2025/09/09133612/Bursary-Policy-CC.pdf");
       qa_label := Some "Bursary Policy Cc";
       qa_variants := Some ["bursary policy cc"; "bursary cc"; "policy bursary cc"; "bursary  cc"] |};
    {| qa_key := "policy::bus timetable"; qa_language := "en";
       qa_answer := "Read the Bus Timetable.";
       qa_url := Some ("https://cheltenham-college.s3.eu-west-2.amazonaws.com/wp-content/uploads/2024/09/19091752/Bus-Timetable.pdf");
       qa_label := Some "Bus Timetable";
       qa_variants := Some ["bus timetable"; "policy bus timetable"] |};
    {| qa_key := "policy::cc sept 23"; qa_language := "en";
       qa_answer := "Read the Cc Sept 23.";
       qa_url := Some ("https://cheltenham-college.s3.eu-west-2.amazonaws.com/wp-content/uploads/2023/03/30141237/CC-Sept-23.pdf");
       qa_label := Some "Cc Sept 23";
       qa_variants := Some ["cc sept 23"; "cc sept"; "policy cc sept"] |};
    {| qa_key := "policy::cc279 isi college 2023 digi"; qa_language := "en";
       qa_answer := "Read the Cc279 Isi College 2023 Digi.";
       qa_url := Some ("https://cheltenham-college.s3.eu-west-2.amazonaws.com/wp-content/uploads/2023/06/21140127/CC279-ISI-College-2023-Digi.pdf");
       qa_label := Some "Cc279 Isi College 2023 Digi";
       qa_variants := Some ["cc279 isi college 2023 digi"; "policy cc isi college digi";
                           "cc isi college digi"] |};
    {| qa_key := "policy::cctv policy cc"; qa_language := "en";
       qa_answer := "Read the Cctv Policy Cc.";
       qa_url := Some ("https://cheltenham-college.s3.eu-west-2.amazonaws.com/wp-content/uploads/2024/11/27093645/CCTV-Policy-CC.pdf");
       qa_label := Some "Cctv Policy Cc";
       qa_variants := Some ["cctv cc"; "cctv  cc"; "policy cctv cc"; "cctv policy cc"] |};
    {| qa_key := "policy::cctv privacy impact assessment cc policy"; qa_language := "en";
       qa_answer := "Read the Cctv Privacy Impact Assessment Cc Policy.";
       qa_url := Some ("https://cheltenham-college.s3.eu-west-2.amazonaws.com/wp-content/uploads/2024/11/27093718/CCTV-Privacy-Impact-Assessment-CC.pdf");
       qa_label := Some "Cctv Privacy Impact Assessment Cc Policy";
       qa_variants := Some ["cctv privacy impact assessment cc policy";
                           "cctv privacy impact assessment cc";
                           "policy cctv privacy impact assessment cc"] |};
    {| qa_key := "policy::cheltenham college isi report"; qa_language := "en";
       qa_answer := "Read the Cheltenham College Isi Report.";
       qa_url := Some ("https://cheltenham-college.s3.eu-west-2.amazonaws.com/wp-content/uploads/2023/05/24135508/Cheltenham-College-ISI-Report.pdf");
       qa_label := Some "Cheltenham College Isi Report";
       qa_variants := Some ["policy cheltenham college isi report";
                           "cheltenham college isi report"] |};
    {| qa_key := "policy::cheltenham college preparatory school eqi report v5 2023 05 231"; qa_language := "en";
       qa_answer := "Read the Cheltenham College Preparatory School Eqi Report V5 2023 05 231.";
       qa_url := Some ("https://cheltenham-college.s3.eu-west-2.amazonaws.com/wp-content/uploads/2023/05/24135533/Cheltenham-College-Preparatory-School-EQI-report-v5-2023-05-231.pdf");
       qa_label := Some "Cheltenham College Preparatory School Eqi Report V5 2023 05 231";
       qa_variants := Some ["cheltenham college preparatory school eqi report v5 2023 05 231";
                           "policy cheltenham college preparatory school eqi report v";
                           "cheltenham college preparatory school eqi report v"] |};
    {| qa_key := "policy::cheltenham prep uniform list 2023"; qa_language := "en";
       qa_answer := "Read the Cheltenham Prep Uniform List 2023.";
       qa_url := Some ("https://cheltenham-college.s3.eu-west-2.amazonaws.com/wp-content/uploads/2023/10/27142315/Cheltenham-Prep-Uniform-List-2023.pdf");
       qa_label := Some "Cheltenham Prep Uniform List 2023";
       qa_variants := Some ["policy cheltenham prep uniform list";
                           "cheltenham prep uniform list"; "cheltenham prep uniform list 2023"] |};
    {| qa_key := "policy::climate action plan 2024.25"; qa_language := "en";
       qa_answer := "Read the Climate Action Plan 2024.25.";
       qa_url := Some ("https://cheltenham-college.s3.eu-west-2.amazonaws.com/wp-content/uploads/2024/11/08101137/Climate-Action-Plan-2024.25.pdf");
       qa_label := Some "Climate Action Plan 2024.25";
       qa_variants := Some ["policy climate action plan"; "climate action plan";
                           "climate action plan 2024.25"] |};
    {| qa_key := "policy::climate action report 2023 2024"; qa_language := "en";
       qa_answer := "Read the Climate Action Report 2023 2024.";
       qa_url := Some ("https://cheltenham-college.s3.eu-west-2.amazonaws.com/wp-content/uploads/2024/09/10153304/Climate-Action-Report-2023-2024.pdf");
       qa_label := Some "Climate Action Report 2023 2024";
       qa_variants := Some ["climate action report 2023 2024"; "climate action report";
                           "policy climate action report"] |};
    {| qa_key := "policy::college additional costs 2025 26"; qa_language := "en";
       qa_answer := "Read the College Additional Costs 2025 26.";
       qa_url := Some ("https://cheltenham-college.s3.eu-west-2.amazonaws.com/wp-content/uploads/2025/04/29124046/College-Additional-Costs-2025-26.pdf");
       qa_label := Some "College Additional Costs 2025 26";
       qa_variants := Some ["college additional costs 2025 26"; "college additional costs";
                           "policy college additional costs"] |};
    {| qa_key := "policy::college dining hall menu autumn 2025"; qa_language := "en";
       qa_answer := "Read the College Dining Hall Menu Autumn 2025.";
       qa_url := Some ("https://cheltenham-college.s3.eu-west-2.amazonaws.com/wp-content/uploads/2025/09/01144432/College-Dining-Hall-Menu-Autumn-2025.pdf");
       qa_label := Some "College Dining Hall Menu Autumn 2025";
       qa_variants := Some ["college dining hall menu autumn";
                           "college dining hall menu autumn 2025";
                           "policy college dining hall menu autumn"] |};
    {| qa_key := "policy::college sports kit 2022 fva 180322"; qa_language := "en";
       qa_answer := "Read the College Sports Kit 2022 Fva 180322.";
       qa_url := Some ("https://cheltenham-college.s3.eu-west-2.amazonaws.com/wp-content/uploads/2022/03/26061259/College-Sports-Kit-2022-FVA-180322.pdf");
       qa_label := Some "College Sports Kit 2022 Fva 180322";
       qa_variants := Some ["policy college sports kit fva";
                           "college sports kit 2022 fva 180322"; "college sports kit fva"] |};
    {| qa_key := "policy::college timeline anne cadbury room18"; qa_language := "en";
       qa_answer := "Read the College Timeline Anne Cadbury Room18.";
       qa_url := Some ("https://cheltenham-college.s3.eu-west-2.amazonaws.com/wp-content/uploads/2023/08/30121907/College-Timeline-Anne-Cadbury-Room18.pdf");
       qa_label := Some "College Timeline Anne Cadbury Room18";
       qa_variants := Some ["college timeline anne cadbury room";
                           "policy college timeline anne cadbury room";
                           "college timeline anne cadbury room18"] |};
    {| qa_key := "policy::curriculum policy c"; qa_language := "en";
       qa_answer := "Read the Curriculum Policy C.";
       qa_url := Some ("https://cheltenham-college.s3.eu-west-2.amazonaws.com/wp-content/uploads/2024/10/08135850/Curriculum-Policy-C.pdf");
       qa_label := Some "Curriculum Policy C";
       qa_variants := Some ["policy curriculum c"; "curriculum c"; "curriculum policy c";
                           "curriculum  c"] |};
    {| qa_key := "policy::curriculum policy p"; qa_language := "en";
       qa_answer := "Read the Curriculum Policy P.";
       qa_url := Some ("https://cheltenham-college.s3.eu-west-2.amazonaws.com/wp-content/uploads/2024/10/03143650/Curriculum-Policy-P.pdf");
       qa_label := Some "Curriculum Policy P";
       qa_variants := Some ["curriculum policy p"; "policy curriculum p"; "curriculum  p";
                           "curriculum p"] |};
    {| qa_key := "policy::dates and deadlines"; qa_language := "en";
       qa_answer := "Read the Dates and Deadlines.";
       qa_url := Some ("https://cheltenham-college.s3.eu-west-2.amazonaws.com/wp-content/uploads/2022/09/23142756/Dates-and-Deadlines.pdf");
       qa_label := Some "Dates and Deadlines";
       qa_variants := Some ["dates and deadlines"; "policy dates and deadlines"] |};
    {| qa_key := "policy::dining hall spring menu"; qa_language := "en";
       qa_answer := "Read the Dining Hall Spring Menu.";
       qa_url := Some ("https://cheltenham-college.s3.eu-west-2.amazonaws.com/wp-content/uploads/2025/03/06161644/Dining-Hall-Spring-menu.pdf");
       qa_label := Some "Dining Hall Spring Menu";
       qa_variants := Some ["policy dining hall spring menu"; "dining hall spring menu"] |};
    {| qa_key := "policy::eal policy c"; qa_language := "en";
       qa_answer := "Read the Eal Policy C.";
       qa_url := Some ("https://cheltenham-college.s3.eu-west-2.amazonaws.com/wp-content/uploads/2025/06/09090207/EAL-Policy-C.pdf");
       qa_label := Some "Eal Policy C";
       qa_variants := Some ["policy eal c"; "eal c"; "eal  c"; "eal policy c"] |};
    {| qa_key := "policy::eal policy p"; qa_language := "en";
       qa_answer := "Read the Eal Policy P.";
       qa_url := Some ("https://cheltenham-college.s3.eu-west-2.amazonaws.com/wp-content/uploads/2025/06/10080227/EAL-Policy-P.pdf");
       qa_label := Some "Eal Policy P";
       qa_variants := Some ["eal  p"; "policy eal p"; "eal policy p"; "eal p"] |};
    {| qa_key := "policy::energy policy cc"; qa_language := "en";
       qa_answer := "Read the Energy Policy Cc.";
       qa_url := Some ("https://cheltenham-college.s3.eu-west-2.amazonaws.com/wp-content/uploads/2024/02/29155318/Energy-Policy-CC.pdf");
       qa_label := Some "Energy Policy Cc";
       qa_variants := Some ["energy cc"; "energy policy cc"; "energy  cc"; "policy energy cc"] |};
    {| qa_key := "policy::evensong summer 2023"; qa_language := "en";
       qa_answer := "Read the Evensong Summer 2023.";
       qa_url := Some ("https://cheltenham-college.s3.eu-west-2.amazonaws.com/wp-content/uploads/2023/05/04125841/Evensong-Summer-2023.pdf");
       qa_label := Some "Evensong Summer 2023";
       qa_variants := Some ["evensong summer"; "evensong summer 2023"; "policy evensong summer"] |};
    {| qa_key := "policy::fees supervisor july 25"; qa_language := "en";
       qa_answer := "Read the Fees Supervisor July 25.";
       qa_url := Some ("https://cheltenham-college.s3.eu-west-2.amazonaws.com/wp-content/uploads/2025/09/01152139/Fees-Supervisor-July-25.pdf");
       qa_label := Some "Fees Supervisor July 25";
       qa_variants := Some ["fees supervisor july"; "fees supervisor july 25";
                           "policy fees supervisor july"] |};
    {| qa_key := "policy::first aid policy cc"; qa_language := "en";
       qa_answer := "Read the First Aid Policy Cc.";
       qa_url := Some ("https://cheltenham-college.s3.eu-west-2.amazonaws.com/wp-content/uploads/2025/03/17141231/First-Aid-Policy-CC.pdf");
       qa_label := Some "First Aid Policy Cc";
       qa_variants := Some ["first aid  cc"; "first aid cc"; "policy first aid cc";
                           "first aid policy cc"] |};
    {| qa_key := "policy::fourth and fifth form uniform list"; qa_language := "en";
       qa_answer := "Read the Fourth and Fifth Form Uniform List.";
       qa_url := Some ("https://cheltenham-college.s3.eu-west-2.amazonaws.com/wp-content/uploads/2025/06/12134950/Fourth-and-Fifth-Form-Uniform-List.pdf");
       qa_label := Some "Fourth and Fifth Form Uniform List";
       qa_variants := Some ["fourth and fifth form uniform list";
                           "policy fourth and fifth form uniform list"] |};
    {| qa_key := "policy::fv identity introduction"; qa_language := "en";
       qa_answer := "Read the Fv Identity Introduction.";
       qa_url := Some ("https://cheltenham-college.s3.eu-west-2.amazonaws.com/wp-content/uploads/2022/02/26061507/FV-Identity-Introduction.pdf");
       qa_label := Some "Fv Identity Introduction";
       qa_variants := Some ["policy fv identity introduction"; "fv identity introduction"] |};
    {| qa_key := "policy::gender pay gap statement 2024 policy"; qa_language := "en";
       qa_answer := "Read the Gender Pay Gap Statement 2024 Policy.";
       qa_url := Some ("https://cheltenham-college.s3.eu-west-2.amazonaws.com/wp-content/uploads/2025/02/04120247/Gender-Pay-Gap-Statement-2024.pdf");
       qa_label := Some "Gender Pay Gap Statement 2024 Policy";
       qa_variants := Some ["gender pay gap statement policy"; "policy gender pay gap statement";
                           "gender pay gap statement"; "gender pay gap statement 2024 policy"] |};
    {| qa_key := "policy::guardianship policy cc"; qa_language := "en";
       qa_answer := "Read the Guardianship Policy Cc.";
       qa_url := Some ("https://cheltenham-college.s3.eu-west-2.amazonaws.com/wp-content/uploads/2025/08/29154156/Guardianship-Policy-CC.pdf");
       qa_label := Some "Guardianship Policy Cc";
       qa_variants := Some ["policy guardianship cc"; "guardianship cc";
                           "guardianship policy cc"; "guardianship  cc"] |};
    {| qa_key := "policy::health centre handbook 2023 policy"; qa_language := "en";
       qa_answer := "Read the Health Centre Handbook 2023 Policy.";
       qa_url := Some ("https://cheltenham-college.s3.eu-west-2.amazonaws.com/wp-content/uploads/2023/04/03131918/Health-Centre-Handbook-2023.pdf");
       qa_label := Some "Health Centre Handbook 2023 Policy";
       qa_variants := Some ["policy health centre handbook"; "health centre handbook policy";
                           "health centre handbook"; "health centre handbook 2023 policy"] |};
    {| qa_key := "policy::health and safety cc policy"; qa_language := "en";
       qa_answer := "Read the Health and Safety Cc Policy.";
       qa_url := Some ("https://cheltenham-college.s3.eu-west-2.amazonaws.com/wp-content/uploads/2025/05/15085800/Health-and-Safety-CC.pdf");
       qa_label := Some "Health and Safety Cc Policy";
       qa_variants := Some ["health and safety cc policy"; "policy health and safety cc";
                           "health and safety cc"] |};
    {| qa_key := "policy::house principles c"; qa_language := "en";
       qa_answer := "Read the House Principles C.";
       qa_url := Some ("https://cheltenham-college.s3.eu-west-2.amazonaws.com/wp-content/uploads/2024/10/15115539/House-Principles-C.pdf");
       qa_label := Some "House Principles C";
       qa_variants := Some ["policy house principles c"; "house principles c"] |};
    {| qa_key := "policy::humanities teacher maternity cover january 2026"; qa_language := "en";
       qa_answer := "Read the Humanities Teacher Maternity Cover January 2026.";
       qa_url := Some ("https://cheltenham-college.s3.eu-west-2.amazonaws.com/wp-content/uploads/2025/09/02122633/Humanities-Teacher-Maternity-Cover-January-2026.pdf");
       qa_label := Some "Humanities Teacher Maternity Cover January 2026";
       qa_variants := Some ["policy humanities teacher maternity cover january";
                           "humanities teacher maternity cover january";
                           "humanities teacher maternity cover january 2026"] |};
    {| qa_key := "policy::independent guidance on criminal records disclosure policy"; qa_language := "en";
       qa_answer := "Read the Independent Guidance on Criminal Records Disclosure Policy.";
       qa_url := Some ("https://cheltenham-college.s3.eu-west-2.amazonaws.com/wp-content/uploads/2025/07/03153056/Independent-Guidance-on-Criminal-Records-Disclosure.pdf");
       qa_label := Some "Independent Guidance on Criminal Records Disclosure Policy";
       qa_variants := Some ["independent guidance on criminal records disclosure policy";
                           "independent guidance on criminal records disclosure";
                           "policy independent guidance on criminal records disclosure"] |};
    {| qa_key := "policy::isi cheltenham prep 2023 digi"; qa_language := "en";
       qa_answer := "Read the Isi Cheltenham Prep 2023 Digi.";
       qa_url := Some ("https://cheltenham-college.s3.eu-west-2.amazonaws.com/wp-content/uploads/2023/06/21135852/ISI-Cheltenham-Prep-2023-DIGI.pdf");
       qa_label := Some "Isi Cheltenham Prep 2023 Digi";
       qa_variants := Some ["policy isi cheltenham prep digi"; "isi cheltenham prep 2023 digi";
                           "isi cheltenham prep digi"] |};
    {| qa_key := "policy::isi intergrated inspection report cheltenham college 2016"; qa_language := "en";
       qa_answer := "Read the Isi Intergrated Inspection Report Cheltenham College 2016.";
       qa_url := Some ("https://cheltenham-college.s3.eu-west-2.amazonaws.com/wp-content/uploads/2025/04/29132507/ISI-Intergrated-Inspection-Report-Cheltenham-College-2016.pdf");
       qa_label := Some "Isi Intergrated Inspection Report Cheltenham College 2016";
       qa_variants := Some ["isi intergrated inspection report cheltenham college";
                           "isi intergrated inspection report cheltenham college 2016";
                           "policy isi intergrated inspection report cheltenham college"] |};
    {| qa_key := "policy::isi intergrated inspection report cheltenham prep 2016"; qa_language := "en";
       qa_answer := "Read the Isi Intergrated Inspection Report Cheltenham Prep 2016.";
       qa_url := Some ("https://cheltenham-college.s3.eu-west-2.amazonaws.com/wp-content/uploads/2025/04/29132511/ISI-Intergrated-Inspection-Report-Cheltenham-Prep-2016.pdf");
       qa_label := Some "Isi Intergrated Inspection Report Cheltenham Prep 2016";
       qa_variants := Some ["isi intergrated inspection report cheltenham prep";
                           "policy isi intergrated inspection report cheltenham prep";
                           "isi intergrated inspection report cheltenham prep 2016"] |};
    {| qa_key := "policy::isi regulatory compliance inspection cheltenham college february 2019"; qa_language := "en";
       qa_answer := "Read the Isi Regulatory Compliance Inspection Cheltenham College February 2019.";
       qa_url := Some ("https://cheltenham-college.s3.eu-west-2.amazonaws.com/wp-content/uploads/2025/04/29132512/ISI-Regulatory-Compliance-Inspection-Cheltenham-College-February-2019.pdf");
       qa_label := Some "Isi Regulatory Compliance Inspection Cheltenham College February 2019";
       qa_variants := Some ["isi regulatory compliance inspection cheltenham college february";
                           "policy isi regulatory compliance inspection cheltenham college february";
                           "isi regulatory compliance inspection cheltenham college february 2019"] |};
    {| qa_key := "policy::isi regulatory compliance inspection cheltenham prep february 2019"; qa_language := "en";
       qa_answer := "Read the Isi Regulatory Compliance Inspection Cheltenham Prep February 2019.";
       qa_url := Some ("https://cheltenham-college.s3.eu-west-2.amazonaws.com/wp-content/uploads/2025/04/29132513/ISI-Regulatory-Compliance-Inspection-Cheltenham-Prep-February-2019.pdf");
       qa_label := Some "Isi Regulatory Compliance Inspection Cheltenham Prep February 2019";
       qa_variants := Some ["isi regulatory compliance inspection cheltenham prep february";
                           "policy isi regulatory compliance inspection cheltenham prep february";
                           "isi regulatory compliance inspection cheltenham prep february 2019"] |};
    {| qa_key := "policy::job description"; qa_language := "en";
       qa_answer := "Read the Job Description.";
       qa_url := Some ("https://cheltenham-college.s3.eu-west-2.amazonaws.com/wp-content/uploads/2025/09/11104802/Job-Description.pdf");
       qa_label := Some "Job Description";
       qa_variants := Some ["job description"; "policy job description"] |};
    {| qa_key := "policy::job description 1"; qa_language := "en";
       qa_answer := "Read the Job Description 1.";
       qa_url := Some ("https://cheltenham-college.s3.eu-west-2.amazonaws.com/wp-content/uploads/2025/09/11111128/Job-Description-1.pdf");
       qa_label := Some "Job Description 1";
       qa_variants := Some ["job description"; "job description 1"; "policy job description"] |};
    {| qa_key := "policy::key child protection and safeguarding cc policy"; qa_language := "en";
       qa_answer := "Read the Key Child Protection and Safeguarding Cc Policy.";
       qa_url := Some ("https://cheltenham-college.s3.eu-west-2.amazonaws.com/wp-content/uploads/2025/09/09091013/Key-Child-Protection-and-Safeguarding-CC.pdf");
       qa_label := Some "Key Child Protection and Safeguarding Cc Policy";
       qa_variants := Some ["policy key child protection and safeguarding cc";
                           "key child protection and safeguarding cc";
                           "key child protection and safeguarding cc policy"] |};
    {| qa_key := "policy::key prep behaviour policy p"; qa_language := "en";
       qa_answer := "Read the Key Prep Behaviour Policy P.";
       qa_url := Some ("https://cheltenham-college.s3.eu-west-2.amazonaws.com/wp-content/uploads/2025/06/02152901/Key-Prep-Behaviour-Policy-P.pdf");
       qa_label := Some "Key Prep Behaviour Policy P";
       qa_variants := Some ["key prep behaviour p"; "policy key prep behaviour p";
                           "key prep behaviour policy p"; "key prep behaviour  p"] |};
    {| qa_key := "policy::key pupil behaviour policy c"; qa_language := "en";
       qa_answer := "Read the Key Pupil Behaviour Policy C.";
       qa_url := Some ("https://cheltenham-college.s3.eu-west-2.amazonaws.com/wp-content/uploads/2025/06/30122253/Key-Pupil-Behaviour-Policy-C.pdf");
       qa_label := Some "Key Pupil Behaviour Policy C";
       qa_variants := Some ["key pupil behaviour  c"; "key pupil behaviour c";
                           "key pupil behaviour policy c"; "policy key pupil behaviour c"] |};
    {| qa_key := "policy::learning support and sen policy cc"; qa_language := "en";
       qa_answer := "Read the Learning Support and Sen Policy Cc.";
       qa_url := Some ("https://cheltenham-college.s3.eu-west-2.amazonaws.com/wp-content/uploads/2025/07/24104217/Learning-Support-and-SEN-Policy-CC.pdf");
       qa_label := Some "Learning Support and Sen Policy Cc";
       qa_variants := Some ["learning support and sen  cc"; "learning support and sen policy cc";
                           "learning support and sen cc"; "policy learning support and sen cc"] |};
    {| qa_key := "policy::modern slavery statement policy"; qa_language := "en";
       qa_answer := "Read the Modern Slavery Statement Policy.";
       qa_url := Some ("https://www.cheltenhamcollege.org/wp-content/uploads/2025/02/Modern-Slavery-Statement.pdf");
       qa_label := Some "Modern Slavery Statement Policy";
       qa_variants := Some ["modern slavery statement"; "modern slavery statement policy";
                           "policy modern slavery statement"] |};
    {| qa_key := "policy::online safety policy cc"; qa_language := "en";
       qa_answer := "Read the Online Safety Policy Cc.";
       qa_url := Some ("https://cheltenham-college.s3.eu-west-2.amazonaws.com/wp-content/uploads/2025/08/12130003/Online-Safety-Policy-CC.pdf");
       qa_label := Some "Online Safety Policy Cc";
       qa_variants := Some ["online safety  cc"; "policy online safety cc";
                           "online safety policy cc"; "online safety cc"] |};
    {| qa_key := "policy::parents complaints policy cc"; qa_language := "en";
       qa_answer := "Read the Parents Complaints Policy Cc.";
       qa_url := Some ("https://cheltenham-college.s3.eu-west-2.amazonaws.com/wp-content/uploads/2025/01/20165219/Parents-Complaints-Policy-CC.pdf");
       qa_label := Some "Parents Complaints Policy Cc";
       qa_variants := Some ["parents complaints  cc"; "policy parents complaints cc";
                           "parents complaints cc"; "parents complaints policy cc"] |};
    {| qa_key := "policy::photography and film policy cc"; qa_language := "en";
       qa_answer := "Read the Photography and Film Policy Cc.";
       qa_url := Some ("https://cheltenham-college.s3.eu-west-2.amazonaws.com/wp-content/uploads/2025/06/23121755/Photography-and-Film-Policy-CC.pdf");
       qa_label := Some "Photography and Film Policy Cc";
       qa_variants := Some ["photography and film policy cc"; "policy photography and film cc";
                           "photography and film  cc"; "photography and film cc"] |};
    {| qa_key := "policy::policy"; qa_language := "en";
       qa_answer := "Read the Policy.";
       qa_url := Some ("https://www.cheltenhamcollege.org/privacy-terms/");
       qa_label := Some "Policy";
       qa_variants := Some [""; "policy"; "policy policy"] |};
    {| qa_key := "policy::privacy notice for pupils parents guardians and cheltonian society members cc policy"; qa_language := "en";
       qa_answer := "Read the Privacy Notice for Pupils Parents Guardians and Cheltonian Society Members Cc Policy.";
       qa_url := Some ("https://cheltenham-college.s3.eu-west-2.amazonaws.com/wp-content/uploads/2024/10/08120719/Privacy-Notice-for-Pupils-Parents-Guardians-and-Cheltonian-Society-Members-CC.pdf");
       qa_label := Some "Privacy Notice for Pupils Parents Guardians and Cheltonian Society Members Cc Policy";
       qa_variants := Some ["privacy notice for pupils parents guardians and cheltonian society members cc policy";
                           "policy privacy notice for pupils parents guardians and cheltonian society members cc";
                           "privacy notice for pupils parents guardians and cheltonian society members cc"] |};
    {| qa_key := "policy::privacy notice for staff cc policy"; qa_language := "en";
       qa_answer := "Read the Privacy Notice for Staff Cc Policy.";
       qa_url := Some ("https://cheltenham-college.s3.eu-west-2.amazonaws.com/wp-content/uploads/2025/07/03135123/Privacy-Notice-for-Staff-CC.pdf");
       qa_label := Some "Privacy Notice for Staff Cc Policy";
       qa_variants := Some ["privacy notice for staff cc policy";
                           "policy privacy notice for staff cc"; "privacy notice for staff cc"] |};
    {| qa_key := "policy::procedure for purchase of ticket cistg 22 23 v1 policy"; qa_language := "en";
       qa_answer := "Read the Procedure for Purchase of Ticket Cistg 22 23 V1 Policy.";
       qa_url := Some ("https://cheltenham-college.s3.eu-west-2.amazonaws.com/wp-content/uploads/2022/09/26135132/Procedure-for-purchase-of-ticket-CISTG-22-23-V1-.pdf");
       qa_label := Some "Procedure for Purchase of Ticket Cistg 22 23 V1 Policy";
       qa_variants := Some ["policy procedure for purchase of ticket cistg v";
                           "procedure for purchase of ticket cistg v policy";
                           "procedure for purchase of ticket cistg v";
                           "procedure for purchase of ticket cistg 22 23 v1 policy"] |};
    {| qa_key := "policy::recruitment policy cc"; qa_language := "en";
       qa_answer := "Read the Recruitment Policy Cc.";
       qa_url := Some ("https://cheltenham-college.s3.eu-west-2.amazonaws.com/wp-content/uploads/2025/07/03135121/Recruitment-Policy-CC.pdf");
       qa_label := Some "Recruitment Policy Cc";
       qa_variants := Some ["policy recruitment cc"; "recruitment policy cc"; "recruitment cc";
                           "recruitment  cc"] |};
    {| qa_key := "policy::recruitment social media checks policy v2 152"; qa_language := "en";
       qa_answer := "Read the Recruitment Social Media Checks Policy V2 152.";
       qa_url := Some ("https://cheltenham-college.s3.eu-west-2.amazonaws.com/wp-content/uploads/2023/08/24075707/Recruitment-Social-Media-Checks-Policy-v2-152.pdf");
       qa_label := Some "Recruitment Social Media Checks Policy V2 152";
       qa_variants := Some ["recruitment social media checks  v";
                           "policy recruitment social media checks v";
                           "recruitment social media checks policy v2 152";
                           "recruitment social media checks policy v";
                           "recruitment social media checks v"] |};
    {| qa_key := "policy::relationships and sex education policy cc"; qa_language := "en";
       qa_answer := "Read the Relationships and Sex Education Policy Cc.";
       qa_url := Some ("https://cheltenham-college.s3.eu-west-2.amazonaws.com/wp-content/uploads/2025/03/24090958/Relationships-and-Sex-Education-Policy-CC.pdf");
       qa_label := Some "Relationships and Sex Education Policy Cc";
       qa_variants := Some ["relationships and sex education cc";
                           "policy relationships and sex education cc";
                           "relationships and sex education policy cc";
                           "relationships and sex education  cc"] |};
    {| qa_key := "policy::sixth form uniform list 2025"; qa_language := "en";
       qa_answer := "Read the Sixth Form Uniform List 2025.";
       qa_url := Some ("https://cheltenham-college.s3.eu-west-2.amazonaws.com/wp-content/uploads/2025/07/08132948/Sixth-Form-Uniform-List-2025.pdf");
       qa_label := Some "Sixth Form Uniform List 2025";
       qa_variants := Some ["sixth form uniform list 2025"; "policy sixth form uniform list";
                           "sixth form uniform list"] |};
    {| qa_key := "policy::suspension and exclusion policy cc"; qa_language := "en";
       qa_answer := "Read the Suspension and Exclusion Policy Cc.";
       qa_url := Some ("https://cheltenham-college.s3.eu-west-2.amazonaws.com/wp-content/uploads/2025/01/21101107/Suspension-and-Exclusion-Policy-CC.pdf");
       qa_label := Some "Suspension and Exclusion Policy Cc";
       qa_variants := Some ["suspension and exclusion  cc"; "suspension and exclusion cc";
                           "policy suspension and exclusion cc";
                           "suspension and exclusion policy cc"] |};
    {| qa_key := "policy::sustainability strategy"; qa_language := "en";
       qa_answer := "Read the Sustainability Strategy.";
       qa_url := Some ("https://cheltenham-college.s3.eu-west-2.amazonaws.com/wp-content/uploads/2024/08/22104533/Sustainability-Strategy-.pdf");
       qa_label := Some "Sustainability Strategy";
       qa_variants := Some ["policy sustainability strategy"; "sustainability strategy"] |};
    {| qa_key := "policy::terms and conditions 2025 26"; qa_language := "en";
       qa_answer := "Read the Terms and Conditions 2025 26.";
       qa_url := Some ("https://cheltenham-college.s3.eu-west-2.amazonaws.com/wp-content/uploads/2025/09/02141101/Terms-and-Conditions-2025-26.pdf");
       qa_label := Some "Terms and Conditions 2025 26";
       qa_variants := Some ["terms and conditions"; "terms and conditions 2025 26";
                           "policy terms and conditions"] |};
    {| qa_key := "policy::the muscat cheltonian 2021 22"; qa_language := "en";
       qa_answer := "Read the The Muscat Cheltonian 2021 22.";
       qa_url := Some ("https://cheltenham-college.s3.eu-west-2.amazonaws.com/wp-content/uploads/2022/09/13103404/The-Muscat-Cheltonian-2021-22.pdf");
       qa_label := Some "The Muscat Cheltonian 2021 22";
       qa_variants := Some ["the muscat cheltonian"; "the muscat cheltonian 2021 22";
                           "policy the muscat cheltonian"] |};
    {| qa_key := "policy::third form uniform list"; qa_language := "en";
       qa_answer := "Read the Third Form Uniform List.";
       qa_url := Some ("https://cheltenham-college.s3.eu-west-2.amazonaws.com/wp-content/uploads/2025/06/12134926/Third-Form-Uniform-List.pdf");
       qa_label := Some "Third Form Uniform List";
       qa_variants := Some ["third form uniform list"; "policy third form uniform list"] |};
    {| qa_key := "policy::together community action and charity"; qa_language := "en";
       qa_answer := "Read the Together Community Action and Charity.";
       qa_url := Some ("https://cheltenham-college.s3.eu-west-2.amazonaws.com/wp-content/uploads/2021/10/26062620/Together-Community-Action-and-Charity.pdf");
       qa_label := Some "Together Community Action and Charity";
       qa_variants := Some ["policy together community action and charity";
                           "together community action and charity"] |};
    {| qa_key := "policy::together educational partnerships at cheltenham college"; qa_language := "en";
       qa_answer := "Read the Together Educational Partnerships At Cheltenham College.";
       qa_url := Some ("https://cheltenham-college.s3.eu-west-2.amazonaws.com/wp-content/uploads/2021/10/26062621/Together-Educational-Partnerships-at-Cheltenham-College.pdf");
       qa_label := Some "Together Educational Partnerships At Cheltenham College";
       qa_variants := Some ["policy together educational partnerships at cheltenham college";
                           "together educational partnerships at cheltenham college"] |};
    {| qa_key := "policy::valens menu autumn 2025"; qa_language := "en";
       qa_answer := "Read the Valens Menu Autumn 2025.";
       qa_url := Some ("https://cheltenham-college.s3.eu-west-2.amazonaws.com/wp-content/uploads/2025/09/01144433/Valens-Menu-Autumn-2025.pdf");
       qa_label := Some "Valens Menu Autumn 2025";
       qa_variants := Some ["policy valens menu autumn"; "valens menu autumn 2025";
                           "valens menu autumn"] |};
    {| qa_key := "policy::valens spring menu"; qa_language := "en";
       qa_answer := "Read the Valens Spring Menu.";
       qa_url := Some ("https://cheltenham-college.s3.eu-west-2.amazonaws.com/wp-content/uploads/2025/03/06161703/Valens-Spring-Menu.pdf");
       qa_label := Some "Valens Spring Menu";
       qa_variants := Some ["policy valens spring menu"; "valens spring menu"] |};
    {| qa_key := "sport::cross country"; qa_language := "en";
       qa_answer := "Find information about Cross Country at Cheltenham College.";
       qa_url := Some ("https://www.cheltenhamcollege.org/news/cheltenham-college-pupils-receive-excellent-gcse-results/");
       qa_label := Some "Cross Country";
       qa_variants := Some ["boys cross country"; "cross country fixtures";
                           "girls cross country"; "cross country team"; "cross country sport";
                           "cross country"; "cross country at cheltenham college"] |};
    {| qa_key := "sport::rugby"; qa_language := "en";
       qa_answer := "Find information about Rugby at Cheltenham College.";
       qa_url := Some ("https://www.cheltenhamcollege.org/news/a-visit-from-the-canadian-womens-rugby-team/");
       qa_label := Some "Rugby";
       qa_variants := Some ["rugby fixtures"; "boys rugby"; "rugby sport"; "rugby team";
                           "girls rugby"; "rugby at cheltenham college"; "rugby"] |} ].


(** ** Sample deployments *)

(** A deployment of the shipped table with an empty open-days cache, no
    database, an empty knowledge base, an embedding service that answers
    with a short vector, and translation and generation services that are
    down.  With an empty knowledge base the retrieval tier stops at the
    guards of [vector_search] and never rewrites a generated text, so the
    regular-expression functions are mere placeholders here. *)
Definition offline_env : Env :=
  {| scalar := Q;
     STATIC_QAS := STATIC_QA_LIST;
     translate := λ _ _, Raise (ExternalError "translator unavailable");
     get_open_day_events := [];
     fetch_family_context := λ _, None;
     uuid4 := λ _, "6f1c2f0e-5d0b-4c58-9b57-0c1e2d3f4a5b";
     embeddings_create := λ _, Ok [1 # 2; 1 # 3; 1 # 5]%Q;
     EMBEDDINGS_shape := [0];
     METADATA := [];
     cosine_top_k := λ _ _, ([], []);
     chat_completion := λ _, Raise (ExternalError "model unavailable");
     re_sub := λ _ _ _ text, text;
     re_search := λ _ _, false;
     re_findall4 := λ _ _, [] |}.

(** The state of a process that has served no request yet. *)
Definition fresh_world : World :=
  {| conversation_memory := ∅; clock := 0; trace := [] |}.

(** [env] with another translator for the English rendering of a text:
    [g] answers [translate(text, "en")], every other target is served as
    in [env]. *)
Definition with_english_translation (env : Env) (g : string → Result string) : Env :=
  {| scalar := scalar env;
     STATIC_QAS := STATIC_QAS env;
     translate := λ text target,
       if String.eqb target "en" then g text else translate env text target;
     get_open_day_events := get_open_day_events env;
     fetch_family_context := fetch_family_context env;
     uuid4 := uuid4 env;
     embeddings_create := embeddings_create env;
     EMBEDDINGS_shape := EMBEDDINGS_shape env;
     METADATA := METADATA env;
     cosine_top_k := cosine_top_k env;
     chat_completion := chat_completion env;
     re_sub := re_sub env;
     re_search := re_search env;
     re_findall4 := re_findall4 env |}.

(** A table entry written for French-speaking families, and a deployment
    that holds it and whose translator renders the question "tarifs" as
    "fees". *)
Definition qa_fees_fr : StaticQA :=
  {| qa_key := "fees"; qa_language := "fr";
     qa_answer := "Les frais de scolarite sont publies sur notre site.";
     qa_url := Some "https://www.cheltenhamcollege.org/admissions/fees/";
     qa_label := Some "Frais";
     qa_variants := Some ["fees"; "tuition"] |}.

Definition french_env : Env :=
  {| scalar := Q;
     STATIC_QAS := STATIC_QA_LIST ++ [qa_fees_fr];
     translate := λ text target,
       if String.eqb target "en" && String.eqb text "tarifs" then Ok "fees" else Ok text;
     get_open_day_events := [];
     fetch_family_context := λ _, None;
     uuid4 := λ _, "6f1c2f0e-5d0b-4c58-9b57-0c1e2d3f4a5b";
     embeddings_create := λ _, Ok [1 # 2; 1 # 3; 1 # 5]%Q;
     EMBEDDINGS_shape := [0];
     METADATA := [];
     cosine_top_k := λ _ _, ([], []);
     chat_completion := λ _, Raise (ExternalError "model unavailable");
     re_sub := λ _ _ _ text, text;
     re_search := λ _ _, false;
     re_findall4 := λ _ _, [] |}.

(** An entry as [generate_static_qa.py] writes it for a policy document
    titled "Educational Visits Policy", and the offline deployment with
    that entry added to its table. *)
Definition qa_visits_policy : StaticQA :=
  {| qa_key := "policy::educational visits policy"; qa_language := "en";
     qa_answer := "Read the Educational Visits Policy.";
     qa_url := Some "https://www.cheltenhamcollege.org/about-us/aims-policies/";
     qa_label := Some "Educational Visits Policy";
     qa_variants := Some ["educational visits policy"; "educational visits";
                          "policy educational visits"] |}.

Definition visits_env : Env :=
  {| scalar := Q;
     STATIC_QAS := STATIC_QA_LIST ++ [qa_visits_policy];
     translate := translate offline_env;
     get_open_day_events := [];
     fetch_family_context := fetch_family_context offline_env;
     uuid4 := uuid4 offline_env;
     embeddings_create := λ _, Ok [1 # 2; 1 # 3; 1 # 5]%Q;
     EMBEDDINGS_shape := [0];
     METADATA := [];
     cosine_top_k := λ _ _, ([], []);
     chat_completion := chat_completion offline_env;
     re_sub := re_sub offline_env;
     re_search := re_search offline_env;
     re_findall4 := re_findall4 offline_env |}.

(** ** Vocabulary of the statements: requests *)

(** [wp m Q w]: running [m] in world [w] ends in an outcome and a world
    that satisfy [Q]. *)
Definition wp {A} (m : M A) (Q : Result A → World → Prop) (w : World) : Prop :=
  Q (m w).1 (m w).2.

(** The part of the trace written since world [w]. *)
Definition extends_by (w w' : World) (evs : list Event) : Prop :=
  trace w' = trace w ++ evs.

(** [session_id] when it is true in Python's sense: present and not empty. *)
Definition truthy_id (session_id : option string) : option string :=
  if PyStr.truthy session_id then session_id else None.

(** What a request without a session may leave in the trace: interactions
    recorded on a private tracker that holds nothing else. *)
Definition private_record (ev : Event) : Prop :=
  match ev with
  | EvAddInteraction ref after => ref = Private ∧ length (interactions after) = 1
  | EvEnhance _ _ _ => False
  end.

(** The question asked is the last interaction on record. *)
Definition records (question : string) (t : ConversationTracker) : Prop :=
  ∃ i, last (interactions t) = Some i ∧ i_question i = question.

(** Every call of the enhancer in [evs] comes right after the recording of
    the interaction on the very tracker state it is handed, which therefore
    counts at least one interaction and cannot draw the greeting. *)
Definition enhanced_after_recording (question : string) (evs : list Event) : Prop :=
  ∀ pre base ctx fam post,
    evs = pre ++ EvEnhance base ctx fam :: post →
    (∃ pre' ref, pre = pre' ++ [EvAddInteraction ref ctx]) ∧
    records question ctx ∧
    1 ≤ length (interactions ctx) ∧
    ResponseEnhancer._add_acknowledgment ctx ≠ Ok ResponseEnhancer.greeting.

(** The [add_interaction] calls among [evs]. *)
Definition add_events (evs : list Event) : list (TrackerRef * ConversationTracker) :=
  omap (λ ev, match ev with
              | EvAddInteraction ref after => Some (ref, after)
              | EvEnhance _ _ _ => None
              end) evs.

(** The interactions held, before the request, by the tracker the request
    resolves to: those of the registry entry, none for a new tracker. *)
Definition interactions_before (w : World) (session_id : option string)
  : list Interaction :=
  match truthy_id session_id with
  | Some sid =>
      match conversation_memory w !! sid with
      | Some tracker => interactions tracker
      | None => []
      end
  | None => []
  end.

(** Exactly one interaction, for [question], was appended to the resolved
    tracker; with a session that tracker is the registry entry. *)
Definition recorded_once (question : string) (session_id : option string)
    (w w' : World) (evs : list Event) : Prop :=
  ∃ ref t i,
    add_events evs = [(ref, t)] ∧
    interactions t = interactions_before w session_id ++ [i] ∧
    i_question i = question ∧
    match truthy_id session_id with
    | Some sid => ref = InRegistry sid ∧ conversation_memory w' !! sid = Some t
    | None => ref = Private ∧ conversation_memory w' = conversation_memory w
    end.

(** No interaction was recorded and the registry is as before. *)
Definition nothing_recorded (w w' : World) (evs : list Event) : Prop :=
  add_events evs = [] ∧ conversation_memory w' = conversation_memory w.

(** What an answer's [source] says about the recording done by the
    request that produced it, for the four tiers that come after the
    tracker is resolved. *)
Definition tier_recording (question : string) (session_id : option string)
    (w : World) (ans : Answer) (w' : World) : Prop :=
  ∃ evs, extends_by w w' evs ∧
    (source ans = "static" ∨ source ans = "fuzzy" ∨ source ans = "rag" →
     recorded_once question session_id w w' evs) ∧
    (source ans = "none" →
     if PyStr.truthy session_id then recorded_once question session_id w w' evs
     else nothing_recorded w w' evs) ∧
    source ans ∈ ["open_days"; "static"; "fuzzy"; "rag"; "none"].

(** The five-tuple built from a table entry. *)
Definition entry_answer (qa : StaticQA) (text src : string) : Answer :=
  {| answer := text; url := qa_url qa; label := qa_label qa;
     matched_key := Some (qa_key qa); source := src |}.

(** The outcome of a request answered from entry [qa] by the tier named
    [src]: without a session the entry's own answer; with one, whatever
    the enhancer makes of that answer on the session's tracker, which by
    then holds the question and, for a non-empty key, has the key as its
    last topic. *)
Definition answered_from_entry (env : Env) (qa : StaticQA) (src question : string)
    (session_id family_id : option string) (out : Result Answer * World) : Prop :=
  match truthy_id session_id with
  | None => out.1 = Ok (entry_answer qa (qa_answer qa) src)
  | Some sid =>
      ∃ tracker,
        conversation_memory out.2 !! sid = Some tracker ∧
        records question tracker ∧
        (qa_key qa ≠ EmptyString → last_topic tracker = Some (qa_key qa)) ∧
        out.1 = match ResponseEnhancer.enhance_for_voice (qa_answer qa) tracker
                        (family_context_for env family_id) with
                | Ok text => Ok (entry_answer qa text src)
                | Raise e => Raise e
                end
  end.

(** Asked without a session, the key of [e] brings back [e] itself. *)
Definition key_resolves (env : Env) (e : StaticQA) : bool :=
  match (find_best_answer env (qa_key e) (qa_language e) None None fresh_world).1 with
  | Ok ans => bool_decide (ans = entry_answer e (qa_answer e) "static")
  | Raise _ => false
  end.

(** ** Vocabulary of the statements: the matcher of [difflib] *)

(** A block lies inside [a[alo:ahi]] and [b[blo:bhi]]. *)
Definition block_inside (alo ahi blo bhi : nat) (m : difflib.Match) : Prop :=
  alo ≤ m.1.1 ∧ m.1.1 + m.2 ≤ ahi ∧ blo ≤ m.1.2 ∧ m.1.2 + m.2 ≤ bhi.

(** After [rows] rows of [find_longest_match], a run ending at column [j]
    has length at most [rows] and does not start left of [blo]. *)
Definition runs_inside (blo bhi rows : nat) (j2len : gmap nat nat) : Prop :=
  ∀ j v, j2len !! j = Some v → blo ≤ j ∧ j < bhi ∧ v ≤ j + 1 - blo ∧ v ≤ rows.

(** A queued range of [get_matching_blocks] is well formed. *)
Definition range_ok (item : nat * nat * nat * nat) : Prop :=
  item.1.1.1 ≤ item.1.1.2 ∧ item.1.2 ≤ item.2.

(** Elements of [a], and of [b], still covered by the queue. *)
Definition queue_a (queue : list (nat * nat * nat * nat)) : nat :=
  sum_list_with (λ item, item.1.1.2 - item.1.1.1) queue.
Definition queue_b (queue : list (nat * nat * nat * nat)) : nat :=
  sum_list_with (λ item, item.2 - item.1.2) queue.

(** The number of passes the queue can still cause. *)
Definition queue_passes (queue : list (nat * nat * nat * nat)) : nat :=
  sum_list_with (λ item, 2 * (item.1.1.2 - item.1.1.1) + 1) queue.

(** Total size of a list of blocks. *)
Definition total_size (blocks : list difflib.Match) : nat :=
  sum_list_with difflib.match_size blocks.

(** The positions of [c] in [l], counted from [i]. *)
Fixpoint occurrences (c : ascii) (l : list ascii) (i : nat) : list nat :=
  match l with
  | [] => []
  | x :: l' =>
      if bool_decide (x = c) then i :: occurrences c l' (S i)
      else occurrences c l' (S i)
  end.

(** [b2j.get(c, [])] for the sequence [s]. *)
Definition kept_positions (s : list ascii) (c : ascii) : list nat :=
  default [] (difflib.chain_b s !! c).

(** When [s] is matched against itself: the length of the run of indexed
    characters that ends at row [i] and column [j]. *)
Fixpoint run_length (s : list ascii) (i j : nat) : nat :=
  match s !! i with
  | Some c =>
      if bool_decide (j ∈ kept_positions s c)
      then S (match i, j with
              | S i', S j' => run_length s i' j'
              | _, _ => 0
              end)
      else 0
  | None => 0
  end.

(** The run lengths of the row above row [i]. *)
Definition run_above (s : list ascii) (i j : nat) : nat :=
  match i with
  | O => 0
  | S i' => run_length s i' j
  end.

(** ** Vocabulary of the statements: the fuzzy tier *)

(** The scores the fuzzy tier computes for one entry, in loop order; an
    entry of another language is skipped. *)
Definition scored (language q_lower : string) (qa : StaticQA) : list (StaticQA * Q) :=
  if String.eqb (qa_language qa) language
  then map (λ var, (qa, difflib.ratio q_lower (PyStr.lower var))) (all_variants qa)
  else [].

(** One comparison of the fuzzy tier: [if score > best_score]. *)
Definition pick_best (best : Q * option StaticQA) (p : StaticQA * Q)
  : Q * option StaticQA :=
  if Qgtb p.2 best.1 then (p.2, Some p.1) else best.

(** Some variant of some entry of the request language scores above 0.8. *)
Definition exceeds_threshold (table : list StaticQA) (language q_lower : string) : Prop :=
  ∃ e v, e ∈ table ∧ qa_language e = language ∧ v ∈ all_variants e ∧
         (8 # 10 < difflib.ratio q_lower (PyStr.lower v))%Q.

(** [e] holds a variant that scores above 0.8 and at least as high as
    every variant of every entry of the request language, and every such
    entry placed before [e] in the table scores strictly lower. *)
Definition earliest_best (table : list StaticQA) (language q_lower : string)
    (e : StaticQA) : Prop :=
  ∃ pre post v,
    table = pre ++ e :: post ∧ qa_language e = language ∧ v ∈ all_variants e ∧
    (8 # 10 < difflib.ratio q_lower (PyStr.lower v))%Q ∧
    (∀ e' v', e' ∈ table → qa_language e' = language → v' ∈ all_variants e' →
       (difflib.ratio q_lower (PyStr.lower v') <= difflib.ratio q_lower (PyStr.lower v))%Q) ∧
    (∀ e' v', e' ∈ pre → qa_language e' = language → v' ∈ all_variants e' →
       (difflib.ratio q_lower (PyStr.lower v') < difflib.ratio q_lower (PyStr.lower v))%Q).

(** ** The conversation summary and its route *)

(** [(later - earlier).seconds] for two clock readings counted in
    microseconds: the seconds field of the normalised [timedelta], which
    leaves out the whole days (and counts up from the day before when
    [later] is the earlier reading). *)
Definition timedelta_seconds (later earlier : nat) : nat :=
  Z.to_nat (((Z.of_nat later - Z.of_nat earlier) `div` 1000000) `mod` 86400).

(** The dict returned by [ConversationTracker.get_conversation_summary].
    Its entry "topics" is [list(self.topics_discussed)]: the members of
    the set in Python's iteration order, which the code does not
    determine.  The summary holds them as the set they form. *)
Module Summary.
Record t : Type := {
  session_duration : nat;
  interaction_count : nat;
  topics : gset string;
  high_intent : bool;
  emotional_state : Emotion;
  concerns : list string;
  last_topic : option string
}.
End Summary.

(** [ConversationTracker.get_conversation_summary]; [now] is the clock
    reading of its [datetime.now()]. *)
Definition get_conversation_summary (now : nat) (self : ConversationTracker)
  : Summary.t :=
  {| Summary.session_duration := timedelta_seconds now (started_at self);
     Summary.interaction_count := length (interactions self);
     Summary.topics := list_to_set (topics_discussed self);
     Summary.high_intent := 2 <=? high_intent_signals self;
     Summary.emotional_state := emotional_state self;
     Summary.concerns := take 3 (concerns self);
     Summary.last_topic := last_topic self |}.

Module Routes.

(** The two JSON bodies of [GET /conversation/<session_id>]:
    [{"ok": False, "error": ...}] and
    [{"ok": True, "summary": ..., "should_handoff": ...}]. *)
Inductive ConversationBody : Type :=
  | Failure (error : string)
  | Conversation (summary : Summary.t) (should_handoff : bool).

(** The route [get_conversation_summary]: the body and the HTTP status. *)
Definition get_conversation_summary (session_id : string)
  : M (ConversationBody * nat) :=
  found ← registry_lookup session_id;
  match found with
  | None => mret (Failure "Session not found", 404)
  | Some tracker =>
      now ← datetime_now;
      mret (Conversation (get_conversation_summary now tracker)
                         (should_offer_human_handoff tracker), 200)
  end.

End Routes.

(** ** Vocabulary of the statements: the life of a tracker *)

(** One call of [add_interaction]: the clock reading and the arguments. *)
Record Call : Type := {
  call_now : nat;
  call_question : string;
  call_answer : string;
  call_topic : option string
}.

(** The tracker after the calls [calls], oldest first. *)
Definition replay (calls : list Call) (t : ConversationTracker) : ConversationTracker :=
  fold_left (λ t c, add_interaction (call_now c) t (call_question c) (call_answer c)
                                    (call_topic c)) calls t.

(** The question holds a keyword of the given list. *)
Definition mentions (keywords : list string) (question : string) : bool :=
  PyStr.any_in keywords (PyStr.lower question).

(** The interaction that one call of [add_interaction] stores. *)
Definition stored (c : Call) : Interaction :=
  {| i_timestamp := call_now c; i_question := call_question c;
     i_answer := PyStr.take 200 (call_answer c); i_topic := call_topic c |}.

(** [last_topic] names a topic on record, and is [None] only as long as no
    topic is. *)
Definition topic_on_record (t : ConversationTracker) : Prop :=
  match last_topic t with
  | None => topics_discussed t = []
  | Some topic => topic ≠ EmptyString ∧ topic ∈ topics_discussed t
  end.
(** A character that [repr] prints as it is, between single quotes. *)
Definition prints_plainly (c : ascii) : bool :=
  negb (PyRepr.unprintable (PyStr.code c))
  && negb (bool_decide (c = PyRepr.backslash))
  && negb (bool_decide (c = PyRepr.squote)).

(** The text can be read off its own [repr]: no character of it is
    escaped.  This holds of any text of characters that print plainly
    (see [plain_text_survives_repr]). *)
Definition survives_repr (s : string) : bool := PyStr.contains s (PyRepr.repr s).

(** Every key of the table is non-empty and survives [repr]. *)
Definition plain_keys (table : list StaticQA) : bool :=
  forallb (λ qa, negb (String.eqb (qa_key qa) EmptyString) && survives_repr (qa_key qa))
          table.
(** ** Vocabulary of the statements: the registry across a request *)

(** [t'] is a later state of the tracker [t]: the same session, family and
    start, the interactions and concerns of [t] followed by newer ones, and
    no fewer high-intent signals. *)
Definition continues (t t' : ConversationTracker) : Prop :=
  session_id t' = session_id t ∧ family_id t' = family_id t ∧
  started_at t' = started_at t ∧
  interactions t `prefix_of` interactions t' ∧
  concerns t `prefix_of` concerns t' ∧
  high_intent_signals t ≤ high_intent_signals t'.

(** The open-days answer for the event [next]. *)
Definition next_event_answer (next : OpenDayEvent) : Answer :=
  {| answer := "Our next " +:+ event_name next +:+ " is on " +:+
               date_human next +:+ ". " +:+
               "You can find more details and register here: " +:+
               booking_link next;
     url := Some (booking_link next);
     label := Some "Open Days";
     matched_key := Some "open_days";
     source := "open_days" |}.

(** [next] is the event of [events] with the least [date_iso], and the
    first of those in the order of the cache. *)
Definition earliest_event (events : list OpenDayEvent) (next : OpenDayEvent) : Prop :=
  ∃ pre post,
    events = pre ++ next :: post ∧
    (∀ e, e ∈ pre → String.ltb (date_iso next) (date_iso e) = true) ∧
    (∀ e, e ∈ post → String.ltb (date_iso e) (date_iso next) = false).



(** The no-match five-tuple. *)
Definition no_match_answer : Answer :=
  {| answer := no_match_response; url := None; label := None;
     matched_key := None; source := "none" |}.

(** What the [source] of an answer says about its other fields. *)
Definition fields_fit_source (env : Env) (language : string) (ans : Answer) : Prop :=
  (source ans = "open_days" →
   matched_key ans = Some "open_days" ∧ is_Some (url ans) ∧ is_Some (label ans)) ∧
  (source ans = "static" ∨ source ans = "fuzzy" →
   ∃ qa, qa ∈ STATIC_QAS env ∧ qa_language qa = language ∧
         url ans = qa_url qa ∧ label ans = qa_label qa ∧
         matched_key ans = Some (qa_key qa)) ∧
  (source ans = "rag" →
   matched_key ans = None ∧ is_Some (label ans) ∧
   ∃ u, url ans = Some u ∧ u ≠ EmptyString) ∧
  (source ans = "none" → ans = no_match_answer).

(** What a request that fails past the static tiers leaves behind: no
    call on a tracker, and the session's registry entry, which is a new,
    empty tracker when the session was unknown. *)
Definition left_registered (session_id family_id : option string) (w w' : World) : Prop :=
  trace w' = trace w ∧
  match truthy_id session_id with
  | Some sid =>
      conversation_memory w' !! sid
      = Some (default (new_tracker (clock w) sid family_id) (conversation_memory w !! sid))
  | None => conversation_memory w' = conversation_memory w
  end.

(** ** Vocabulary of the statements: genuine matching blocks *)

(** The pieces [a[i:i+k]] and [b[j:j+k]] exist and hold the same
    elements. *)
Definition agree (a b : list ascii) (i j k : nat) : Prop :=
  ∀ d, d < k → ∃ c, a !! (i + d) = Some c ∧ b !! (j + d) = Some c.

Definition block_agrees (a b : list ascii) (m : difflib.Match) : Prop :=
  agree a b m.1.1 m.1.2 m.2.

(** A block of positive size over equal pieces. *)
Definition genuine (a b : list ascii) (m : difflib.Match) : Prop :=
  0 < m.2 ∧ block_agrees a b m.

(** The runs that [j2len] records after [rows] rows end in equal pieces. *)
Definition runs_agree (a b : list ascii) (rows : nat) (j2len : gmap nat nat) : Prop :=
  ∀ j k, j2len !! j = Some k →
         k ≤ j + 1 ∧ k ≤ rows ∧ agree a b (rows - k) (j + 1 - k) k.

(** [b2j] lists, for an element, only positions of [b] that hold it. *)
Definition index_of (b : list ascii) (b2j : gmap ascii (list nat)) : Prop :=
  ∀ c j, j ∈ default [] (b2j !! c) → b !! j = Some c.

(** [Match(i, j, k)] as its reader takes it: [a[i:i+k] == b[j:j+k]], both
    slices inside their sequences. *)
Definition same_piece (a b : list ascii) (m : difflib.Match) : Prop :=
  m.1.1 + m.2 ≤ length a ∧ m.1.2 + m.2 ≤ length b ∧
  take m.2 (drop m.1.1 a) = take m.2 (drop m.1.2 b).

(** ** More sample deployments *)

(** The offline deployment with a cache of three events, not in date
    order. *)
Definition autumn_open_evening : OpenDayEvent :=
  {| event_name := "Open Evening"; date_iso := "2026-10-08";
     date_human := "Thursday 08 October 2026"; booking_link := OPEN_DAYS_URL |}.
Definition autumn_open_morning : OpenDayEvent :=
  {| event_name := "Open Morning"; date_iso := "2026-09-26";
     date_human := "Saturday 26 September 2026"; booking_link := OPEN_DAYS_URL |}.
Definition spring_open_morning : OpenDayEvent :=
  {| event_name := "Open Morning"; date_iso := "2027-03-06";
     date_human := "Saturday 06 March 2027"; booking_link := OPEN_DAYS_URL |}.

Definition open_days_env : Env :=
  {| scalar := Q;
     STATIC_QAS := STATIC_QA_LIST;
     translate := translate offline_env;
     get_open_day_events := [autumn_open_evening; autumn_open_morning; spring_open_morning];
     fetch_family_context := fetch_family_context offline_env;
     uuid4 := uuid4 offline_env;
     embeddings_create := λ _, Ok [1 # 2; 1 # 3; 1 # 5]%Q;
     EMBEDDINGS_shape := [0];
     METADATA := [];
     cosine_top_k := λ _ _, ([], []);
     chat_completion := chat_completion offline_env;
     re_sub := re_sub offline_env;
     re_search := re_search offline_env;
     re_findall4 := re_findall4 offline_env |}.

(** The offline deployment with the embedding service down as well. *)
Definition embedding_down_env : Env :=
  {| scalar := Q;
     STATIC_QAS := STATIC_QA_LIST;
     translate := translate offline_env;
     get_open_day_events := [];
     fetch_family_context := fetch_family_context offline_env;
     uuid4 := uuid4 offline_env;
     embeddings_create := λ _, Raise (ExternalError "embedding service unavailable");
     EMBEDDINGS_shape := [0];
     METADATA := [];
     cosine_top_k := λ _ _, ([], []);
     chat_completion := chat_completion offline_env;
     re_sub := re_sub offline_env;
     re_search := re_search offline_env;
     re_findall4 := re_findall4 offline_env |}.

(** A process that has served one question of session "s1". *)
Definition one_question_world : World :=
  (find_best_answer offline_env "admissions" "en" (Some "s1") None
                    fresh_world).2.

(** ** The [/ask] route and the interaction log *)

(** The [metadata] dict that [ask] hands to [log_interaction_to_db]. *)
Record Metadata : Type := {
  md_source : string;
  md_topic : option string;
  md_sentiment : Emotion;
  md_session_id : option string;
  md_high_intent : bool
}.

(** The parameters of the [INSERT INTO chat_interactions] statement. *)
Record LoggedRow : Type := {
  row_family_id : string;
  row_question : string;
  row_answer : string;
  row_topic : option string;
  row_sentiment : Emotion;
  row_timestamp : nat;
  row_metadata : Metadata
}.

(** [log_interaction_to_db]; [db_pool] tells whether the pool exists.  The
    value is the row handed to [cur.execute], if the function gets that
    far; what the database does with it, a failure included, has no effect
    on the caller. *)
Definition log_interaction_to_db (db_pool : bool) (family_id : option string)
    (question answer : string) (metadata : Metadata) : M (option LoggedRow) :=
  match family_id with
  | Some fid =>
      if negb db_pool || negb (PyStr.truthy family_id) then mret None
      else
        now ← datetime_now;
        mret (Some {| row_family_id := fid;
                      row_question := PyStr.take 500 question;
                      row_answer := PyStr.take 500 answer;
                      row_topic := md_topic metadata;
                      row_sentiment := md_sentiment metadata;
                      row_timestamp := now;
                      row_metadata := metadata |})
  | None => mret None
  end.

(** The JSON body of a request to [/ask], as far as the route reads it;
    [None] is a missing key (for [family_id] and [session_id] also a
    null).  The keys present hold strings. *)
Record AskRequest : Type := {
  req_question : option string;
  req_language : option string;
  req_family_id : option string;
  req_session_id : option string
}.

(** A suggestion of [contextualButtons.get_suggestions]. *)
Record Suggestion : Type := {
  s_query : string;
  s_label : string
}.

(** The JSON body of the reply. *)
Record AskReply : Type := {
  reply_answer : string;
  reply_url : option string;
  reply_link_label : option string;
  reply_queries : list string;
  reply_query_map : gmap string string;
  reply_source : string;
  reply_family_used : bool;
  reply_session_id : option string
}.

(** What [ask] reads besides the matcher's environment. *)
Record AskEnv : Type := {
  matcher : Env;
  db_pool : bool;
  get_suggestions : string → string → list Suggestion
}.

(** [conversation_memory.get(session_id)] *)
Definition registry_get (session_id : option string) : M (option ConversationTracker) :=
  match session_id with
  | Some sid => registry_lookup sid
  | None => mret None
  end.

(** [ask]: the reply, and the row logged for the admissions dashboard, if
    any. *)
Definition ask (aenv : AskEnv) (data : AskRequest) : M (AskReply * option LoggedRow) :=
  let question := default EmptyString (req_question data) in
  let language := default "en" (req_language data) in
  let family_id := req_family_id data in
  let session_id := req_session_id data in
  ans ← find_best_answer (matcher aenv) question language session_id family_id;
  logged ←
    (if PyStr.truthy family_id then
       tracker ← registry_get session_id;
       let metadata :=
         {| md_source := source ans;
            md_topic := matched_key ans;
            md_sentiment := match tracker with
                            | Some t => emotional_state t
                            | None => neutral
                            end;
            md_session_id := session_id;
            md_high_intent := match tracker with
                              | Some t => 0 <? high_intent_signals t
                              | None => false
                              end |} in
       log_interaction_to_db (db_pool aenv) family_id question (answer ans) metadata
     else mret None);
  let suggestions :=
    get_suggestions aenv (PyStr.or_else (matched_key ans) question) language in
  mret ({| reply_answer := answer ans;
           reply_url := url ans;
           reply_link_label := label ans;
           reply_queries := map s_query suggestions;
           reply_query_map :=
             fold_left (λ m s, <[s_query s := s_label s]> m) suggestions ∅;
           reply_source := source ans;
           reply_family_used := PyStr.truthy family_id;
           reply_session_id := session_id |},
        logged).

(** The offline deployment behind [/ask], with a database pool and no
    suggestions. *)
Definition offline_ask_env : AskEnv :=
  {| matcher := offline_env; db_pool := true; get_suggestions := λ _ _, [] |}.

(** ** The open-days scraper ([_extract_events_from_html]) *)

(** The libraries behind the scraper.  A date is its ordinal day number
    ([date.toordinal]).
    [page_matches] is the text extraction of BeautifulSoup followed by
    [pat.findall]; [parse_date] is [dateparse.parse(..., dayfirst=True)],
    which raises on a text it cannot read, followed by [.date()];
    [title_words] is [" ".join(name.strip().title().split())];
    [isoformat] and [strftime_long] are [date.isoformat] and
    [strftime("%A %d %B %Y")]. *)
Record Scraper : Type := {
  page_matches : string → list (string * string);
  parse_date : string → Result N;
  today : N;
  title_words : string → string;
  isoformat : N → string;
  strftime_long : N → string
}.

(** [key in unique], for the dict's values in insertion order. *)
Definition key_seen (name iso : string) (unique : list OpenDayEvent) : bool :=
  existsb (λ ev, String.eqb (event_name ev) name && String.eqb (date_iso ev) iso) unique.

(** The loop over the matches; the state is the dict [unique]. *)
Fixpoint collect_events (sc : Scraper) (matches : list (string * string))
    (unique : list OpenDayEvent) : Result (list OpenDayEvent) :=
  match matches with
  | [] => Ok unique
  | (name, date_str) :: rest =>
      match parse_date sc date_str with
      | Raise e => Raise e
      | Ok dt =>
          if (dt <? today sc)%N then collect_events sc rest unique
          else
            let titled := title_words sc name in
            let iso := isoformat sc dt in
            if key_seen titled iso unique
            then collect_events sc rest unique
            else collect_events sc rest
                   (unique ++ [{| event_name := titled;
                                  date_iso := iso;
                                  date_human := strftime_long sc dt;
                                  booking_link := OPEN_DAYS_URL |}])
      end
  end.

(** Comparison of the sort keys [(date_iso, event_name)]. *)
Definition key_le (x y : OpenDayEvent) : Prop :=
  match String.compare (date_iso x) (date_iso y) with
  | Lt => True
  | Eq => String.compare (event_name x) (event_name y) ≠ Gt
  | Gt => False
  end.

Global Instance key_le_dec : RelDecision key_le.
Proof.
  intros x y. unfold key_le.
  destruct (String.compare (date_iso x) (date_iso y)); apply _.
Defined.

(** [_extract_events_from_html] *)
Definition _extract_events_from_html (sc : Scraper) (html : string)
  : Result (list OpenDayEvent) :=
  match collect_events sc (page_matches sc html) [] with
  | Ok unique => Ok (merge_sort key_le unique)
  | Raise e => Raise e
  end.

(** The sort key of an event. *)
Definition event_key (ev : OpenDayEvent) : string * string :=
  (event_name ev, date_iso ev).

(** The event comes from a match of the page whose date is not in the
    past. *)
Definition from_upcoming_match (sc : Scraper) (html : string) (ev : OpenDayEvent) : Prop :=
  ∃ name date_str dt,
    (name, date_str) ∈ page_matches sc html ∧
    parse_date sc date_str = Ok dt ∧ (today sc <= dt)%N ∧
    ev = {| event_name := title_words sc name;
            date_iso := isoformat sc dt;
            date_human := strftime_long sc dt;
            booking_link := OPEN_DAYS_URL |}.
(** The open-days answer when the cache holds no event. *)
Definition no_events_answer : Answer :=
  {| answer := "We don't currently have any upcoming Open Days listed. " +:+
               "You can check back soon on our [Admissions page](" +:+
               OPEN_DAYS_URL +:+ ").";
     url := Some OPEN_DAYS_URL;
     label := Some "Admissions";
     matched_key := Some "open_days";
     source := "open_days" |}.

(** What the first three tiers answer to a request without a session, as
    a function of the stripped, lower-cased question; [None] when they
    pass the question on to retrieval. *)
Definition static_tiers (env : Env) (language q_lower : string) : option Answer :=
  if PyStr.any_in open_day_keywords q_lower then
    Some (match sorted_by_date (get_open_day_events env) with
          | next :: _ => next_event_answer next
          | [] => no_events_answer
          end)
  else
    match exact_match (STATIC_QAS env) language q_lower with
    | Some qa => Some (entry_answer qa (qa_answer qa) "static")
    | None =>
        match fuzzy_match (STATIC_QAS env) language q_lower with
        | Some qa => Some (entry_answer qa (qa_answer qa) "fuzzy")
        | None => None
        end
    end.

(** A page that lists the autumn open morning twice, in two spellings,
    after the autumn open evening and an open evening long past; read on
    1 September 2026. *)
Definition sample_scraper : Scraper :=
  {| page_matches := λ _,
       [("Open Evening", "Thursday 8 October 2026");
        ("open morning", "Saturday 26 September 2026");
        ("Open Evening", "Thursday 5 March 2020");
        ("Open Morning", "Saturday 26 September 2026")];
     parse_date := λ s,
       if String.eqb s "Thursday 8 October 2026" then Ok 739897%N
       else if String.eqb s "Saturday 26 September 2026" then Ok 739885%N
       else if String.eqb s "Thursday 5 March 2020" then Ok 737489%N
       else Raise (ExternalError "ParserError");
     today := 739860%N;
     title_words := λ s,
       if String.eqb (PyStr.lower s) "open morning" then "Open Morning"
       else "Open Evening";
     isoformat := λ d,
       if (d =? 739897)%N then "2026-10-08"
       else if (d =? 739885)%N then "2026-09-26" else "2020-03-05";
     strftime_long := λ d,
       if (d =? 739897)%N then "Thursday 08 October 2026"
       else if (d =? 739885)%N then "Saturday 26 September 2026"
       else "Thursday 05 March 2020" |}.

(** A deployment whose cache holds what the scraper reads off that page. *)
Definition refreshed_env : Env :=
  {| scalar := Q;
     STATIC_QAS := STATIC_QA_LIST;
     translate := translate offline_env;
     get_open_day_events :=
       match _extract_events_from_html sample_scraper "<html></html>" with
       | Ok events => events
       | Raise _ => []
       end;
     fetch_family_context := fetch_family_context offline_env;
     uuid4 := uuid4 offline_env;
     embeddings_create := λ _, Ok [1 # 2; 1 # 3; 1 # 5]%Q;
     EMBEDDINGS_shape := [0];
     METADATA := [];
     cosine_top_k := λ _ _, ([], []);
     chat_completion := chat_completion offline_env;
     re_sub := re_sub offline_env;
     re_search := re_search offline_env;
     re_findall4 := re_findall4 offline_env |}.

(** ** The family context read from the database *)

(** [safe_trim], for a value that is a string or [None]. *)
Definition safe_trim (v : option string) (limit : nat) : string :=
  match v with
  | None => EmptyString
  | Some text =>
      let s := PyStr.strip text in
      if String.length s <=? limit then s else PyStr.take limit s +:+ ellipsis
  end.

(** The row that the query of [fetch_family_context] returns, column by
    column; a NULL is [None]. *)
Record Inquiry : Type := {
  inq_family_id : string;
  inq_child_first_name : option string;
  inq_child_last_name : option string;
  inq_year_group : option string;
  inq_boarding_status : option string;
  inq_main_interests : option string;
  inq_parent_name : option string;
  inq_parent_email : option string;
  inq_country : option string;
  inq_language_pref : option string
}.

(** [filter(None, parts)]: the parts that are not empty. *)
Definition nonempty_parts (parts : list string) : list string :=
  List.filter (λ p, negb (String.eqb p EmptyString)) parts.

(** [x or None] on a string. *)
Definition or_none (s : string) : option string :=
  match s with
  | EmptyString => None
  | _ => Some s
  end.

Module Db.

(** The [summary] dict built from a row. *)
Definition summary (data : Inquiry) : FamilyContext :=
  let child_name :=
    PyStr.strip
      (PyStr.join " "
         (nonempty_parts [safe_trim (inq_child_first_name data) 120;
                          safe_trim (inq_child_last_name data) 120])) in
  {| fc_family_id := inq_family_id data;
     fc_child_name := or_none child_name;
     fc_year_group := safe_trim (inq_year_group data) 120;
     fc_boarding_status := safe_trim (inq_boarding_status data) 120;
     fc_interests := safe_trim (inq_main_interests data) 120;
     fc_country := safe_trim (inq_country data) 120;
     fc_language_pref := PyStr.take 5 (PyStr.or_else (inq_language_pref data) "en");
     fc_parent_name := inq_parent_name data;
     fc_parent_email := inq_parent_email data |}.

(** [fetch_family_context]; [db_pool] is [None] without a database, and
    otherwise answers the query for a family id with a row, with no row,
    or with an exception. *)
Definition fetch_family_context
    (db_pool : option (string → Result (option Inquiry))) (family_id : string)
  : option FamilyContext :=
  match db_pool with
  | None => None
  | Some fetchone =>
      match fetchone family_id with
      | Ok (Some row) => Some (summary row)
      | Ok None => None
      | Raise _ => None
      end
  end.

End Db.

(** The value is NULL or holds nothing but white space. *)
Definition blank (v : option string) : Prop :=
  PyStr.strip (default EmptyString v) = EmptyString.

(** A database that holds one family, with a padded first name. *)
Definition sample_pool : string → Result (option Inquiry) :=
  λ fid, if String.eqb fid "f9"
         then Ok (Some {| inq_family_id := "f9";
                          inq_child_first_name := Some "  Alice ";
                          inq_child_last_name := Some "";
                          inq_year_group := Some "Year 9";
                          inq_boarding_status := Some "";
                          inq_main_interests := Some "rowing";
                          inq_parent_name := Some "Ms Reed";
                          inq_parent_email := Some "reed@example.org";
                          inq_country := Some "UK";
                          inq_language_pref := Some "en-GB-oxendict" |})
         else Ok None.


(** * Properties *)

(** ** Text primitives *)

Lemma lower_char_never_capital_I (c : ascii) :
  PyStr.lower_char c ≠ Ascii.ascii_of_nat 73.
Proof. destruct c as [[] [] [] [] [] [] [] []]; vm_compute; discriminate. Qed.

Lemma lower_has_no_capital_I (s : string) :
  PyRepr.has_char (Ascii.ascii_of_nat 73) (PyStr.lower s) = false.
Proof.
  induction s as [|c s IH]; [reflexivity|].
  cbn [PyStr.lower PyRepr.has_char]. rewrite IH, orb_false_r.
  apply bool_decide_eq_false. intros E.
  exact (lower_char_never_capital_I c (eq_sym E)).
Qed.

Lemma prefix_has_char (c : ascii) (needle hay : string) :
  String.prefix needle hay = true →
  PyRepr.has_char c needle = true → PyRepr.has_char c hay = true.
Proof.
  revert hay. induction needle as [|x needle IH]; intros hay Hp Hc; [discriminate|].
  destruct hay as [|y hay]; [discriminate|].
  cbn [String.prefix] in Hp. destruct (Ascii.ascii_dec x y) as [->|]; [|discriminate].
  cbn [PyRepr.has_char] in *. apply orb_true_iff in Hc as [Hc|Hc].
  - rewrite Hc. reflexivity.
  - rewrite (IH hay Hp Hc). apply orb_true_r.
Qed.

Lemma contains_has_char (c : ascii) (needle hay : string) :
  PyStr.contains needle hay = true →
  PyRepr.has_char c needle = true → PyRepr.has_char c hay = true.
Proof.
  induction hay as [|y hay IH]; cbn [PyStr.contains]; intros Hc Hn.
  - rewrite orb_false_r in Hc. eauto using prefix_has_char.
  - apply orb_true_iff in Hc as [Hc|Hc]; [eauto using prefix_has_char|].
    cbn [PyRepr.has_char]. rewrite (IH Hc Hn). apply orb_true_r.
Qed.

(** The keyword spelled with a capital letter cannot occur in lower-cased
    text. *)
Lemma how_do_I_never_in_lowered (question : string) :
  PyStr.contains "how do I" (PyStr.lower question) = false.
Proof.
  destruct (PyStr.contains "how do I" (PyStr.lower question)) eqn:E; [|reflexivity].
  pose proof (contains_has_char (Ascii.ascii_of_nat 73) _ _ E eq_refl) as H.
  rewrite lower_has_no_capital_I in H. discriminate.
Qed.

(** ** Conversation tracker *)

(** C4 (the code departs from the claim): a question whose lower-cased text
    holds none of apply, visit, fee, scholarship, "when can", register
    leaves [high_intent_signals] as it was, whether or not it holds
    "how do i": the keyword list spells that entry "how do I", which
    lower-cased text never contains. *)
Theorem C4_how_do_i_is_not_counted (now : nat) (self : ConversationTracker)
    (question answer : string) (topic : option string) :
  PyStr.any_in ["apply"; "visit"; "fee"; "scholarship"; "when can"; "register"]
               (PyStr.lower question) = false →
  high_intent_signals (add_interaction now self question answer topic)
  = high_intent_signals self.
Proof.
  intros H. unfold add_interaction; cbn [high_intent_signals].
  assert (PyStr.any_in high_intent_keywords (PyStr.lower question) = false) as ->;
    [|reflexivity].
  unfold PyStr.any_in, high_intent_keywords in *. cbn [existsb] in *.
  rewrite how_do_I_never_in_lowered.
  repeat (apply orb_false_iff in H as [? H]).
  repeat (apply orb_false_iff; split); assumption || reflexivity.
Qed.

Lemma C4_how_do_i_is_not_counted_witness :
  PyStr.contains "how do i" (PyStr.lower "How do I enrol?") = true ∧
  high_intent_signals
    (add_interaction 1 (new_tracker 0 "s1" None) "How do I enrol?" "..." None) = 0.
Proof.
  split; [reflexivity|].
  apply (C4_how_do_i_is_not_counted 1 (new_tracker 0 "s1" None)). reflexivity.
Defined.

(** ** Response enhancer *)

Lemma rotate_in_pool (pool : list string) (n : nat) :
  pool ≠ [] → ResponseEnhancer.rotate pool n ∈ pool.
Proof.
  intros Hne. unfold ResponseEnhancer.rotate.
  assert (n mod length pool < length pool) as Hlt.
  { apply Nat.mod_upper_bound. destruct pool; [done|]. cbn. lia. }
  destruct (lookup_lt_is_Some_2 pool _ Hlt) as [x Hx]. rewrite Hx. cbn.
  eapply list_elem_of_lookup_2, Hx.
Qed.

(** With at least one interaction on record the greeting is out of reach:
    whatever the acknowledgment is, it is one of the other phrases. *)
Lemma acknowledgment_after_first (context : ConversationTracker) (ack : string) :
  interactions context ≠ [] →
  ResponseEnhancer._add_acknowledgment context = Ok ack →
  ack ≠ ResponseEnhancer.greeting.
Proof.
  intros Hne. unfold ResponseEnhancer._add_acknowledgment.
  destruct (interactions context) as [|i l] eqn:E; [done|]. cbn [length Nat.eqb].
  destruct (PyRepr.in_str _ _) as [[]|]; [| |discriminate].
  - intros [= <-]. discriminate.
  - case_bool_decide.
    + intros [= <-]. discriminate.
    + intros [= <-].
      pose proof (rotate_in_pool ResponseEnhancer.acknowledgments (S (length l))) as Hin.
      specialize (Hin ltac:(discriminate)).
      unfold ResponseEnhancer.acknowledgments in Hin at 2.
      intros Heq. rewrite Heq in Hin.
      repeat (apply elem_of_cons in Hin as [Hin|Hin]; [discriminate Hin|]).
      by apply elem_of_nil in Hin.
Qed.

(** With a non-empty [last_topic] the membership test is a substring test
    on a string and cannot raise. *)
Lemma enhance_ok_with_topic (base : string) (context : ConversationTracker)
    (family_ctx : option FamilyContext) :
  is_Some (last_topic context) →
  ∃ text, ResponseEnhancer.enhance_for_voice base context family_ctx = Ok text.
Proof.
  intros [t Ht]. unfold ResponseEnhancer.enhance_for_voice,
    ResponseEnhancer._add_acknowledgment.
  rewrite Ht. cbn [PyRepr.in_str].
  destruct (length (interactions context) =? 0); [eauto|].
  destruct (PyStr.contains _ _); [eauto|].
  case_bool_decide; eauto.
Qed.

(** The test [last_topic in str(topics_discussed)] looks for the topic as
    a piece of the printed set, not as a member: here "fee" is no member
    of the set holding "fees" and the phrase is chosen all the same. *)
Example acknowledgment_tests_substring_of_repr :
  let context :=
    {| session_id := "s1"; family_id := None; started_at := 0;
       interactions := [{| i_timestamp := 1; i_question := "q";
                           i_answer := "a"; i_topic := Some "fees" |}];
       topics_discussed := ["fees"]; concerns := [];
       child_name := None; parent_name := None; year_group := None;
       interests := []; high_intent_signals := 0; last_topic := Some "fee";
       emotional_state := neutral |} in
  ("fee" ∉ topics_discussed context) ∧
  (ResponseEnhancer._add_acknowledgment context = Ok ResponseEnhancer.following_on).
Proof.
  split; [|reflexivity]. cbn. intros H.
  apply list_elem_of_singleton in H. discriminate.
Qed.

(** C8 (the code departs from the claim): on a tracker that holds an
    interaction but no topic yet ([last_topic] is [None], as after
    [add_interaction] without a topic) the acknowledgment step raises
    [TypeError] instead of falling through to the empathetic phrase or the
    round-robin pool, and so does [enhance_for_voice]. *)
Theorem C8_acknowledgment_raises_without_topic (base_answer : string)
    (context : ConversationTracker) (family_ctx : option FamilyContext) :
  interactions context ≠ [] →
  last_topic context = None →
  ResponseEnhancer._add_acknowledgment context = Raise TypeError ∧
  ResponseEnhancer.enhance_for_voice base_answer context family_ctx = Raise TypeError.
Proof.
  intros Hne Hnone.
  assert (ResponseEnhancer._add_acknowledgment context = Raise TypeError) as Hack.
  { unfold ResponseEnhancer._add_acknowledgment. rewrite Hnone.
    destruct (interactions context); [done|reflexivity]. }
  split; [exact Hack|].
  unfold ResponseEnhancer.enhance_for_voice. rewrite Hack. reflexivity.
Qed.

Lemma C8_acknowledgment_raises_without_topic_witness :
  let context :=
    add_interaction 1 (new_tracker 0 "s1" None) "What is on the lunch menu?"
                    "Our chefs cook fresh meals every day." None in
  ((None : option string) ∉ (Some <$> topics_discussed context)) ∧
  (emotional_state context = neutral) ∧
  (ResponseEnhancer.rotate ResponseEnhancer.acknowledgments (length (interactions context))
   = "I'm glad you asked about that.") ∧
  (ResponseEnhancer._add_acknowledgment context = Raise TypeError ∧
   ResponseEnhancer.enhance_for_voice "Lunch is served at one." context None
   = Raise TypeError).
Proof.
  cbv zeta. split; [|split; [|split]].
  - cbn. apply not_elem_of_nil.
  - reflexivity.
  - reflexivity.
  - apply (C8_acknowledgment_raises_without_topic "Lunch is served at one."
             (add_interaction 1 (new_tracker 0 "s1" None) "What is on the lunch menu?"
                              "Our chefs cook fresh meals every day." None) None).
    + discriminate.
    + reflexivity.
Defined.

(** ** Vector search *)


(** C7 (amended): once the embedding service has returned the query vector,
    [vector_search] returns the pair of empty arrays, without raising,
    whenever the embedding matrix is not two-dimensional, has no rows, or
    has rows of a length other than the query vector's. *)
Theorem C7_vector_search_guards (env : Env) (query : string) (k : nat)
    (q_vec : list (scalar env)) :
  embeddings_create env (PyStr.strip query) = Ok q_vec →
  (length (EMBEDDINGS_shape env) ≠ 2 ∨
   EMBEDDINGS_shape env !! 0 = Some 0 ∨
   (∃ d, EMBEDDINGS_shape env !! 1 = Some d ∧ d ≠ length q_vec)) →
  Retrieval.vector_search env query k = Ok ([], []).
Proof.
  intros Hvec Hguard.
  unfold Retrieval.vector_search, Retrieval.embed_text, Retrieval.ndim,
    Retrieval.shape_at.
  rewrite Hvec. cbn.
  destruct (EMBEDDINGS_shape env) as [|n0 [|n1 [|n2 rest]]]; cbn; try reflexivity.
  destruct n0; cbn; [reflexivity|].
  destruct (n1 =? length q_vec) eqn:E; cbn; [|reflexivity].
  apply Nat.eqb_eq in E. exfalso.
  destruct Hguard as [H|[H|(d & H & Hd)]]; cbn in H.
  - lia.
  - discriminate.
  - congruence.
Qed.

Lemma C7_vector_search_guards_witness :
  Retrieval.vector_search offline_env "What are the fees?" 10 = Ok ([], []).
Proof.
  apply (C7_vector_search_guards offline_env "What are the fees?" 10
           [1 # 2; 1 # 3; 1 # 5]%Q).
  - reflexivity.
  - left. cbn. lia.
Defined.

(** C7 as stated fails when the embedding service does: [vector_search]
    asks for the query embedding before it tests the matrix, and the
    exception of that call is not caught, although the matrix is empty
    and not two-dimensional. *)
Lemma C7_counterexample_embedding_failure_raises :
  length (EMBEDDINGS_shape embedding_down_env) ≠ 2 ∧
  EMBEDDINGS_shape embedding_down_env !! 0 = Some 0 ∧
  Retrieval.vector_search embedding_down_env "What are the fees?" 10
  = Raise (ExternalError "embedding service unavailable").
Proof. split; [discriminate|]. split; reflexivity. Qed.

(** ** Reasoning about requests: weakest preconditions over [M] *)

Lemma wp_ret {A} (a : A) Q w : Q (Ok a) w → wp (mret a) Q w.
Proof. exact id. Qed.

Lemma wp_lift {A} (r : Result A) Q w : Q r w → wp (lift r) Q w.
Proof. exact id. Qed.

Lemma wp_bind {A B} (m : M A) (k : A → M B) Q w :
  wp m (λ r w', match r with
                | Ok a => wp (k a) Q w'
                | Raise e => Q (Raise e) w'
                end) w →
  wp (m ≫= k) Q w.
Proof.
  unfold wp, mbind, M_bind, bind. destruct (m w) as [[a|e] w']; exact id.
Qed.

Lemma wp_try_except {A} (m : M A) (handler : PyExc → M A) Q w :
  wp m (λ r w', match r with
                | Ok a => Q (Ok a) w'
                | Raise e => wp (handler e) Q w'
                end) w →
  wp (try_except m handler) Q w.
Proof.
  unfold wp, try_except. destruct (m w) as [[a|e] w']; exact id.
Qed.

Lemma wp_datetime_now Q w :
  Q (Ok (clock w))
    {| conversation_memory := conversation_memory w;
       clock := S (clock w); trace := trace w |} →
  wp datetime_now Q w.
Proof. exact id. Qed.

Lemma wp_log ev Q w :
  Q (Ok tt)
    {| conversation_memory := conversation_memory w;
       clock := clock w; trace := trace w ++ [ev] |} →
  wp (log ev) Q w.
Proof. exact id. Qed.

Lemma wp_registry_lookup sid Q w :
  Q (Ok (conversation_memory w !! sid)) w → wp (registry_lookup sid) Q w.
Proof. exact id. Qed.

Lemma wp_registry_store sid t Q w :
  Q (Ok tt)
    {| conversation_memory := <[sid := t]> (conversation_memory w);
       clock := clock w; trace := trace w |} →
  wp (registry_store sid t) Q w.
Proof. exact id. Qed.

Lemma wp_run {A} (m : M A) Q w r w' : wp m Q w → m w = (r, w') → Q r w'.
Proof. unfold wp. intros H E. rewrite E in H. exact H. Qed.


(** [tracker.add_interaction]: never raises, stamps the interaction with
    the clock, writes through [ref] and leaves one event. *)
Lemma wp_tracker_add_interaction ref tracker question answer topic Q w :
  (let tracker' := add_interaction (clock w) tracker question answer topic in
   Q (Ok tracker')
     {| conversation_memory :=
          match ref with
          | InRegistry sid => <[sid := tracker']> (conversation_memory w)
          | Private => conversation_memory w
          end;
        clock := S (clock w);
        trace := trace w ++ [EvAddInteraction ref tracker'] |}) →
  wp (tracker_add_interaction ref tracker question answer topic) Q w.
Proof. destruct ref; exact id. Qed.

(** The enhancement block: skipped without a session id; otherwise one
    [EvEnhance] event and the enhancer's outcome. *)
Lemma wp_enhance_if_session env session_id family_id answer tracker Q w :
  (if PyStr.truthy session_id
   then Q (ResponseEnhancer.enhance_for_voice answer tracker
             (family_context_for env family_id))
          {| conversation_memory := conversation_memory w;
             clock := clock w;
             trace := trace w ++ [EvEnhance answer tracker
                                    (family_context_for env family_id)] |}
   else Q (Ok answer) w) →
  wp (enhance_if_session env session_id family_id answer tracker) Q w.
Proof.
  unfold enhance_if_session. destruct (PyStr.truthy session_id); exact id.
Qed.


Lemma wp_resolve_tracker env session_id family_id Q w :
  match truthy_id session_id with
  | Some sid =>
      match conversation_memory w !! sid with
      | Some tracker => Q (Ok (InRegistry sid, tracker)) w
      | None =>
          let tracker := new_tracker (clock w) sid family_id in
          Q (Ok (InRegistry sid, tracker))
            {| conversation_memory := <[sid := tracker]> (conversation_memory w);
               clock := S (clock w); trace := trace w |}
      end
  | None =>
      Q (Ok (Private, new_tracker (clock w) (uuid4 env (clock w)) family_id))
        {| conversation_memory := conversation_memory w;
           clock := S (clock w); trace := trace w |}
  end →
  wp (resolve_tracker env session_id family_id) Q w.
Proof.
  unfold resolve_tracker, truthy_id.
  destruct session_id as [sid|]; [|exact id].
  destruct (PyStr.truthy (Some sid)); [|exact id].
  unfold wp, mbind, M_bind, bind, registry_lookup. cbn.
  destruct (conversation_memory w !! sid); exact id.
Qed.

(** One step through the body of a request. *)
Ltac wp_step :=
  lazymatch goal with
  | |- wp (mbind _ _) _ _ => apply wp_bind
  | |- wp (mret _) _ _ => apply wp_ret
  | |- wp (lift _) _ _ => apply wp_lift
  | |- wp (try_except _ _) _ _ => apply wp_try_except
  | |- wp datetime_now _ _ => apply wp_datetime_now
  | |- wp (log _) _ _ => apply wp_log
  | |- wp (tracker_add_interaction _ _ _ _ _) _ _ =>
      apply wp_tracker_add_interaction; cbv zeta
  | |- wp (enhance_if_session _ _ _ _ _) _ _ => apply wp_enhance_if_session
  | |- wp (resolve_tracker _ _ _) _ _ => apply wp_resolve_tracker
  | |- wp (if ?b then _ else _) _ _ =>
      first [ match goal with H : b = _ |- _ => rewrite H end | destruct b eqn:? ]
  | |- wp (match ?x with _ => _ end) _ _ =>
      first [ match goal with H : x = _ |- _ => rewrite H end | destruct x eqn:? ]
  | |- match ?r with Ok _ => _ | Raise _ => _ end =>
      first [ progress cbv beta iota | destruct r eqn:? ]
  | |- match truthy_id ?s with _ => _ end =>
      first [ progress cbn [truthy_id PyStr.truthy] | destruct (truthy_id s) eqn:? ]
  | |- match conversation_memory _ !! _ with _ => _ end =>
      destruct (conversation_memory _ !! _) eqn:?
  | |- if PyStr.truthy ?s then _ else _ =>
      first [ progress cbn [PyStr.truthy] | destruct (PyStr.truthy s) eqn:? ]
  | |- let _ := _ in _ => cbv zeta
  | |- (λ _, _) _ => cbv beta
  | |- (λ _, _) _ _ => cbv beta
  end.

Ltac wp_walk := unfold find_best_answer; repeat wp_step.

(** ** The registry and the enhancer when no session is given *)


(** C9: a call with [session_id] [None] leaves [conversation_memory] as it
    was, whatever the outcome; an interaction it records goes to a new
    tracker outside the registry, and the Response Enhancer is not called. *)
Theorem C9_no_session_leaves_registry (env : Env) (question language : string)
    (family_id : option string) (w : World) :
  let out := find_best_answer env question language None family_id w in
  conversation_memory out.2 = conversation_memory w ∧
  ∃ evs, extends_by w out.2 evs ∧ Forall private_record evs.
Proof.
  cbv zeta.
  change (wp (find_best_answer env question language None family_id)
            (λ _ w', conversation_memory w' = conversation_memory w ∧
                     ∃ evs, extends_by w w' evs ∧ Forall private_record evs) w).
  wp_walk.
  all: unfold extends_by; cbn [conversation_memory trace].
  all: split; [reflexivity|].
  all: try (exists []; split; [by rewrite app_nil_r|constructor]).
  all: eexists; split; [reflexivity|].
  all: repeat constructor.
Qed.

(** ** Recording comes before enhancement *)

Lemma add_interaction_records now self question answer topic :
  records question (add_interaction now self question answer topic).
Proof. eexists. cbn [add_interaction interactions]. rewrite last_snoc. done. Qed.

Lemma add_interaction_counts now self question answer topic :
  1 ≤ length (interactions (add_interaction now self question answer topic)).
Proof. cbn [add_interaction interactions]. rewrite length_app. cbn. lia. Qed.

Lemma no_greeting_after_recording now self question answer topic :
  ResponseEnhancer._add_acknowledgment (add_interaction now self question answer topic)
  ≠ Ok ResponseEnhancer.greeting.
Proof.
  intros H. eapply acknowledgment_after_first; [|exact H|reflexivity].
  cbn [add_interaction interactions]. intros E. by apply app_nil in E as [_ ?].
Qed.

Lemma enhanced_after_recording_silent question evs :
  (∀ base ctx fam, EvEnhance base ctx fam ∉ evs) → enhanced_after_recording question evs.
Proof.
  intros Hno pre base ctx fam post ->. exfalso. apply (Hno base ctx fam).
  apply elem_of_app. right. apply elem_of_cons. by left.
Qed.

Lemma enhanced_after_recording_pair question ref now self answer topic base fam :
  enhanced_after_recording question
    [EvAddInteraction ref (add_interaction now self question answer topic);
     EvEnhance base (add_interaction now self question answer topic) fam].
Proof.
  intros pre base' ctx fam' post E.
  destruct pre as [|e1 [|e2 [|e3 pre]]]; cbn [app] in E; simplify_eq.
  split; [by exists [], ref|].
  split; [apply add_interaction_records|].
  split; [apply add_interaction_counts|apply no_greeting_after_recording].
Qed.

(** C10: in every request, whatever its outcome, each call of
    [enhance_for_voice] directly follows the recording of the current
    question on the tracker it receives; that tracker then counts at least
    one interaction and the first-interaction greeting is not produced. *)
Theorem C10_recorded_before_enhanced (env : Env) (question language : string)
    (session_id family_id : option string) (w : World) :
  let out := find_best_answer env question language session_id family_id w in
  ∃ evs, extends_by w out.2 evs ∧ enhanced_after_recording question evs.
Proof.
  cbv zeta.
  change (wp (find_best_answer env question language session_id family_id)
            (λ _ w', ∃ evs, extends_by w w' evs ∧
                            enhanced_after_recording question evs) w).
  wp_walk.
  all: unfold extends_by; cbn [conversation_memory trace].
  all: try (exists []; split; [by rewrite app_nil_r|];
            apply enhanced_after_recording_silent; intros ??? []%elem_of_nil).
  all: try (eexists [_]; split; [reflexivity|];
            apply enhanced_after_recording_silent;
            intros ??? [?|[]%elem_of_nil]%elem_of_cons; discriminate).
  all: rewrite <- app_assoc; eexists; split; [reflexivity|].
  all: apply enhanced_after_recording_pair.
Qed.

(** ** Which tiers record an interaction *)

Ltac pick_events :=
  first [ exists []; split; [by rewrite app_nil_r|]
        | rewrite <- ?app_assoc; eexists; split; [reflexivity|] ].

Ltac known_lookup :=
  repeat match goal with
         | H : conversation_memory _ !! _ = _ |- _ => rewrite H
         end.

Ltac one_record :=
  eexists _, _, _;
  split; [reflexivity|];
  split; [reflexivity|];
  split; [reflexivity|];
  split; [reflexivity|];
  first [ reflexivity | apply lookup_insert_eq ].

(** C1 (amended): whenever [find_best_answer] returns an answer of the
    exact, fuzzy or retrieval tier (source "static", "fuzzy" or "rag"),
    exactly one interaction for the question has been appended to the
    resolved tracker (the registry entry of the session, or a private
    tracker without one); the no-match answer (source "none") comes with
    one when a session id was supplied and with none otherwise.  The
    statement says nothing of the open-days tier. *)
Theorem C1_interaction_recorded_per_tier (env : Env) (question language : string)
    (session_id family_id : option string) (w w' : World) (ans : Answer) :
  find_best_answer env question language session_id family_id w = (Ok ans, w') →
  tier_recording question session_id w ans w'.
Proof.
  intros Hrun.
  refine (wp_run _ (λ r w', match r with
                            | Ok ans => tier_recording question session_id w ans w'
                            | Raise _ => True
                            end) _ _ _ _ Hrun).
  clear Hrun.
  destruct session_id as [[|c sid]|].
  all: wp_walk; try exact I.
  all: unfold tier_recording, extends_by, recorded_once, nothing_recorded,
         interactions_before;
       cbn [conversation_memory trace source truthy_id PyStr.truthy];
       known_lookup.
  all: pick_events.
  all: split; [intros H; try (destruct H as [H|[H|H]]; discriminate H); one_record|].
  all: split; [intros H; try discriminate H; first [done | one_record]|].
  all: by repeat constructor.
Qed.

Lemma C1_interaction_recorded_per_tier_witness :
  let out := find_best_answer offline_env "admissions" "en" (Some "s1") None fresh_world in
  ∃ ans, out.1 = Ok ans ∧ source ans = "static" ∧
         tier_recording "admissions" (Some "s1") fresh_world ans out.2.
Proof.
  cbv zeta.
  set (out := find_best_answer offline_env "admissions" "en" (Some "s1") None fresh_world).
  assert (∃ ans, out.1 = Ok ans ∧ source ans = "static") as (ans & Hans & Hsrc).
  { vm_compute. eexists. split; reflexivity. }
  exists ans. split; [exact Hans|]. split; [exact Hsrc|].
  apply (C1_interaction_recorded_per_tier offline_env "admissions" "en" (Some "s1") None
           fresh_world out.2 ans).
  rewrite <- Hans. fold out. destruct out; reflexivity.
Defined.

(** C1 as stated fails for the no-match answer: asked without a session
    id, a question that no tier can answer is answered with the no-match
    text and no interaction is recorded on any tracker. *)
Lemma C1_counterexample_no_match_without_session :
  let lunch := find_best_answer offline_env "What is on the lunch menu?" "en"
                                None None fresh_world in
  (∃ ans, lunch.1 = Ok ans ∧ source ans = "none") ∧
  trace lunch.2 = [] ∧ conversation_memory lunch.2 = ∅.
Proof.
  vm_compute.
  split; [eexists; split; reflexivity|]. split; reflexivity.
Qed.

(** ** The exact tier *)

Lemma exact_match_first (pre post : list StaticQA) (e : StaticQA)
    (language q_lower : string) :
  qa_language e = language →
  exact_hit q_lower e = true →
  Forall (λ e', qa_language e' = language → exact_hit q_lower e' = false) pre →
  exact_match (pre ++ e :: post) language q_lower = Some e.
Proof.
  intros Hlang Hhit Hpre. induction Hpre as [|e' pre Hnohit _ IH]; cbn [app exact_match].
  - rewrite Hlang, String.eqb_refl, Hhit. reflexivity.
  - destruct (String.eqb (qa_language e') language) eqn:E; cbn [negb]; [|exact IH].
    apply String.eqb_eq in E. rewrite (Hnohit E). exact IH.
Qed.

Lemma exact_match_sound (table : list StaticQA) (language q_lower : string)
    (e : StaticQA) :
  exact_match table language q_lower = Some e →
  e ∈ table ∧ qa_language e = language ∧ exact_hit q_lower e = true.
Proof.
  induction table as [|e' table IH]; cbn [exact_match]; [discriminate|].
  destruct (String.eqb (qa_language e') language) eqn:E; cbn [negb].
  - destruct (exact_hit q_lower e') eqn:Hhit.
    + intros [= <-]. apply String.eqb_eq in E. split; [left|done].
    + intros H. destruct (IH H) as (? & ? & ?). split; [by right|done].
  - intros H. destruct (IH H) as (? & ? & ?). split; [by right|done].
Qed.

Lemma exact_match_complete (table : list StaticQA) (language q_lower : string)
    (e : StaticQA) :
  e ∈ table → qa_language e = language → exact_hit q_lower e = true →
  is_Some (exact_match table language q_lower).
Proof.
  intros Hin Hlang Hhit. induction Hin as [e table|e e' table Hin IH];
    cbn [exact_match].
  - rewrite Hlang, String.eqb_refl, Hhit. by eexists.
  - specialize (IH Hlang Hhit).
    destruct (negb _); [exact IH|]. destruct (exact_hit q_lower e'); [by eexists|exact IH].
Qed.

Lemma exact_hit_own_key (e : StaticQA) :
  exact_hit (PyStr.lower (qa_key e)) e = true.
Proof.
  unfold exact_hit, all_variants. apply bool_decide_eq_true.
  cbn [map]. apply elem_of_cons. by left.
Qed.

Lemma add_interaction_last_topic now self question answer key :
  key ≠ EmptyString →
  last_topic (add_interaction now self question answer (Some key)) = Some key.
Proof. intros Hne. destruct key; [done|reflexivity]. Qed.

Ltac entry_tier_leaf :=
  unfold answered_from_entry;
  cbn [truthy_id PyStr.truthy fst snd conversation_memory];
  first
    [ reflexivity
    | eexists; split; [apply lookup_insert_eq|];
      split; [apply add_interaction_records|];
      split; [apply add_interaction_last_topic|];
      match goal with
      | H : ResponseEnhancer.enhance_for_voice _ _ _ = _ |- _ => rewrite H
      end; reflexivity ].

(** A question that holds no open-day keyword and hits entry [qa] in the
    exact tier is answered from [qa] with source "static". *)
Lemma static_tier_outcome (env : Env) (question language : string)
    (session_id family_id : option string) (w : World) (qa : StaticQA) :
  PyStr.any_in open_day_keywords (PyStr.lower (PyStr.strip question)) = false →
  exact_match (STATIC_QAS env) language (PyStr.lower (PyStr.strip question)) = Some qa →
  answered_from_entry env qa "static" question session_id family_id
    (find_best_answer env question language session_id family_id w).
Proof.
  intros Hkw Hexact.
  change (wp (find_best_answer env question language session_id family_id)
            (λ r w', answered_from_entry env qa "static" question session_id family_id
                       (r, w')) w).
  destruct session_id as [[|c sid]|].
  all: wp_walk.
  all: entry_tier_leaf.
Qed.

(** A question that holds no open-day keyword, misses the exact tier and
    is matched to [qa] by the fuzzy tier is answered from [qa] with source
    "fuzzy". *)
Lemma fuzzy_tier_outcome (env : Env) (question language : string)
    (session_id family_id : option string) (w : World) (qa : StaticQA) :
  PyStr.any_in open_day_keywords (PyStr.lower (PyStr.strip question)) = false →
  exact_match (STATIC_QAS env) language (PyStr.lower (PyStr.strip question)) = None →
  fuzzy_match (STATIC_QAS env) language (PyStr.lower (PyStr.strip question)) = Some qa →
  answered_from_entry env qa "fuzzy" question session_id family_id
    (find_best_answer env question language session_id family_id w).
Proof.
  intros Hkw Hexact Hfuzzy.
  change (wp (find_best_answer env question language session_id family_id)
            (λ r w', answered_from_entry env qa "fuzzy" question session_id family_id
                       (r, w')) w).
  destruct session_id as [[|c sid]|].
  all: wp_walk.
  all: entry_tier_leaf.
Qed.

(** An entry-based outcome is an answer as soon as the key is not empty. *)
Lemma answered_from_entry_returns (env : Env) (qa : StaticQA) (src question : string)
    (session_id family_id : option string) (out : Result Answer * World) :
  answered_from_entry env qa src question session_id family_id out →
  match truthy_id session_id with
  | None => out.1 = Ok (entry_answer qa (qa_answer qa) src)
  | Some sid =>
      qa_key qa ≠ EmptyString →
      ∃ tracker text,
        conversation_memory out.2 !! sid = Some tracker ∧
        ResponseEnhancer.enhance_for_voice (qa_answer qa) tracker
          (family_context_for env family_id) = Ok text ∧
        out.1 = Ok (entry_answer qa text src)
  end.
Proof.
  unfold answered_from_entry. destruct (truthy_id session_id) as [sid|]; [|done].
  intros (tracker & Hreg & _ & Htopic & Hout) Hkey.
  destruct (enhance_ok_with_topic (qa_answer qa) tracker (family_context_for env family_id))
    as [text Htext].
  { rewrite (Htopic Hkey). by eexists. }
  exists tracker, text. rewrite Htext in Hout. done.
Qed.

(** C2 (amended): take an entry whose key has no surrounding white space
    and, lower-cased, holds no open-day keyword, and that no earlier entry
    of its language lists under that spelling.  Asking its key in its
    language returns the entry's url and label, the key as [matched_key]
    and source "static"; the answer returned is the entry's answer when no
    session id is supplied, and the enhancer's rewriting of that answer on
    the session's tracker when one is (the key being non-empty). *)
Theorem C2_key_lookup_returns_entry (env : Env) (pre post : list StaticQA)
    (e : StaticQA) (session_id family_id : option string) (w : World) :
  STATIC_QAS env = pre ++ e :: post →
  PyStr.strip (qa_key e) = qa_key e →
  PyStr.any_in open_day_keywords (PyStr.lower (qa_key e)) = false →
  Forall (λ e', qa_language e' = qa_language e →
                exact_hit (PyStr.lower (qa_key e)) e' = false) pre →
  let out := find_best_answer env (qa_key e) (qa_language e) session_id family_id w in
  match truthy_id session_id with
  | None => out.1 = Ok (entry_answer e (qa_answer e) "static")
  | Some sid =>
      qa_key e ≠ EmptyString →
      ∃ tracker text,
        conversation_memory out.2 !! sid = Some tracker ∧
        ResponseEnhancer.enhance_for_voice (qa_answer e) tracker
          (family_context_for env family_id) = Ok text ∧
        out.1 = Ok (entry_answer e text "static")
  end.
Proof.
  intros Htable Hstrip Hkw Hpre. cbv zeta.
  apply answered_from_entry_returns with (question := qa_key e).
  apply static_tier_outcome; rewrite Hstrip; [exact Hkw|].
  rewrite Htable. apply exact_match_first; [reflexivity|apply exact_hit_own_key|exact Hpre].
Qed.

Lemma C2_key_lookup_returns_entry_witness :
  (find_best_answer offline_env "open events" "en" None None fresh_world).1
  = Ok (entry_answer qa_open_events
          "We host open mornings and visit opportunities throughout the year. Choose a date and register online."
          "static").
Proof.
  apply (C2_key_lookup_returns_entry offline_env (take 2 STATIC_QA_LIST)
           (drop 3 STATIC_QA_LIST) qa_open_events None None fresh_world).
  - reflexivity.
  - reflexivity.
  - reflexivity.
  - repeat constructor.
Defined.

(** On the shipped table the side conditions of C2 hold throughout: asked
    without a session, every one of the 107 keys returns its own entry. *)
Lemma shipped_keys_resolve_without_session (e : StaticQA) :
  e ∈ STATIC_QA_LIST →
  (find_best_answer offline_env (qa_key e) (qa_language e) None None fresh_world).1
  = Ok (entry_answer e (qa_answer e) "static").
Proof.
  assert (forallb (key_resolves offline_env) STATIC_QA_LIST = true) as Hall
    by (vm_compute; reflexivity).
  intros He. apply list_elem_of_In in He.
  rewrite forallb_forall in Hall. specialize (Hall e He).
  unfold key_resolves in Hall.
  destruct (find_best_answer offline_env (qa_key e) (qa_language e) None None fresh_world).1
    as [ans|]; [|discriminate].
  apply bool_decide_eq_true in Hall. by subst ans.
Qed.

(** C2 as stated fails in two ways.  When the request carries a session
    id the entry is found, but the answer returned is the enhancer's text,
    not the entry's.  And an entry whose key holds an open-day keyword,
    here "visit" inside a generated policy key, is never reached: the
    first tier answers. *)
Lemma C2_counterexample_enhanced_or_shadowed :
  let enhanced := find_best_answer offline_env "admissions" "en" (Some "s1") None
                                   fresh_world in
  let shadowed := find_best_answer visits_env (qa_key qa_visits_policy)
                                   (qa_language qa_visits_policy) None None fresh_world in
  (∃ ans, enhanced.1 = Ok ans ∧
          source ans = "static" ∧ matched_key ans = Some (qa_key qa_admissions) ∧
          answer ans = "Following on from what we discussed... Cheltenham College admissions information, entry process and who to contact. Would you like to book a personal tour?" ∧
          answer ans ≠ qa_answer qa_admissions) ∧
  (∃ ans, shadowed.1 = Ok ans ∧
          source ans = "open_days" ∧ matched_key ans = Some "open_days" ∧
          answer ans ≠ qa_answer qa_visits_policy).
Proof.
  vm_compute.
  split; eexists; repeat (split; [reflexivity|]); discriminate.
Qed.

(** The first tier comes before every table lookup: a question that holds
    an open-day keyword gets the open-days answer and the world is left as
    it was.  This is why C2 asks for a key without such a keyword. *)
Lemma open_days_tier_outcome (env : Env) (question language : string)
    (session_id family_id : option string) (w : World) :
  PyStr.any_in open_day_keywords (PyStr.lower (PyStr.strip question)) = true →
  let out := find_best_answer env question language session_id family_id w in
  out.2 = w ∧ ∃ ans, out.1 = Ok ans ∧ source ans = "open_days".
Proof.
  intros Hkw.
  change (wp (find_best_answer env question language session_id family_id)
            (λ r w', w' = w ∧ ∃ ans, r = Ok ans ∧ source ans = "open_days") w).
  wp_walk.
  all: split; [reflexivity|]; eexists; split; reflexivity.
Qed.

(** ** The translated question is never matched *)

(** C3 (the code departs from the claim): the English rendering of the
    question is computed and then dropped.  Whatever the translator
    answers for it, [g text] here, the request ends the same way: both
    static tiers compare the original lower-cased question. *)
Theorem C3_translated_question_is_unused (env : Env) (g : string → Result string)
    (question language : string) (session_id family_id : option string) (w : World) :
  find_best_answer (with_english_translation env g) question language session_id
                   family_id w
  = find_best_answer env question language session_id family_id w.
Proof.
  unfold find_best_answer.
  change (resolve_tracker (with_english_translation env g))
    with (resolve_tracker env).
  change (enhance_if_session (with_english_translation env g))
    with (enhance_if_session env).
  change (Retrieval.vector_search (with_english_translation env g))
    with (Retrieval.vector_search env).
  change (format_response (with_english_translation env g)) with (format_response env).
  change (remove_bullets (with_english_translation env g)) with (remove_bullets env).
  change (improve_answer (with_english_translation env g)) with (improve_answer env).
  cbn [translate with_english_translation STATIC_QAS get_open_day_events
       chat_completion METADATA].
  destruct (String.eqb language "en") eqn:E; cbn [negb].
  - reflexivity.
  - unfold mbind, M_bind, bind, try_except, lift, mret, M_ret, ret.
    change (String.eqb "en" "en") with true. cbv iota.
    destruct (g question), (translate env question "en"); reflexivity.
Qed.

(** The failing input of C3: the French question "tarifs", which the
    translator renders as "fees".  Matched as the claim says, the
    rendering hits the French entry keyed "fees" in the exact tier; the
    request instead falls through to the no-match answer. *)
Example french_question_misses_static_tier :
  let out := find_best_answer french_env "tarifs" "fr" None None fresh_world in
  translate french_env "tarifs" "en" = Ok "fees" ∧
  exact_match (STATIC_QAS french_env) "fr" (PyStr.lower (PyStr.strip "fees"))
  = Some qa_fees_fr ∧
  ∃ ans, out.1 = Ok ans ∧ source ans = "none".
Proof.
  vm_compute. split; [reflexivity|]. split; [reflexivity|].
  eexists. split; reflexivity.
Qed.

(** ** The matcher of [difflib]: blocks stay inside their ranges *)

Section longest_match_bounds.
Variables (a b : list ascii) (b2j : gmap ascii (list nat)).
Variables (alo ahi blo bhi : nat).
Hypothesis (Ha : alo ≤ ahi) (Hb : blo ≤ bhi).

Lemma scan_row_inside (i : nat) (js : list nat) (j2len newj2len : gmap nat nat)
    (best : difflib.Match) :
  alo ≤ i → i < ahi →
  runs_inside blo bhi (i - alo) j2len →
  runs_inside blo bhi (i + 1 - alo) newj2len →
  block_inside alo ahi blo bhi best →
  runs_inside blo bhi (i + 1 - alo) (difflib.scan_row blo bhi i js j2len newj2len best).1 ∧
  block_inside alo ahi blo bhi (difflib.scan_row blo bhi i js j2len newj2len best).2.
Proof.
  intros Hi1 Hi2 Hold. revert newj2len best.
  induction js as [|j js IH]; intros newj2len best Hnew Hbest; cbn [difflib.scan_row].
  - done.
  - destruct (j <? blo) eqn:E1; [by apply IH|].
    destruct (bhi <=? j) eqn:E2; [done|].
    apply Nat.ltb_ge in E1. apply Nat.leb_gt in E2.
    set (prev := match j with O => 0 | S j' => default 0 (j2len !! j') end).
    assert (prev ≤ j - blo ∧ prev ≤ i - alo) as [Hp1 Hp2].
    { subst prev. destruct j as [|j']; [lia|].
      destruct (j2len !! j') as [v|] eqn:Ev; cbn; [|lia].
      destruct (Hold _ _ Ev) as (? & ? & ? & ?). lia. }
    apply IH.
    + intros j0 v. destruct (decide (j0 = j)) as [->|Hne].
      * rewrite lookup_insert_eq. intros [= <-]. lia.
      * rewrite lookup_insert_ne by done. apply Hnew.
    + destruct (best.2 <? prev + 1); [|done].
      unfold block_inside. cbn. lia.
Qed.

Lemma scan_rows_inside (n i : nat) (j2len : gmap nat nat) (best : difflib.Match) :
  alo ≤ i → i + n ≤ ahi →
  runs_inside blo bhi (i - alo) j2len →
  block_inside alo ahi blo bhi best →
  block_inside alo ahi blo bhi (difflib.scan_rows a b2j blo bhi (seq i n) j2len best).
Proof.
  revert i j2len best. induction n as [|n IH]; intros i j2len best Hi1 Hi2 Hold Hbest;
    cbn [seq difflib.scan_rows]; [done|].
  set (js := match a !! i with Some elt => default [] (b2j !! elt) | None => [] end).
  pose proof (scan_row_inside i js j2len ∅ best Hi1 ltac:(lia) Hold) as Hrow.
  destruct (difflib.scan_row blo bhi i js j2len ∅ best) as [newj2len best'].
  destruct Hrow as [Hnew Hbest']; [|done|].
  { intros j v. by rewrite lookup_empty. }
  apply IH; [lia|lia| |done].
  replace (S i - alo) with (i + 1 - alo) by lia. exact Hnew.
Qed.

Lemma extend_left_inside (besti bestj bestsize : nat) :
  block_inside alo ahi blo bhi (besti, bestj, bestsize) →
  block_inside alo ahi blo bhi (difflib.extend_left a b alo blo besti bestj bestsize).
Proof.
  revert bestj bestsize. induction besti as [|i' IH]; intros bestj bestsize Hin;
    cbn [difflib.extend_left]; [done|].
  destruct bestj as [|j']; [done|].
  destruct (_ && _ && _) eqn:E; [|done].
  apply andb_prop in E as [E _]. apply andb_prop in E as [E1 E2].
  apply Nat.ltb_lt in E1, E2. apply IH.
  unfold block_inside in *. cbn in *. lia.
Qed.

Lemma extend_right_inside (room besti bestj bestsize : nat) :
  block_inside alo ahi blo bhi (besti, bestj, bestsize) →
  block_inside alo ahi blo bhi (difflib.extend_right a b ahi bhi room besti bestj bestsize).
Proof.
  revert bestsize. induction room as [|room IH]; intros bestsize Hin;
    cbn [difflib.extend_right]; [done|].
  destruct (_ && _ && _) eqn:E; [|done].
  apply andb_prop in E as [E _]. apply andb_prop in E as [E1 E2].
  apply Nat.ltb_lt in E1, E2. apply IH.
  unfold block_inside in *. cbn in *. lia.
Qed.

Lemma find_longest_match_inside :
  block_inside alo ahi blo bhi (difflib.find_longest_match a b b2j alo ahi blo bhi).
Proof.
  unfold difflib.find_longest_match.
  pose proof (scan_rows_inside (ahi - alo) alo ∅ (alo, blo, 0)) as H.
  destruct (difflib.scan_rows _ _ _ _ _ _ _) as [[besti bestj] bestsize].
  pose proof (extend_left_inside besti bestj bestsize) as H'.
  destruct (difflib.extend_left _ _ _ _ _ _ _) as [[besti' bestj'] bestsize'].
  apply extend_right_inside, H', H; [lia|lia| |].
  - intros j v. by rewrite lookup_empty.
  - unfold block_inside. cbn. lia.
Qed.

End longest_match_bounds.

(** ** The work list of [get_matching_blocks] *)

Section matching_blocks.
Variables (a b : list ascii) (b2j : gmap ascii (list nat)).

Lemma total_size_app (l1 l2 : list difflib.Match) :
  total_size (l1 ++ l2) = total_size l1 + total_size l2.
Proof. apply sum_list_with_app. Qed.

(** The blocks found never cover more of [a], or of [b], than the ranges
    they were searched in. *)
Lemma matching_loop_bound (fuel : nat) (queue : list (nat * nat * nat * nat))
    (acc res : list difflib.Match) :
  Forall range_ok queue →
  difflib.matching_loop a b b2j fuel queue acc = Some res →
  total_size res ≤ total_size acc + queue_a queue ∧
  total_size res ≤ total_size acc + queue_b queue.
Proof.
  revert queue acc. induction fuel as [|fuel IH]; intros queue acc Hq;
    destruct queue as [|[[[alo ahi] blo] bhi] queue]; cbn [difflib.matching_loop].
  - intros [= <-]. lia.
  - discriminate.
  - intros [= <-]. lia.
  - apply Forall_cons in Hq as [[Ha Hb] Hq]. cbn in Ha, Hb.
    pose proof (find_longest_match_inside a b b2j alo ahi blo bhi Ha Hb) as Hin.
    destruct (difflib.find_longest_match a b b2j alo ahi blo bhi) as [[i j] k].
    unfold block_inside in Hin. cbn in Hin.
    unfold queue_a, queue_b. cbn [sum_list_with fst snd].
    destruct (k =? 0) eqn:Ek.
    { intros H. apply IH in H; [|done]. unfold queue_a, queue_b in H. lia. }
    intros H. apply IH in H.
    + rewrite !total_size_app in H.
      change (total_size [(i, j, k)]) with (k + 0) in H.
      unfold queue_a, queue_b in H.
      destruct ((alo <? i) && (blo <? j)), ((i + k <? ahi) && (j + k <? bhi));
        cbn [sum_list_with fst snd] in H; lia.
    + destruct ((alo <? i) && (blo <? j)) eqn:E1,
               ((i + k <? ahi) && (j + k <? bhi)) eqn:E2;
        repeat (apply Forall_cons; split); try done;
        unfold range_ok; cbn; lia.
Qed.

(** The work list empties within the passes allowed for. *)
Lemma matching_loop_terminates (fuel : nat) (queue : list (nat * nat * nat * nat))
    (acc : list difflib.Match) :
  Forall range_ok queue →
  queue_passes queue ≤ fuel →
  is_Some (difflib.matching_loop a b b2j fuel queue acc).
Proof.
  revert queue acc. induction fuel as [|fuel IH]; intros queue acc Hq Hfuel;
    destruct queue as [|[[[alo ahi] blo] bhi] queue]; cbn [difflib.matching_loop].
  - by eexists.
  - unfold queue_passes in Hfuel. cbn in Hfuel. lia.
  - by eexists.
  - apply Forall_cons in Hq as [[Ha Hb] Hq]. cbn in Ha, Hb.
    pose proof (find_longest_match_inside a b b2j alo ahi blo bhi Ha Hb) as Hin.
    destruct (difflib.find_longest_match a b b2j alo ahi blo bhi) as [[i j] k].
    unfold block_inside in Hin. cbn in Hin.
    unfold queue_passes in Hfuel. cbn [sum_list_with fst snd] in Hfuel.
    destruct (k =? 0) eqn:Ek.
    { apply IH; [done|]. unfold queue_passes. lia. }
    apply Nat.eqb_neq in Ek.
    apply IH.
    + destruct ((alo <? i) && (blo <? j)) eqn:E1,
               ((i + k <? ahi) && (j + k <? bhi)) eqn:E2;
        repeat (apply Forall_cons; split); try done;
        unfold range_ok; cbn; lia.
    + unfold queue_passes.
      destruct ((alo <? i) && (blo <? j)), ((i + k <? ahi) && (j + k <? bhi));
        cbn [sum_list_with fst snd]; lia.
Qed.

End matching_blocks.

(** Merging adjacent blocks keeps the total size. *)
Lemma collapse_total_size (blocks : list difflib.Match) (cur : difflib.Match)
    (non_adjacent : list difflib.Match) :
  total_size (difflib.collapse blocks cur non_adjacent)
  = total_size blocks + cur.2 + total_size non_adjacent.
Proof.
  revert cur non_adjacent.
  induction blocks as [|[[i2 j2] k2] blocks IH]; intros [[i1 j1] k1] non_adjacent;
    cbn [difflib.collapse snd].
  - destruct (k1 =? 0) eqn:E.
    + apply Nat.eqb_eq in E. unfold total_size. cbn. lia.
    + rewrite total_size_app. unfold total_size. cbn. unfold difflib.match_size. cbn. lia.
  - destruct (_ && _).
    + rewrite IH. unfold total_size. cbn. unfold difflib.match_size. cbn. lia.
    + rewrite IH. destruct (k1 =? 0) eqn:E.
      * apply Nat.eqb_eq in E. unfold total_size. cbn. unfold difflib.match_size. cbn. lia.
      * rewrite total_size_app. unfold total_size. cbn. unfold difflib.match_size. cbn. lia.
Qed.

Lemma total_size_Permutation (l1 l2 : list difflib.Match) :
  l1 ≡ₚ l2 → total_size l1 = total_size l2.
Proof. intros H. unfold total_size. by rewrite H. Qed.

(** The queue of [get_matching_blocks] always runs dry: the blocks it
    returns are those the work list found, sorted, merged and closed by
    the sentinel. *)
Lemma get_matching_blocks_terminates (a b : list ascii) :
  ∃ found,
    difflib.matching_loop a b (difflib.chain_b b) (difflib.enough_fuel a)
      [(0, length a, 0, length b)] [] = Some found ∧
    difflib.get_matching_blocks a b
    = difflib.collapse (merge_sort difflib.match_le found) (0, 0, 0) []
      ++ [(length a, length b, 0)].
Proof.
  destruct (matching_loop_terminates a b (difflib.chain_b b) (difflib.enough_fuel a)
              [(0, length a, 0, length b)] []) as [found Hfound].
  - repeat constructor; cbn; lia.
  - unfold queue_passes, difflib.enough_fuel. cbn. lia.
  - exists found. split; [done|]. unfold difflib.get_matching_blocks. by rewrite Hfound.
Qed.

(** The matched characters number at most the length of either text. *)
Lemma matches_bounded (a b : list ascii) :
  total_size (difflib.get_matching_blocks a b) ≤ length a ∧
  total_size (difflib.get_matching_blocks a b) ≤ length b.
Proof.
  destruct (get_matching_blocks_terminates a b) as (found & Hloop & ->).
  apply matching_loop_bound in Hloop; [|repeat constructor; cbn; lia].
  rewrite total_size_app, collapse_total_size.
  rewrite (total_size_Permutation _ _ (merge_sort_Permutation _ found)).
  unfold queue_a, queue_b, total_size in *. cbn in *. lia.
Qed.

(** [ratio] is a fraction between 0 and 1. *)
Lemma ratio_bounds (q v : string) :
  (0 <= difflib.ratio q v)%Q ∧ (difflib.ratio q v <= 1)%Q.
Proof.
  unfold difflib.ratio.
  pose proof (matches_bounded (String.list_ascii_of_string q)
                              (String.list_ascii_of_string v)) as [H1 H2].
  fold (total_size (difflib.get_matching_blocks (String.list_ascii_of_string q)
                      (String.list_ascii_of_string v))).
  set (m := total_size _) in *.
  set (la := length (String.list_ascii_of_string q)) in *.
  set (lb := length (String.list_ascii_of_string v)) in *.
  unfold difflib._calculate_ratio.
  destruct (la + lb) as [|n] eqn:E; [split; discriminate|].
  assert (Z.pos (Pos.of_nat (S n)) = Z.of_nat (S n)) as Hden by lia.
  unfold Qle. cbn [Qnum Qden]. rewrite Hden. lia.
Qed.

(** ** The matcher of [difflib] on two equal texts *)

Lemma chain_b_index_lookup (l : list ascii) (i : nat) (m : gmap ascii (list nat))
    (c : ascii) :
  default [] (difflib.chain_b_index l i m !! c)
  = default [] (m !! c) ++ occurrences c l i.
Proof.
  revert i m. induction l as [|x l IH]; intros i m; cbn [difflib.chain_b_index occurrences].
  - by rewrite app_nil_r.
  - rewrite IH. case_bool_decide as Hx.
    + subst x. rewrite lookup_insert_eq. cbn. by rewrite <- app_assoc.
    + by rewrite lookup_insert_ne.
Qed.

Lemma elem_of_occurrences (c : ascii) (l : list ascii) (i j : nat) :
  j ∈ occurrences c l i ↔ i ≤ j ∧ l !! (j - i) = Some c.
Proof.
  revert i. induction l as [|x l IH]; intros i; cbn [occurrences].
  - split; [intros []%elem_of_nil|]. intros [_ H]. by rewrite lookup_nil in H.
  - assert (j ∈ occurrences c l (S i) ↔ S i ≤ j ∧ (x :: l) !! (j - i) = Some c) as IH'.
    { rewrite IH. split; intros [H1 H2]; (split; [done|]).
      - replace (j - i) with (S (j - S i)) by lia. done.
      - replace (j - i) with (S (j - S i)) in H2 by lia. done. }
    case_bool_decide as Hx.
    + subst x. rewrite elem_of_cons, IH'. split.
      * intros [->|[H1 H2]]; [|split; [lia|done]].
        split; [lia|]. by rewrite Nat.sub_diag.
      * intros [H1 H2]. destruct (decide (j = i)) as [->|]; [by left|].
        right. split; [lia|done].
    + rewrite IH'. split; intros [H1 H2]; [split; [lia|done]|].
      destruct (decide (j = i)) as [->|]; [|split; [lia|done]].
      rewrite Nat.sub_diag in H2. cbn in H2. congruence.
Qed.

Lemma occurrences_sorted (c : ascii) (l : list ascii) (i : nat) :
  StronglySorted lt (occurrences c l i).
Proof.
  revert i. induction l as [|x l IH]; intros i; cbn [occurrences]; [constructor|].
  case_bool_decide; [|apply IH].
  apply StronglySorted_cons. split; [|apply IH].
  apply Forall_forall. intros j Hj. apply elem_of_occurrences in Hj. lia.
Qed.

Section self_match.
Variable s : list ascii.

(** An element either keeps all its positions in [b2j] or, being too
    popular, has none. *)
Lemma kept_positions_cases (c : ascii) :
  kept_positions s c = [] ∨ kept_positions s c = occurrences c s 0.
Proof.
  unfold kept_positions, difflib.chain_b.
  pose proof (chain_b_index_lookup s 0 ∅ c) as Hidx.
  rewrite lookup_empty in Hidx. cbn in Hidx.
  destruct (200 <=? length s); [|by right].
  rewrite map_lookup_filter.
  destruct (difflib.chain_b_index s 0 ∅ !! c) as [js|]; cbn in *; [|by left].
  case_guard; cbn; [by right|by left].
Qed.

Lemma kept_position_holds (c : ascii) (j : nat) :
  j ∈ kept_positions s c → s !! j = Some c.
Proof.
  destruct (kept_positions_cases c) as [->| ->].
  - intros H. by apply elem_of_nil in H.
  - intros [_ H]%elem_of_occurrences. by rewrite Nat.sub_0_r in H.
Qed.

Lemma kept_position_shared (c : ascii) (i j : nat) :
  j ∈ kept_positions s c → s !! i = Some c → i ∈ kept_positions s c.
Proof.
  destruct (kept_positions_cases c) as [->| ->].
  - intros H. by apply elem_of_nil in H.
  - intros _ Hi. apply elem_of_occurrences. split; [lia|]. by rewrite Nat.sub_0_r.
Qed.

Lemma kept_positions_sorted (c : ascii) : StronglySorted lt (kept_positions s c).
Proof.
  destruct (kept_positions_cases c) as [->| ->]; [constructor|apply occurrences_sorted].
Qed.

Lemma run_length_unfold (i j : nat) (c : ascii) :
  s !! i = Some c → j ∈ kept_positions s c →
  run_length s i j = S (match j with
                        | O => 0
                        | S j' => run_above s i j'
                        end).
Proof.
  intros Hi Hj. destruct i as [|i']; cbn [run_length run_above]; rewrite Hi,
    (bool_decide_eq_true_2 _ Hj); by destruct j.
Qed.

Lemma run_length_zero (i j : nat) (c : ascii) :
  s !! i = Some c → j ∉ kept_positions s c → run_length s i j = 0.
Proof.
  intros Hi Hj. destruct i; cbn [run_length]; by rewrite Hi, (bool_decide_eq_false_2 _ Hj).
Qed.

Lemma run_length_outside (i j : nat) : s !! i = None → run_length s i j = 0.
Proof. intros Hi. destruct i; cbn [run_length]; by rewrite Hi. Qed.

(** Matching a text against itself is symmetric in rows and columns. *)
Lemma run_length_sym (i j : nat) : run_length s i j = run_length s j i.
Proof.
  revert j. induction i as [i IH] using lt_wf_ind. intros j.
  destruct (s !! i) as [c|] eqn:Hi.
  - destruct (decide (j ∈ kept_positions s c)) as [Hj|Hj].
    + pose proof (kept_position_holds _ _ Hj) as Hsj.
      pose proof (kept_position_shared _ i _ Hj Hi) as Hi'.
      rewrite (run_length_unfold i j c Hi Hj), (run_length_unfold j i c Hsj Hi').
      f_equal. destruct i as [|i'], j as [|j']; cbn [run_above]; try done.
      apply IH. lia.
    + rewrite (run_length_zero i j c Hi Hj).
      destruct (s !! j) as [c'|] eqn:Hsj; [|by rewrite run_length_outside].
      destruct (decide (i ∈ kept_positions s c')) as [Hi'|Hi'];
        [|by rewrite (run_length_zero j i c' Hsj Hi')].
      pose proof (kept_position_holds _ _ Hi') as Hi''.
      assert (c' = c) as -> by congruence.
      destruct Hj. eapply kept_position_shared; eauto.
  - rewrite (run_length_outside i j Hi).
    destruct (s !! j) as [c'|] eqn:Hsj; [|by rewrite run_length_outside].
    destruct (decide (i ∈ kept_positions s c')) as [Hi'|Hi'];
      [|by rewrite (run_length_zero j i c' Hsj Hi')].
    pose proof (kept_position_holds _ _ Hi'). congruence.
Qed.

(** No run ending in row [i] is longer than the one on the diagonal. *)
Lemma run_length_diag (i j : nat) : run_length s i j ≤ run_length s i i.
Proof.
  revert j. induction i as [|i' IH]; intros j.
  - destruct (s !! 0) as [c|] eqn:Hi; [|by rewrite !run_length_outside].
    destruct (decide (j ∈ kept_positions s c)) as [Hj|Hj];
      [|rewrite (run_length_zero 0 j c Hi Hj); lia].
    pose proof (kept_position_shared _ 0 _ Hj Hi) as Hi'.
    rewrite (run_length_unfold 0 j c Hi Hj), (run_length_unfold 0 0 c Hi Hi').
    destruct j; cbn [run_above]; lia.
  - destruct (s !! S i') as [c|] eqn:Hi; [|by rewrite !run_length_outside].
    destruct (decide (j ∈ kept_positions s c)) as [Hj|Hj];
      [|rewrite (run_length_zero (S i') j c Hi Hj); lia].
    pose proof (kept_position_shared _ (S i') _ Hj Hi) as Hi'.
    rewrite (run_length_unfold (S i') j c Hi Hj), (run_length_unfold (S i') (S i') c Hi Hi').
    destruct j as [|j']; cbn [run_above]; [lia|].
    specialize (IH j'). lia.
Qed.

(** One row of the search: the new map holds the run lengths of row [i],
    and the best block stays on the diagonal. *)
Lemma scan_row_diag (i : nat) (c : ascii) (rest : list nat)
    (j2len newj2len : gmap nat nat) (best : difflib.Match) :
  s !! i = Some c →
  StronglySorted lt rest →
  (∀ j, j ∈ rest → j ∈ kept_positions s c) →
  (∀ j, default 0 (j2len !! j) = run_above s i j) →
  (∀ j, j ∉ rest → default 0 (newj2len !! j) = run_length s i j) →
  best.1.1 = best.1.2 →
  (∀ i' j, i' < i → run_length s i' j ≤ best.2) →
  (i ∈ rest ∨ run_length s i i ≤ best.2) →
  let res := difflib.scan_row 0 (length s) i rest j2len newj2len best in
  (∀ j, default 0 (res.1 !! j) = run_length s i j) ∧
  res.2.1.1 = res.2.1.2 ∧
  (∀ i' j, i' < S i → run_length s i' j ≤ res.2.2).
Proof.
  intros Hi Hsorted Hrest Hold. cbv zeta. revert newj2len best Hsorted Hrest.
  induction rest as [|j0 rest IH]; intros newj2len best Hsorted Hrest Hnew Hdiag Hrows Hrow;
    cbn [difflib.scan_row].
  - cbn [fst snd]. split; [|split; [done|]].
    + intros j. apply Hnew, not_elem_of_nil.
    + intros i' j Hlt. destruct (decide (i' = i)) as [->|]; [|apply Hrows; lia].
      destruct Hrow as [Hrow|Hrow]; [by apply elem_of_nil in Hrow|].
      pose proof (run_length_diag i j). lia.
  - apply StronglySorted_cons in Hsorted as [Hhead Hsorted].
    assert (j0 ∈ kept_positions s c) as Hj0 by (apply Hrest; left).
    pose proof (lookup_lt_Some _ _ _ (kept_position_holds _ _ Hj0)) as Hlt.
    change (j0 <? 0) with false. cbv iota.
    destruct (length s <=? j0) eqn:E; [apply Nat.leb_le in E; lia|]. clear E.
    set (k := match j0 with O => 0 | S j' => default 0 (j2len !! j') end + 1).
    assert (k = run_length s i j0) as Hk.
    { rewrite (run_length_unfold i j0 c Hi Hj0). subst k.
      destruct j0 as [|j']; [lia|]. rewrite Hold. lia. }
    assert (best.2 < k → j0 = i) as Hupdate.
    { intros Hbig. destruct (Nat.lt_trichotomy j0 i) as [Hlo|[Heq|Hhi]]; [|done|].
      - specialize (Hrows j0 i Hlo). rewrite <- run_length_sym in Hrows. lia.
      - destruct Hrow as [Hrow|Hrow].
        + apply elem_of_cons in Hrow as [->|Hrow]; [lia|].
          rewrite Forall_forall in Hhead. specialize (Hhead _ Hrow). lia.
        + pose proof (run_length_diag i j0). lia. }
    apply IH; [done| | | | |].
    + intros j Hj. apply Hrest. by right.
    + intros j Hj. destruct (decide (j = j0)) as [->|Hne].
      * by rewrite lookup_insert_eq.
      * rewrite lookup_insert_ne by done. apply Hnew.
        intros [->|?]%elem_of_cons; done.
    + destruct (best.2 <? k) eqn:E; [|done].
      apply Nat.ltb_lt in E. rewrite (Hupdate E). done.
    + intros i' j Hlt'. specialize (Hrows i' j Hlt').
      destruct (best.2 <? k) eqn:E; [|done].
      apply Nat.ltb_lt in E. cbn. lia.
    + destruct (decide (i ∈ rest)) as [?|Hnot]; [by left|right].
      assert (run_length s i i ≤ best.2 ∨ j0 = i) as [Hle| ->].
      { destruct Hrow as [Hrow|Hrow]; [|by left].
        apply elem_of_cons in Hrow as [->|?]; [by right|done]. }
      * destruct (best.2 <? k) eqn:E; [|done]. apply Nat.ltb_lt in E. cbn. lia.
      * destruct (best.2 <? k) eqn:E; cbn; [lia|]. apply Nat.ltb_ge in E. lia.
Qed.

(** All rows: the block left by the search starts at the same position in
    both copies. *)
Lemma scan_rows_diag (m i : nat) (j2len : gmap nat nat) (best : difflib.Match) :
  i + m = length s →
  (∀ j, default 0 (j2len !! j) = run_above s i j) →
  best.1.1 = best.1.2 →
  (∀ i' j, i' < i → run_length s i' j ≤ best.2) →
  let res := difflib.scan_rows s (difflib.chain_b s) 0 (length s) (seq i m) j2len best in
  res.1.1 = res.1.2.
Proof.
  cbv zeta. revert i j2len best.
  induction m as [|m IH]; intros i j2len best Hlen Hold Hdiag Hrows;
    cbn [seq difflib.scan_rows]; [done|].
  destruct (lookup_lt_is_Some_2 s i ltac:(lia)) as [c Hc]. rewrite Hc.
  fold (kept_positions s c).
  pose proof (scan_row_diag i c (kept_positions s c) j2len ∅ best Hc
                (kept_positions_sorted c) (λ _ H, H) Hold) as Hrow.
  destruct (difflib.scan_row 0 (length s) i (kept_positions s c) j2len ∅ best)
    as [newj2len best'].
  destruct Hrow as (Hnew & Hdiag' & Hrows'); [|done|done| |].
  - intros j Hj. rewrite lookup_empty. cbn. by rewrite (run_length_zero i j c Hc Hj).
  - destruct (kept_positions_cases c) as [Hnone|Hall].
    + right. rewrite (run_length_zero i i c Hc); [lia|].
      rewrite Hnone. apply not_elem_of_nil.
    + left. rewrite Hall. apply elem_of_occurrences. split; [lia|].
      by rewrite Nat.sub_0_r.
  - apply IH; [lia|exact Hnew|exact Hdiag'|exact Hrows'].
Qed.

Lemma same_at_diag (i : nat) : i < length s → difflib.same_at s s i i = true.
Proof.
  intros Hlt. unfold difflib.same_at.
  destruct (lookup_lt_is_Some_2 s i Hlt) as [c ->]. by apply bool_decide_eq_true.
Qed.

Lemma extend_left_diag (d k : nat) :
  d ≤ length s → difflib.extend_left s s 0 0 d d k = (0, 0, k + d).
Proof.
  revert k. induction d as [|d IH]; intros k Hd; cbn [difflib.extend_left].
  - f_equal. lia.
  - change (0 <? S d) with true. rewrite same_at_diag by lia. cbn [andb].
    rewrite IH by lia. f_equal. lia.
Qed.

Lemma extend_right_diag (room k : nat) :
  k + room = length s →
  difflib.extend_right s s (length s) (length s) room 0 0 k = (0, 0, length s).
Proof.
  revert k. induction room as [|room IH]; intros k Hk; cbn [difflib.extend_right].
  - f_equal. lia.
  - cbn [Nat.add]. destruct (k <? length s) eqn:E; [|apply Nat.ltb_ge in E; lia].
    rewrite same_at_diag by lia. cbn [andb]. apply IH. lia.
Qed.

(** The longest match of a text with itself is the whole text. *)
Lemma find_longest_match_self :
  difflib.find_longest_match s s (difflib.chain_b s) 0 (length s) 0 (length s)
  = (0, 0, length s).
Proof.
  unfold difflib.find_longest_match. rewrite Nat.sub_0_r.
  pose proof (scan_rows_diag (length s) 0 ∅ (0, 0, 0) eq_refl) as Hdiag.
  pose proof (scan_rows_inside s (difflib.chain_b s) 0 (length s) 0 (length s)
                (le_0_n _) (le_0_n _) (length s) 0 ∅ (0, 0, 0)) as Hin.
  destruct (difflib.scan_rows _ _ _ _ _ _ _) as [[besti bestj] bestsize].
  cbn in Hdiag. rewrite <- Hdiag.
  - unfold block_inside in Hin. cbn in Hin.
    destruct Hin as (_ & Hin & _); [lia|lia| | |].
    + intros j v. by rewrite lookup_empty.
    + unfold block_inside. cbn. lia.
    + rewrite extend_left_diag by lia. apply extend_right_diag. lia.
  - intros j. by rewrite lookup_empty.
  - done.
  - intros i' j Hlt. lia.
Qed.

End self_match.

Lemma matching_loop_empty_queue (a b : list ascii) (b2j : gmap ascii (list nat))
    (fuel : nat) (acc : list difflib.Match) :
  difflib.matching_loop a b b2j fuel [] acc = Some acc.
Proof. by destruct fuel. Qed.

(** A text compared with itself scores one. *)
Lemma ratio_self (v : string) : (difflib.ratio v v == 1)%Q.
Proof.
  unfold difflib.ratio. set (s := String.list_ascii_of_string v).
  fold (total_size (difflib.get_matching_blocks s s)).
  assert (total_size (difflib.get_matching_blocks s s) = length s) as ->.
  { destruct (get_matching_blocks_terminates s s) as (found & Hloop & ->).
    rewrite total_size_app, collapse_total_size.
    rewrite (total_size_Permutation _ _ (merge_sort_Permutation _ found)).
    unfold difflib.enough_fuel in Hloop.
    replace (2 * length s + 1) with (S (2 * length s)) in Hloop by lia.
    cbn [difflib.matching_loop] in Hloop. rewrite find_longest_match_self in Hloop.
    destruct (length s) as [|n] eqn:En.
    - cbn [Nat.eqb] in Hloop. rewrite matching_loop_empty_queue in Hloop.
      injection Hloop as <-. reflexivity.
    - cbn [Nat.eqb] in Hloop. rewrite !Nat.ltb_irrefl in Hloop. cbn [andb] in Hloop.
      rewrite matching_loop_empty_queue in Hloop.
      injection Hloop as <-. unfold total_size. cbn. lia. }
  unfold difflib._calculate_ratio.
  destruct (length s + length s) as [|n] eqn:E; [reflexivity|].
  assert (Z.pos (Pos.of_nat (S n)) = Z.of_nat (S n)) as Hden by lia.
  unfold Qeq. cbn [Qnum Qden]. rewrite Hden. lia.
Qed.

(** ** The fuzzy tier *)

Lemma Qgtb_true (x y : Q) : Qgtb x y = true ↔ (y < x)%Q.
Proof.
  unfold Qgtb. rewrite negb_true_iff. split.
  - intros H. apply Qnot_le_lt. intros Hle. apply Qle_bool_iff in Hle. congruence.
  - intros H. destruct (Qle_bool x y) eqn:E; [|done].
    apply Qle_bool_iff in E. by apply Qlt_not_le in H.
Qed.

Lemma Qgtb_false (x y : Q) : Qgtb x y = false ↔ (x <= y)%Q.
Proof.
  unfold Qgtb. rewrite negb_false_iff. apply Qle_bool_iff.
Qed.

(** The scan keeps the first of the highest scores above its start. *)
Lemma fold_pick_best (l : list (StaticQA * Q)) (best : Q * option StaticQA) :
  (fold_left pick_best l best = best ∧ Forall (λ p, (p.2 <= best.1)%Q) l) ∨
  (∃ l1 p l2,
     l = l1 ++ p :: l2 ∧
     fold_left pick_best l best = (p.2, Some p.1) ∧
     (best.1 < p.2)%Q ∧
     Forall (λ p', (p'.2 < p.2)%Q) l1 ∧
     Forall (λ p', (p'.2 <= p.2)%Q) l2).
Proof.
  revert best. induction l as [|p l IH]; intros best; cbn [fold_left].
  - left. split; [done|constructor].
  - unfold pick_best at 2 4. destruct (Qgtb p.2 best.1) eqn:E.
    + apply Qgtb_true in E. right.
      destruct (IH (p.2, Some p.1)) as [[Hres Hall]|(l1 & p0 & l2 & -> & Hres & Hlt & H1 & H2)].
      * exists [], p, l. cbn in Hall.
        split; [done|]. split; [done|]. split; [done|]. split; [constructor|done].
      * exists (p :: l1), p0, l2. cbn in Hlt.
        split; [done|]. split; [done|]. split; [by apply Qlt_trans with p.2|].
        split; [by constructor|done].
    + apply Qgtb_false in E.
      destruct (IH best) as [[Hres Hall]|(l1 & p0 & l2 & -> & Hres & Hlt & H1 & H2)].
      * left. split; [done|by constructor].
      * right. exists (p :: l1), p0, l2.
        split; [done|]. split; [done|]. split; [done|]. split; [|done].
        constructor; [|done]. by apply Qle_lt_trans with best.1.
Qed.

Lemma fuzzy_variants_fold (q_lower : string) (qa : StaticQA) (variants : list string)
    (best : Q * option StaticQA) :
  fuzzy_variants q_lower qa variants best
  = fold_left pick_best
      (map (λ var, (qa, difflib.ratio q_lower (PyStr.lower var))) variants) best.
Proof.
  revert best. induction variants as [|var variants IH]; intros best;
    cbn [fuzzy_variants map fold_left]; [done|]. apply IH.
Qed.

(** The two nested loops are one scan over the scores in table order. *)
Lemma fuzzy_scan_fold (table : list StaticQA) (language q_lower : string)
    (best : Q * option StaticQA) :
  fuzzy_scan table language q_lower best
  = fold_left pick_best (table ≫= scored language q_lower) best.
Proof.
  revert best. induction table as [|qa table IH]; intros best; [done|].
  cbn [fuzzy_scan]. rewrite bind_cons, fold_left_app.
  replace (fold_left pick_best (scored language q_lower qa) best)
    with (if negb (String.eqb (qa_language qa) language) then best
          else fuzzy_variants q_lower qa (all_variants qa) best).
  - destruct (negb _); apply IH.
  - unfold scored. destruct (String.eqb (qa_language qa) language); cbn [negb fold_left];
      [by rewrite fuzzy_variants_fold|done].
Qed.

Lemma elem_of_scored (language q_lower : string) (qa : StaticQA) (p : StaticQA * Q) :
  p ∈ scored language q_lower qa ↔
  qa_language qa = language ∧
  ∃ v, v ∈ all_variants qa ∧ p = (qa, difflib.ratio q_lower (PyStr.lower v)).
Proof.
  unfold scored. destruct (String.eqb (qa_language qa) language) eqn:E.
  - apply String.eqb_eq in E. rewrite list_elem_of_In, in_map_iff. split.
    + intros (v & <- & Hv). split; [done|]. exists v. by rewrite list_elem_of_In.
    + intros (_ & v & Hv & ->). exists v. by rewrite <- list_elem_of_In.
  - apply String.eqb_neq in E. split; [intros []%elem_of_nil|]. by intros [? _].
Qed.

(** A position in the concatenated scores lies in the scores of one
    entry of the table. *)
Lemma bind_split {A B} (f : A → list B) (table : list A) (l1 l2 : list B) (p : B) :
  table ≫= f = l1 ++ p :: l2 →
  ∃ pre e post a1 a2,
    table = pre ++ e :: post ∧ f e = a1 ++ p :: a2 ∧
    l1 = (pre ≫= f) ++ a1 ∧ l2 = a2 ++ (post ≫= f).
Proof.
  revert l1. induction table as [|x table IH]; intros l1.
  - intros H. by destruct l1.
  - rewrite bind_cons. intros H.
    apply app_eq_app in H as (k & [[H1 H2]|[H1 H2]]).
    + destruct k as [|y k].
      * rewrite app_nil_r in H1. cbn in H2. symmetry in H2.
        destruct (IH [] H2) as (pre & e & post & a1 & a2 & -> & Hf & Hl1 & ->).
        exists (x :: pre), e, post, a1, a2. rewrite bind_cons, <- app_assoc, <- Hl1.
        rewrite app_nil_r. done.
      * cbn in H2. injection H2 as -> ->.
        exists [], x, table, l1, k. done.
    + subst l1. destruct (IH k H2) as (pre & e & post & a1 & a2 & -> & Hf & -> & ->).
      exists (x :: pre), e, post, a1, a2. rewrite bind_cons, <- app_assoc. done.
Qed.

(** The fuzzy tier succeeds exactly when some score passes 0.8, and then
    returns the earliest entry that reaches the highest score. *)
Lemma fuzzy_match_spec (table : list StaticQA) (language q_lower : string) :
  (is_Some (fuzzy_match table language q_lower) ↔
   exceeds_threshold table language q_lower) ∧
  (∀ e, fuzzy_match table language q_lower = Some e →
        earliest_best table language q_lower e).
Proof.
  unfold fuzzy_match. rewrite fuzzy_scan_fold.
  set (l := table ≫= scored language q_lower).
  assert (∀ e v, e ∈ table → qa_language e = language → v ∈ all_variants e →
                 (e, difflib.ratio q_lower (PyStr.lower v)) ∈ l) as Hin.
  { intros e v He Hl Hv. apply list_elem_of_bind. exists e. split; [|done].
    apply elem_of_scored. eauto. }
  destruct (fold_pick_best l (0%Q, None))
    as [[-> Hall]|(l1 & [e m] & l2 & Hl & -> & Hlt & H1 & H2)]; cbn [fst snd] in *.
  - split; [|discriminate]. split; [by intros [? ?]|].
    intros (e & v & He & Hlang & Hv & Hgt). exfalso.
    rewrite Forall_forall in Hall. specialize (Hall _ (Hin e v He Hlang Hv)).
    cbn in Hall. apply (Qlt_not_le _ _ Hgt).
    apply Qle_trans with 0%Q; [done|discriminate].
  - destruct (bind_split _ _ _ _ _ Hl) as (pre & e0 & post & a1 & a2 & Htable & Hf & -> & ->).
    assert ((e, m) ∈ scored language q_lower e0) as Hp.
    { rewrite Hf. apply elem_of_app. right. left. }
    apply elem_of_scored in Hp as (Hlang & v & Hv & [= -> ->]).
    rewrite Forall_forall in H1, H2.
    assert (∀ e' v', e' ∈ table → qa_language e' = language → v' ∈ all_variants e' →
              (difflib.ratio q_lower (PyStr.lower v')
               <= difflib.ratio q_lower (PyStr.lower v))%Q) as Hmax.
    { intros e' v' He' Hl' Hv'. specialize (Hin e' v' He' Hl' Hv').
      rewrite Hl in Hin.
      apply elem_of_app in Hin as [Hin|Hin].
      - apply Qlt_le_weak. apply (H1 _ Hin).
      - apply elem_of_cons in Hin as [[= _ ->]|Hin]; [apply Qle_refl|apply (H2 _ Hin)]. }
    destruct (Qgtb (difflib.ratio q_lower (PyStr.lower v)) (8 # 10)) eqn:E.
    + apply Qgtb_true in E. split.
      * split; [|by eexists]. intros _. exists e0, v. rewrite Htable.
        split; [|done]. apply elem_of_app. right. left.
      * intros e [= <-]. exists pre, post, v. repeat split; try done.
        intros e' v' He' Hl' Hv'. apply (H1 (e', _)).
        apply elem_of_app. left. apply list_elem_of_bind. exists e'. split; [|done].
        apply elem_of_scored. eauto.
    + apply Qgtb_false in E. split; [|discriminate].
      split; [by intros [? ?]|].
      intros (e & v' & He & Hl' & Hv' & Hgt). exfalso.
      apply (Qlt_not_le _ _ Hgt).
      apply Qle_trans with (difflib.ratio q_lower (PyStr.lower v)); [|done].
      by apply (Hmax e v').
Qed.

(** Past the two static tiers an answer comes from retrieval or is the
    no-match answer. *)
Lemma past_static_tiers_outcome (env : Env) (question language : string)
    (session_id family_id : option string) (w : World) :
  PyStr.any_in open_day_keywords (PyStr.lower (PyStr.strip question)) = false →
  exact_match (STATIC_QAS env) language (PyStr.lower (PyStr.strip question)) = None →
  fuzzy_match (STATIC_QAS env) language (PyStr.lower (PyStr.strip question)) = None →
  ∀ ans, (find_best_answer env question language session_id family_id w).1 = Ok ans →
         source ans = "rag" ∨ source ans = "none".
Proof.
  intros Hkw Hexact Hfuzzy.
  change (wp (find_best_answer env question language session_id family_id)
            (λ r _, ∀ ans, r = Ok ans → source ans = "rag" ∨ source ans = "none") w).
  wp_walk.
  all: intros ans [= <-] || intros ans [=]; cbn [source]; auto.
Qed.

(** C5 (amended): for a question that passes the first two tiers, the
    fuzzy tier succeeds exactly when some variant of an entry of the
    request language scores strictly above 0.8 against the lower-cased
    question; the entry it picks reaches the highest score and every entry
    before it in the table scores strictly lower.  The request then
    returns that entry's url, label and key with source "fuzzy"; the
    answer is the entry's answer when no session id is supplied and the
    enhancer's rewriting of it otherwise.  When the tier fails, no answer
    has source "fuzzy". *)
Theorem C5_fuzzy_tier_threshold_and_order (env : Env) (question language : string)
    (session_id family_id : option string) (w : World) :
  let q_lower := PyStr.lower (PyStr.strip question) in
  let out := find_best_answer env question language session_id family_id w in
  PyStr.any_in open_day_keywords q_lower = false →
  exact_match (STATIC_QAS env) language q_lower = None →
  (is_Some (fuzzy_match (STATIC_QAS env) language q_lower) ↔
   exceeds_threshold (STATIC_QAS env) language q_lower) ∧
  (∀ e, fuzzy_match (STATIC_QAS env) language q_lower = Some e →
        earliest_best (STATIC_QAS env) language q_lower e ∧
        answered_from_entry env e "fuzzy" question session_id family_id out) ∧
  (fuzzy_match (STATIC_QAS env) language q_lower = None →
   ∀ ans, out.1 = Ok ans → source ans ≠ "fuzzy").
Proof.
  cbv zeta. intros Hkw Hexact.
  destruct (fuzzy_match_spec (STATIC_QAS env) language (PyStr.lower (PyStr.strip question)))
    as [Hiff Hbest].
  split; [exact Hiff|]. split.
  - intros e He. split; [by apply Hbest|]. by apply fuzzy_tier_outcome.
  - intros Hnone ans Hans.
    destruct (past_static_tiers_outcome env question language session_id family_id w
                Hkw Hexact Hnone ans Hans) as [-> | ->]; discriminate.
Qed.

Lemma C5_fuzzy_tier_threshold_and_order_witness :
  let out := find_best_answer offline_env "admision" "en" None None fresh_world in
  earliest_best STATIC_QA_LIST "en" "admision" qa_admissions ∧
  out.1 = Ok (entry_answer qa_admissions (qa_answer qa_admissions) "fuzzy").
Proof.
  cbv zeta.
  destruct (C5_fuzzy_tier_threshold_and_order offline_env "admision" "en" None None
              fresh_world) as (_ & Hbest & _).
  - vm_compute. reflexivity.
  - vm_compute. reflexivity.
  - apply (Hbest qa_admissions). vm_compute. reflexivity.
Defined.

(** C5 as stated fails when the request carries a session id: the fuzzy
    tier picks the entry, but the answer returned is the enhancer's text. *)
Lemma C5_counterexample_session_answer_is_enhanced :
  let out := find_best_answer offline_env "admision" "en" (Some "s1") None fresh_world in
  ∃ ans, out.1 = Ok ans ∧
         source ans = "fuzzy" ∧ matched_key ans = Some (qa_key qa_admissions) ∧
         answer ans = "Following on from what we discussed... Cheltenham College admissions information, entry process and who to contact. Would you like to book a personal tour?" ∧
         answer ans ≠ qa_answer qa_admissions.
Proof.
  vm_compute. eexists. repeat (split; [reflexivity|]). discriminate.
Qed.

(** ** The similarity score *)

(** C6 (amended): the score of any two texts lies between 0 and 1; a
    question whose stripped, lower-cased text equals the lower-cased form
    of a variant of an entry of the request language scores 1 against it
    and never reaches the fuzzy tier: the exact tier answers it, unless
    the question holds an open-day keyword, in which case the first tier
    does.  (Symmetry of the score is not claimed.) *)
Theorem C6_score_bounded_and_exact_tier_first (env : Env) (question language : string)
    (session_id family_id : option string) (w : World) (e : StaticQA) (v : string) :
  e ∈ STATIC_QAS env →
  qa_language e = language →
  v ∈ all_variants e →
  PyStr.lower (PyStr.strip question) = PyStr.lower v →
  let q_lower := PyStr.lower (PyStr.strip question) in
  let out := find_best_answer env question language session_id family_id w in
  (∀ q' v' : string, (0 <= difflib.ratio q' v')%Q ∧ (difflib.ratio q' v' <= 1)%Q) ∧
  (difflib.ratio q_lower (PyStr.lower v) == 1)%Q ∧
  (if PyStr.any_in open_day_keywords q_lower
   then out.2 = w ∧ ∃ ans, out.1 = Ok ans ∧ source ans = "open_days"
   else ∃ qa, exact_match (STATIC_QAS env) language q_lower = Some qa ∧
              answered_from_entry env qa "static" question session_id family_id out).
Proof.
  intros He Hlang Hv Hq. cbv zeta.
  split; [apply ratio_bounds|]. split; [rewrite Hq; apply ratio_self|].
  destruct (PyStr.any_in open_day_keywords (PyStr.lower (PyStr.strip question))) eqn:Hkw.
  - by apply open_days_tier_outcome.
  - destruct (exact_match_complete (STATIC_QAS env) language
                (PyStr.lower (PyStr.strip question)) e He Hlang) as [qa Hqa].
    { unfold exact_hit. apply bool_decide_eq_true. rewrite Hq.
      apply list_elem_of_In, in_map, list_elem_of_In, Hv. }
    exists qa. split; [exact Hqa|]. by apply static_tier_outcome.
Qed.

Lemma C6_score_bounded_and_exact_tier_first_witness :
  let out := find_best_answer offline_env " How to Apply " "en" None None fresh_world in
  (difflib.ratio "how to apply" "how to apply" == 1)%Q ∧
  out.1 = Ok (entry_answer qa_admissions (qa_answer qa_admissions) "static").
Proof.
  cbv zeta.
  destruct (C6_score_bounded_and_exact_tier_first offline_env " How to Apply " "en"
              None None fresh_world qa_admissions "how to apply")
    as (_ & Hone & Hout).
  - left.
  - reflexivity.
  - vm_compute. repeat constructor.
  - vm_compute. reflexivity.
  - split; [exact Hone|].
    change (PyStr.any_in open_day_keywords (PyStr.lower (PyStr.strip " How to Apply ")))
      with false in Hout.
    destruct Hout as (qa & Hqa & Hans).
    assert (qa = qa_admissions) as ->.
    { vm_compute in Hqa. injection Hqa as <-. reflexivity. }
    exact Hans.
Defined.

(** C6 as stated fails on symmetry: [difflib] scores "tide" against "diet"
    at 1/4 and "diet" against "tide" at 1/2.  It also fails for the
    variants that hold an open-day keyword: "visit" is a variant of the
    "open events" entry, and the answer comes from the first tier. *)
Lemma C6_counterexample_score_not_symmetric :
  (difflib.ratio "tide" "diet" == 1 # 4)%Q ∧
  (difflib.ratio "diet" "tide" == 1 # 2)%Q ∧
  ¬ (difflib.ratio "tide" "diet" == difflib.ratio "diet" "tide")%Q ∧
  "visit" ∈ all_variants qa_open_events ∧
  ∃ ans, (find_best_answer offline_env "visit" "en" None None fresh_world).1 = Ok ans ∧
         source ans = "open_days".
Proof.
  split; [vm_compute; reflexivity|]. split; [vm_compute; reflexivity|].
  split; [intros H; vm_compute in H; discriminate|].
  split; [vm_compute; repeat constructor|].
  vm_compute. eexists. split; reflexivity.
Qed.

(** ** The life of a tracker *)

Lemma replay_snoc (calls : list Call) (c : Call) (t : ConversationTracker) :
  replay (calls ++ [c]) t
  = add_interaction (call_now c) (replay calls t) (call_question c) (call_answer c)
                    (call_topic c).
Proof. unfold replay. by rewrite fold_left_app. Qed.

(** What holds of a new tracker and survives [add_interaction] holds after
    any calls. *)
Lemma replay_ind (P : list Call → ConversationTracker → Prop) (t : ConversationTracker) :
  P [] t →
  (∀ calls c t', P calls t' →
     P (calls ++ [c])
       (add_interaction (call_now c) t' (call_question c) (call_answer c) (call_topic c))) →
  ∀ calls, P calls (replay calls t).
Proof.
  intros Hnew Hstep calls. induction calls as [|c calls IH] using rev_ind; [exact Hnew|].
  rewrite replay_snoc. by apply Hstep.
Qed.

Lemma take_length (n : nat) (s : string) : String.length (PyStr.take n s) ≤ n.
Proof.
  revert s. induction n as [|n IH]; intros [|c s]; cbn; try lia.
  specialize (IH s). lia.
Qed.

(** X1: a tracker holds one interaction per call of [add_interaction], in
    call order, and keeps at most the first 200 characters of each
    answer. *)
Theorem X1_interactions_in_order_and_truncated (calls : list Call) (now : nat)
    (sid : string) (fid : option string) :
  let t := replay calls (new_tracker now sid fid) in
  interactions t = map stored calls ∧
  Forall (λ i, String.length (i_answer i) ≤ 200) (interactions t).
Proof.
  cbv zeta.
  assert (interactions (replay calls (new_tracker now sid fid)) = map stored calls) as ->.
  { apply (replay_ind (λ calls t, interactions t = map stored calls)); [reflexivity|].
    intros cs c t' IH. cbn [interactions add_interaction]. rewrite IH, map_app. reflexivity. }
  split; [reflexivity|].
  apply Forall_forall. intros i Hi. apply list_elem_of_fmap in Hi as (c & -> & _).
  apply take_length.
Qed.

Lemma set_add_elem (x : string) (s : list string) : x ∈ set_add x s.
Proof.
  unfold set_add. case_bool_decide; [done|]. apply elem_of_app. right. left.
Qed.

Lemma set_add_NoDup (x : string) (s : list string) : NoDup s → NoDup (set_add x s).
Proof.
  intros H. unfold set_add. case_bool_decide; [done|].
  apply NoDup_app. split; [done|]. split; [|apply NoDup_singleton].
  intros y Hy Hx. apply list_elem_of_singleton in Hx. by subst.
Qed.

(** X2: in a tracker that [add_interaction] built, the topic set holds no
    topic twice, [last_topic] is one of its members and is never the empty
    string, and [last_topic] is [None] only while the set is empty. *)
Theorem X2_last_topic_is_on_record (calls : list Call) (now : nat) (sid : string)
    (fid : option string) :
  let t := replay calls (new_tracker now sid fid) in
  topic_on_record t ∧ NoDup (topics_discussed t).
Proof.
  cbv zeta.
  apply (replay_ind (λ _ t, topic_on_record t ∧ NoDup (topics_discussed t))).
  - split; [reflexivity|apply NoDup_nil_2].
  - intros _ c t' [Hrec Hnd]. unfold topic_on_record in *.
    cbn [last_topic topics_discussed add_interaction].
    destruct (call_topic c) as [[|ch topic]|]; cbn [PyStr.truthy]; [done| |done].
    split; [|by apply set_add_NoDup].
    split; [discriminate|apply set_add_elem].
Qed.

Lemma handoff_step (now : nat) (self : ConversationTracker) (question answer : string)
    (topic : option string) :
  should_offer_human_handoff self = true →
  should_offer_human_handoff (add_interaction now self question answer topic) = true.
Proof.
  unfold should_offer_human_handoff.
  cbn [high_intent_signals concerns interactions emotional_state add_interaction].
  rewrite !orb_true_iff, !Nat.leb_le, !bool_decide_eq_true, length_app. cbn [length].
  intros [[[H|H]|H]|H].
  - left. left. left. destruct (PyStr.any_in high_intent_keywords _); lia.
  - left. left. right. destruct (PyStr.any_in concern_keywords _); [|done].
    rewrite length_app. lia.
  - left. right. lia.
  - right. by destruct (PyStr.any_in concern_keywords _).
Qed.

(** X3: once [should_offer_human_handoff] is true of a tracker it stays
    true, whatever interactions are added afterwards. *)
Theorem X3_handoff_stays_due (calls : list Call) (t : ConversationTracker) :
  should_offer_human_handoff t = true →
  should_offer_human_handoff (replay calls t) = true.
Proof.
  intros H.
  apply (replay_ind (λ _ t', should_offer_human_handoff t' = true)); [exact H|].
  intros _ c t' IH. by apply handoff_step.
Qed.

Lemma X3_handoff_stays_due_witness :
  let worried := add_interaction 1 (new_tracker 0 "s1" None)
                   "I am worried about boarding" "Our house staff look after every boarder."
                   (Some "boarding") in
  should_offer_human_handoff
    (replay [{| call_now := 2; call_question := "What are the fees?";
                call_answer := "See our fees page."; call_topic := Some "fees" |}]
            worried) = true.
Proof.
  cbv zeta.
  apply (X3_handoff_stays_due
           [{| call_now := 2; call_question := "What are the fees?";
               call_answer := "See our fees page."; call_topic := Some "fees" |}]).
  reflexivity.
Defined.

(** X4: in a tracker that [add_interaction] built, the emotional state is
    "concerned" exactly when a concern is on record.  One question with a
    concern keyword therefore makes [should_offer_human_handoff] true, and
    its test [len(concerns) >= 2] never decides the outcome. *)
Theorem X4_concerned_iff_concern_on_record (calls : list Call) (now : nat) (sid : string)
    (fid : option string) :
  let t := replay calls (new_tracker now sid fid) in
  (emotional_state t = concerned ↔ concerns t ≠ []) ∧
  should_offer_human_handoff t
  = (3 <=? high_intent_signals t) || (10 <=? length (interactions t))
    || bool_decide (concerns t ≠ []).
Proof.
  cbv zeta.
  assert (emotional_state (replay calls (new_tracker now sid fid)) = concerned
          ↔ concerns (replay calls (new_tracker now sid fid)) ≠ []) as Hiff.
  { apply (replay_ind (λ _ t, emotional_state t = concerned ↔ concerns t ≠ [])); [done|].
    intros _ c t' IH. cbn [emotional_state concerns add_interaction].
    destruct (PyStr.any_in concern_keywords _); [|exact IH].
    split; [|done]. intros _ H. by apply app_eq_nil in H as [_ ?]. }
  split; [exact Hiff|].
  unfold should_offer_human_handoff.
  set (t := replay calls (new_tracker now sid fid)) in *.
  rewrite (bool_decide_ext _ _ Hiff).
  destruct (3 <=? high_intent_signals t); [reflexivity|].
  destruct (10 <=? length (interactions t)); cbn [orb];
    [by rewrite orb_true_r|].
  rewrite orb_false_r.
  destruct (bool_decide (concerns t ≠ [])) eqn:E; [by rewrite orb_true_r|].
  rewrite orb_false_r. apply bool_decide_eq_false in E.
  destruct (concerns t) as [|x [|y l]]; cbn; try reflexivity.
  by destruct E.
Qed.

(** X5: the session duration of the summary is the seconds field of the
    time elapsed, not its total: whole days are left out, so that a session
    of [days] days, [s] seconds and [us] microseconds reports [s]. *)
Theorem X5_session_duration_leaves_out_days (self : ConversationTracker)
    (days s us : Z) :
  (0 ≤ days)%Z → (0 ≤ s < 86400)%Z → (0 ≤ us < 1000000)%Z →
  Summary.session_duration
    (get_conversation_summary
       (started_at self + Z.to_nat ((days * 86400 + s) * 1000000 + us)) self)
  = Z.to_nat s.
Proof.
  intros Hdays Hs Hus. cbn [get_conversation_summary Summary.session_duration].
  unfold timedelta_seconds. f_equal.
  replace (Z.of_nat (started_at self + Z.to_nat ((days * 86400 + s) * 1000000 + us))
           - Z.of_nat (started_at self))%Z
    with ((days * 86400 + s) * 1000000 + us)%Z by lia.
  rewrite Z.div_add_l by lia. rewrite (Z.div_small us) by lia.
  rewrite Z.add_0_r, Z.add_comm, Z.mod_add by lia.
  apply Z.mod_small. lia.
Qed.

Lemma X5_session_duration_leaves_out_days_witness :
  Summary.session_duration
    (get_conversation_summary
       (started_at (new_tracker 7 "s1" None)
        + Z.to_nat ((1 * 86400 + 5) * 1000000 + 0)) (new_tracker 7 "s1" None))
  = Z.to_nat 5.
Proof.
  apply (X5_session_duration_leaves_out_days (new_tracker 7 "s1" None) 1 5 0); lia.
Defined.

(** X6: the summary of a tracker that [add_interaction] built counts the
    calls made, reports high intent from the second question on that holds
    a high-intent keyword, and lists the first three questions that hold a
    concern keyword, oldest first. *)
Theorem X6_summary_reports_the_calls (calls : list Call) (now later : nat) (sid : string)
    (fid : option string) :
  let summary := get_conversation_summary later (replay calls (new_tracker now sid fid)) in
  let questions := map call_question calls in
  Summary.interaction_count summary = length calls ∧
  Summary.high_intent summary
  = (2 <=? length (filter (λ q, mentions high_intent_keywords q = true) questions)) ∧
  Summary.concerns summary
  = take 3 (filter (λ q, mentions concern_keywords q = true) questions).
Proof.
  cbv zeta. unfold get_conversation_summary. cbn [Summary.interaction_count
    Summary.high_intent Summary.concerns].
  assert (length (interactions (replay calls (new_tracker now sid fid))) = length calls
          ∧ high_intent_signals (replay calls (new_tracker now sid fid))
            = length (filter (λ q, mentions high_intent_keywords q = true)
                             (map call_question calls))
          ∧ concerns (replay calls (new_tracker now sid fid))
            = filter (λ q, mentions concern_keywords q = true) (map call_question calls))
    as (-> & -> & ->); [|done].
  apply (replay_ind (λ calls t,
    length (interactions t) = length calls
    ∧ high_intent_signals t
      = length (filter (λ q, mentions high_intent_keywords q = true)
                       (map call_question calls))
    ∧ concerns t = filter (λ q, mentions concern_keywords q = true)
                          (map call_question calls))); [done|].
  intros cs c t' (Hn & Hi & Hc).
  cbn [interactions high_intent_signals concerns add_interaction].
  rewrite map_app, !filter_app, !length_app, Hn, Hi, Hc. cbn [map length].
  split; [reflexivity|]. unfold mentions.
  split.
  - rewrite filter_cons, filter_nil.
    destruct (PyStr.any_in high_intent_keywords _) eqn:E.
    + rewrite decide_True by done. cbn. lia.
    + rewrite decide_False by done. cbn. lia.
  - rewrite filter_cons, filter_nil.
    destruct (PyStr.any_in concern_keywords _) eqn:E.
    + by rewrite decide_True by done.
    + rewrite decide_False by done. by rewrite app_nil_r.
Qed.

(** ** Substrings *)

Lemma append_assoc (x y z : string) : (x +:+ y) +:+ z = x +:+ (y +:+ z).
Proof.
  induction x as [|c x IH]; [reflexivity|].
  change (String c ((x +:+ y) +:+ z) = String c (x +:+ (y +:+ z))). by rewrite IH.
Qed.

Lemma append_nil_r (x : string) : x +:+ "" = x.
Proof.
  induction x as [|c x IH]; [reflexivity|].
  change (String c (x +:+ "") = String c x). by rewrite IH.
Qed.

Lemma prefix_intro (x y : string) : String.prefix x (x +:+ y) = true.
Proof.
  induction x as [|c x IH]; [by destruct y|].
  change (String.prefix (String c x) (String c (x +:+ y)) = true). simpl.
  destruct (Ascii.ascii_dec c c); [exact IH|done].
Qed.

Lemma prefix_elim (x hay : string) :
  String.prefix x hay = true → ∃ post, hay = x +:+ post.
Proof.
  revert hay. induction x as [|c x IH]; intros hay H; [by exists hay|].
  destruct hay as [|d hay]; [discriminate|]. simpl in H.
  destruct (Ascii.ascii_dec c d) as [->|]; [|discriminate].
  destruct (IH hay H) as [post ->]. by exists post.
Qed.

Lemma contains_prefix (x hay : string) :
  String.prefix x hay = true → PyStr.contains x hay = true.
Proof. intros H. destruct hay; cbn [PyStr.contains]; by rewrite H. Qed.

(** [needle in hay] holds exactly when [hay] is [needle] with some text
    before and after it. *)
Lemma contains_intro (pre x post : string) :
  PyStr.contains x (pre +:+ x +:+ post) = true.
Proof.
  induction pre as [|c pre IH].
  - change ("" +:+ x +:+ post) with (x +:+ post).
    apply contains_prefix, prefix_intro.
  - change (PyStr.contains x (String c (pre +:+ x +:+ post)) = true).
    cbn [PyStr.contains]. rewrite IH. apply orb_true_r.
Qed.

Lemma contains_elim (x hay : string) :
  PyStr.contains x hay = true → ∃ pre post, hay = pre +:+ x +:+ post.
Proof.
  induction hay as [|c hay IH]; cbn [PyStr.contains]; intros H.
  - rewrite orb_false_r in H. destruct (prefix_elim _ _ H) as [post ->]. by exists "", post.
  - apply orb_true_iff in H as [H|H].
    + destruct (prefix_elim _ _ H) as [post ->]. by exists "", post.
    + destruct (IH H) as (pre & post & ->). by exists (String c pre), post.
Qed.

Lemma contains_trans (x y z : string) :
  PyStr.contains x y = true → PyStr.contains y z = true → PyStr.contains x z = true.
Proof.
  intros (p1 & q1 & ->)%contains_elim (p2 & q2 & ->)%contains_elim.
  replace (p2 +:+ (p1 +:+ x +:+ q1) +:+ q2) with ((p2 +:+ p1) +:+ x +:+ (q1 +:+ q2)).
  - apply contains_intro.
  - by rewrite !append_assoc.
Qed.

Lemma join_holds_part (sep p : string) (parts : list string) :
  p ∈ parts → PyStr.contains p (PyStr.join sep parts) = true.
Proof.
  induction parts as [|x parts IH]; [by intros ?%elem_of_nil|].
  intros Hin. apply elem_of_cons in Hin as [Heq|Hin]; [subst x|].
  - destruct parts as [|y parts]; cbn [PyStr.join].
    + rewrite <- (append_nil_r p) at 2. apply (contains_intro "" p "").
    + apply (contains_intro "" p).
  - specialize (IH Hin). destruct parts as [|y parts]; [by apply elem_of_nil in Hin|].
    change (PyStr.join sep (x :: y :: parts))
      with (x +:+ sep +:+ PyStr.join sep (y :: parts)).
    apply contains_elim in IH as (pre & post & ->).
    replace (x +:+ sep +:+ pre +:+ p +:+ post) with ((x +:+ sep +:+ pre) +:+ p +:+ post).
    + apply contains_intro.
    + by rewrite !append_assoc.
Qed.

(** The printed set holds the printed form of each of its members. *)
Lemma str_of_set_holds_repr (t : string) (members : list string) :
  t ∈ members → PyStr.contains (PyRepr.repr t) (PyRepr.str_of_set members) = true.
Proof.
  intros Hin.
  assert (PyStr.contains (PyRepr.repr t) (PyStr.join ", " (map PyRepr.repr members)) = true)
    as (pre & post & Hjoin)%contains_elim.
  { apply join_holds_part, list_elem_of_fmap. eauto. }
  unfold PyRepr.str_of_set. destruct members as [|m members]; [by apply elem_of_nil in Hin|].
  rewrite Hjoin.
  replace ("{" +:+ (pre +:+ PyRepr.repr t +:+ post) +:+ "}")
    with (("{" +:+ pre) +:+ PyRepr.repr t +:+ (post +:+ "}")).
  - apply contains_intro.
  - by rewrite !append_assoc.
Qed.

(** ** The acknowledgment that opens an enhanced answer *)

Lemma escape_plain (s : string) :
  forallb prints_plainly (String.list_ascii_of_string s) = true →
  PyRepr.escape PyRepr.squote s = s ∧ PyRepr.has_char PyRepr.squote s = false.
Proof.
  induction s as [|c s IH]; [done|].
  cbn [String.list_ascii_of_string forallb]. intros [Hc Hs]%andb_true_iff.
  destruct (IH Hs) as [IH1 IH2]. unfold prints_plainly in Hc.
  apply andb_true_iff in Hc as [[Hp Hb]%andb_true_iff Hq].
  apply negb_true_iff in Hp, Hb, Hq.
  cbn [PyRepr.escape PyRepr.has_char]. rewrite IH1, IH2.
  split.
  - unfold PyRepr.escape_char. rewrite Hq, Hb. cbn [orb].
    assert ((PyStr.code c =? 9) = false) as ->.
    { apply Nat.eqb_neq. intros E. rewrite E in Hp. discriminate. }
    assert ((PyStr.code c =? 10) = false) as ->.
    { apply Nat.eqb_neq. intros E. rewrite E in Hp. discriminate. }
    assert ((PyStr.code c =? 13) = false) as ->.
    { apply Nat.eqb_neq. intros E. rewrite E in Hp. discriminate. }
    rewrite Hp. reflexivity.
  - rewrite orb_false_r. apply bool_decide_eq_false. apply bool_decide_eq_false in Hq.
    congruence.
Qed.

(** A text of characters that print plainly is printed between single
    quotes, unchanged. *)
Lemma plain_text_survives_repr (s : string) :
  forallb prints_plainly (String.list_ascii_of_string s) = true →
  survives_repr s = true.
Proof.
  intros [He Hq]%escape_plain. unfold survives_repr, PyRepr.repr.
  rewrite Hq. cbn [andb]. rewrite He.
  apply (contains_intro (String PyRepr.squote "") s (String PyRepr.squote "")).
Qed.

(** Right after an interaction was recorded under a topic that survives
    [repr], the membership test of [_add_acknowledgment] succeeds. *)
Lemma acknowledgment_after_topic (now : nat) (self : ConversationTracker)
    (question answer topic : string) :
  topic ≠ EmptyString → survives_repr topic = true →
  ResponseEnhancer._add_acknowledgment
    (add_interaction now self question answer (Some topic))
  = Ok ResponseEnhancer.following_on.
Proof.
  intros Hne Hplain. unfold ResponseEnhancer._add_acknowledgment.
  cbn [interactions last_topic topics_discussed add_interaction].
  rewrite length_app, Nat.add_1_r. cbn [Nat.eqb].
  destruct topic as [|c topic]; [done|]. cbn [PyStr.truthy PyRepr.in_str].
  erewrite contains_trans; [reflexivity|exact Hplain|].
  apply str_of_set_holds_repr, set_add_elem.
Qed.

Lemma fuzzy_match_sound (table : list StaticQA) (language q_lower : string) (e : StaticQA) :
  fuzzy_match table language q_lower = Some e → e ∈ table.
Proof.
  intros H. destruct (fuzzy_match_spec table language q_lower) as [_ Hbest].
  destruct (Hbest e H) as (pre & post & v & -> & _).
  apply elem_of_app. right. left.
Qed.

Lemma plain_keys_elem (table : list StaticQA) (qa : StaticQA) :
  plain_keys table = true → qa ∈ table →
  qa_key qa ≠ EmptyString ∧ survives_repr (qa_key qa) = true.
Proof.
  unfold plain_keys. rewrite forallb_forall. intros H Hin.
  specialize (H qa (proj1 (list_elem_of_In _ _) Hin)).
  apply andb_true_iff in H as [Hne Hs]. split; [|exact Hs].
  apply negb_true_iff, String.eqb_neq in Hne. exact Hne.
Qed.

(** X7: when every key of the table is non-empty and survives [repr],
    each call of the enhancer that [find_best_answer] makes draws the
    acknowledgment "Following on from what we discussed...", on the first
    question of a session as on any later one: the interaction recorded
    just before has put the topic into the set the test looks it up in.
    The greeting, the empathetic phrase and the rotating acknowledgments
    are never drawn. *)
Theorem X7_enhanced_answers_follow_on (env : Env) (question language : string)
    (session_id family_id : option string) (w : World) :
  plain_keys (STATIC_QAS env) = true →
  let out := find_best_answer env question language session_id family_id w in
  ∃ evs, extends_by w out.2 evs ∧
    ∀ base ctx fam, EvEnhance base ctx fam ∈ evs →
      ResponseEnhancer._add_acknowledgment ctx = Ok ResponseEnhancer.following_on.
Proof.
  intros Hkeys. cbv zeta.
  change (wp (find_best_answer env question language session_id family_id)
            (λ _ w', ∃ evs, extends_by w w' evs ∧
               ∀ base ctx fam, EvEnhance base ctx fam ∈ evs →
                 ResponseEnhancer._add_acknowledgment ctx
                 = Ok ResponseEnhancer.following_on) w).
  wp_walk.
  all: unfold extends_by; cbn [conversation_memory trace].
  all: try (exists []; split; [by rewrite app_nil_r|]; by intros ??? []%elem_of_nil).
  all: try (eexists [_]; split; [reflexivity|];
            intros ??? [?|[]%elem_of_nil]%elem_of_cons; discriminate).
  all: rewrite <- app_assoc; eexists; split; [reflexivity|].
  all: intros base ctx fam Hin;
       apply elem_of_cons in Hin as [?|Hin]; [discriminate|];
       apply elem_of_cons in Hin as [Heq|[]%elem_of_nil]; injection Heq as -> -> ->.
  all: try (apply acknowledgment_after_topic; [discriminate|reflexivity]).
  all: apply acknowledgment_after_topic;
       eapply plain_keys_elem; try exact Hkeys;
       first [ by eapply exact_match_sound | by eapply fuzzy_match_sound ].
Qed.

Lemma X7_enhanced_answers_follow_on_witness :
  let out := find_best_answer offline_env "admissions" "en" (Some "s1") None fresh_world in
  ∃ evs, extends_by fresh_world out.2 evs ∧
    ∀ base ctx fam, EvEnhance base ctx fam ∈ evs →
      ResponseEnhancer._add_acknowledgment ctx = Ok ResponseEnhancer.following_on.
Proof.
  apply (X7_enhanced_answers_follow_on offline_env "admissions" "en" (Some "s1") None
           fresh_world).
  vm_compute. reflexivity.
Defined.

(** X8: when no child name is known, [enhance_for_voice] keeps the base
    answer word for word: what it returns is the base answer with text
    before it and after it. *)
Theorem X8_enhancer_keeps_the_answer (base_answer : string) (context : ConversationTracker)
    (family_ctx : option FamilyContext) (text : string) :
  known_child_name family_ctx = None →
  ResponseEnhancer.enhance_for_voice base_answer context family_ctx = Ok text →
  ∃ before after, text = before +:+ base_answer +:+ after.
Proof.
  intros Hname. unfold ResponseEnhancer.enhance_for_voice. rewrite Hname.
  destruct (ResponseEnhancer._add_acknowledgment context) as [ack|]; [|discriminate].
  intros [= <-].
  set (follow_up := ResponseEnhancer._get_follow_up_question context family_ctx).
  set (offer := should_offer_human_handoff context && _).
  set (reassure := bool_decide _).
  exists ((if reassure
           then ResponseEnhancer.rotate ResponseEnhancer.reassurance_phrases
                  (length (concerns context)) +:+ " "
           else "") +:+ ack +:+ " "),
         (match follow_up with "" => "" | _ => " " +:+ follow_up end
          +:+ (if offer then ResponseEnhancer.handoff_offer else "")).
  destruct reassure, follow_up, offer;
    rewrite ?append_assoc, ?append_nil_r; cbn [String.append]; reflexivity.
Qed.

Lemma X8_enhancer_keeps_the_answer_witness :
  let context :=
    add_interaction 1 (new_tracker 0 "s1" None) "What are the fees?"
                    "Our fees are published each year." (Some "fees") in
  ∃ before after,
    "Following on from what we discussed... Our fees are published each year. Would you like to know about our payment plans?"
    = before +:+ "Our fees are published each year." +:+ after.
Proof.
  apply (X8_enhancer_keeps_the_answer "Our fees are published each year."
           (add_interaction 1 (new_tracker 0 "s1" None) "What are the fees?"
                            "Our fees are published each year." (Some "fees")) None).
  - reflexivity.
  - vm_compute. reflexivity.
Defined.

(** ** Links of the retrieval tier *)

(** X9: every topic that [detect_topic_from_question] can name has its
    page in [get_better_url_and_label], so a detected topic decides the
    link and the chunk's own URL is not used; without a topic the link is
    the chunk's URL, or the home page when the chunk has none.  The URL
    returned is never empty. *)
Theorem X9_detected_topic_decides_the_link (question : string) (meta_url : option string) :
  let link := get_better_url_and_label (detect_topic_from_question question) meta_url in
  match detect_topic_from_question question with
  | Some topic => topic_urls topic = Some link
  | None => link = (PyStr.or_else meta_url "https://www.cheltenhamcollege.org/",
                    "Visit website")
  end ∧ link.1 ≠ EmptyString.
Proof.
  cbv zeta. unfold detect_topic_from_question.
  repeat match goal with
         | |- context [PyStr.any_in ?kws ?s] => destruct (PyStr.any_in kws s)
         end.
  all: try (split; [reflexivity|discriminate]).
  split; [reflexivity|].
  destruct meta_url as [[|c u]|]; discriminate.
Qed.

(** ** The registry across a request *)

(** X10: a request leaves the registry entries of all other sessions as
    they were: whatever [find_best_answer] stores, it stores under the
    session id it was given. *)
Theorem X10_other_sessions_untouched (env : Env) (question language : string)
    (session_id family_id : option string) (w : World) (other : string) :
  session_id ≠ Some other →
  let out := find_best_answer env question language session_id family_id w in
  conversation_memory out.2 !! other = conversation_memory w !! other.
Proof.
  intros Hother. cbv zeta.
  change (wp (find_best_answer env question language session_id family_id)
            (λ _ w', conversation_memory w' !! other = conversation_memory w !! other) w).
  destruct session_id as [[|c sid]|].
  all: wp_walk; cbn [conversation_memory]; try reflexivity.
  all: rewrite ?lookup_insert_ne by congruence; reflexivity.
Qed.

Lemma X10_other_sessions_untouched_witness :
  let out := find_best_answer offline_env "How do I apply?" "en" (Some "s2") None
                              one_question_world in
  conversation_memory out.2 !! "s1" = conversation_memory one_question_world !! "s1".
Proof.
  apply (X10_other_sessions_untouched offline_env "How do I apply?" "en" (Some "s2") None
           one_question_world "s1").
  discriminate.
Defined.

Lemma continues_refl (t : ConversationTracker) : continues t t.
Proof. unfold continues. repeat split; reflexivity. Qed.

Lemma continues_add_interaction (now : nat) (t t' : ConversationTracker)
    (question answer : string) (topic : option string) :
  continues t t' → continues t (add_interaction now t' question answer topic).
Proof.
  intros (Hs & Hf & Hst & Hi & Hc & Hh). unfold continues.
  cbn [session_id family_id started_at interactions concerns high_intent_signals
       add_interaction].
  repeat split; try done.
  - by apply prefix_app_r.
  - destruct (PyStr.any_in concern_keywords _); [by apply prefix_app_r|done].
  - destruct (PyStr.any_in high_intent_keywords _); lia.
Qed.

(** X11: a request never drops or replaces a registered tracker: every
    session known before is known after, with the same session id, family
    id and start time, with its earlier interactions and concerns still in
    place in front of any new one, and with no fewer high-intent signals;
    the family id given with a later request does not change the one the
    tracker was created with. *)
Theorem X11_registered_trackers_only_grow (env : Env) (question language : string)
    (session_id family_id : option string) (w : World) (sid : string)
    (t : ConversationTracker) :
  conversation_memory w !! sid = Some t →
  let out := find_best_answer env question language session_id family_id w in
  ∃ t', conversation_memory out.2 !! sid = Some t' ∧ continues t t'.
Proof.
  cbv zeta.
  change (wp (find_best_answer env question language session_id family_id)
            (λ _ w', conversation_memory w !! sid = Some t →
                     ∃ t', conversation_memory w' !! sid = Some t' ∧ continues t t') w).
  destruct session_id as [[|c s]|].
  all: wp_walk; cbn [conversation_memory]; intros Hknown.
  all: try (exists t; split; [exact Hknown|apply continues_refl]).
  all: destruct (decide (String c s = sid)) as [<-|Hne].
  all: try (rewrite ?lookup_insert_ne by done;
            exists t; split; [exact Hknown|apply continues_refl]).
  all: rewrite ?lookup_insert_eq; eexists; (split; [reflexivity|]).
  all: try congruence.
  all: match goal with
       | H : conversation_memory _ !! _ = Some ?c
         |- continues _ (add_interaction _ ?c _ _ _) =>
           rewrite Hknown in H; injection H as ->
       end.
  all: repeat apply continues_add_interaction; apply continues_refl.
Qed.

Lemma X11_registered_trackers_only_grow_witness :
  let out := find_best_answer offline_env "How do I apply?" "en" (Some "s1") (Some "f9")
                              one_question_world in
  ∃ t', conversation_memory out.2 !! "s1" = Some t' ∧
        continues (add_interaction 1 (new_tracker 0 "s1" None) "admissions"
                     "Cheltenham College admissions information, entry process and who to contact."
                     (Some "admissions")) t'.
Proof.
  apply (X11_registered_trackers_only_grow offline_env "How do I apply?" "en" (Some "s1")
           (Some "f9") one_question_world "s1").
  vm_compute. reflexivity.
Defined.

(** ** The open-days tier *)

Lemma ltb_compare (x y : string) : String.ltb x y = true ↔ String.compare x y = Lt.
Proof. unfold String.ltb. destruct (String.compare x y); naive_solver. Qed.

Lemma ascii_compare_lt (x y : ascii) :
  Ascii.compare x y = Lt ↔ (N_of_ascii x < N_of_ascii y)%N.
Proof. unfold Ascii.compare. apply N.compare_lt_iff. Qed.

Lemma compare_lt_trans (x y z : string) :
  String.compare x y = Lt → String.compare y z = Lt → String.compare x z = Lt.
Proof.
  revert y z. induction x as [|a x IH]; intros [|b y] [|c z]; cbn [String.compare];
    try done.
  destruct (Ascii.compare a b) eqn:Eab; [|  |done].
  - apply Ascii.compare_eq_iff in Eab as ->.
    destruct (Ascii.compare b c); [apply IH|done|done].
  - intros _. destruct (Ascii.compare b c) eqn:Ebc; [| |done].
    + apply Ascii.compare_eq_iff in Ebc as ->. by rewrite Eab.
    + intros _. apply ascii_compare_lt in Eab. apply ascii_compare_lt in Ebc.
      assert (Ascii.compare a c = Lt) as ->; [|done].
      apply ascii_compare_lt. by apply N.lt_trans with (N_of_ascii b).
Qed.

(** [x < y] and not [z < y] give [x < z]. *)
Lemma ltb_before_not_later (x y z : string) :
  String.ltb x y = true → String.ltb z y = false → String.ltb x z = true.
Proof.
  intros Hxy Hzy. apply ltb_compare. apply ltb_compare in Hxy.
  destruct (String.compare y z) eqn:Eyz.
  - apply String.compare_eq_iff in Eyz as ->. exact Hxy.
  - by apply compare_lt_trans with y.
  - exfalso. unfold String.ltb in Hzy.
    rewrite String.compare_antisym, Eyz in Hzy. discriminate.
Qed.

(** The event a sorted cache starts with, as one pass over the cache. *)
Lemma head_insert_by_date (e : OpenDayEvent) (sorted : list OpenDayEvent) :
  head (insert_by_date e sorted)
  = Some (match head sorted with
          | Some h => if String.ltb (date_iso e) (date_iso h) then e else h
          | None => e
          end).
Proof.
  destruct sorted as [|h rest]; [reflexivity|]. cbn [insert_by_date head].
  by destruct (String.ltb (date_iso e) (date_iso h)).
Qed.

Lemma head_sorted_snoc (events : list OpenDayEvent) (e : OpenDayEvent) :
  head (sorted_by_date (events ++ [e]))
  = Some (match head (sorted_by_date events) with
          | Some h => if String.ltb (date_iso e) (date_iso h) then e else h
          | None => e
          end).
Proof. unfold sorted_by_date. rewrite fold_left_app. apply head_insert_by_date. Qed.

Lemma head_sorted_by_date (events : list OpenDayEvent) :
  match head (sorted_by_date events) with
  | Some next => earliest_event events next
  | None => events = []
  end.
Proof.
  induction events as [|e events IH] using rev_ind; [reflexivity|].
  rewrite head_sorted_snoc.
  destruct (head (sorted_by_date events)) as [h|].
  - destruct IH as (pre & post & -> & Hpre & Hpost).
    destruct (String.ltb (date_iso e) (date_iso h)) eqn:E.
    + exists (pre ++ h :: post), []. split; [reflexivity|]. split; [|by intros ? ?%elem_of_nil].
      intros x Hx. apply elem_of_app in Hx as [Hx|Hx];
        [|apply elem_of_cons in Hx as [->|Hx]].
      * apply ltb_before_not_later with (date_iso h); [exact E|].
        destruct (String.ltb (date_iso x) (date_iso h)) eqn:Ex; [|reflexivity].
        specialize (Hpre x Hx). apply ltb_compare in Hpre, Ex.
        pose proof (compare_lt_trans _ _ _ Hpre Ex) as Hbad.
        assert (String.compare (date_iso h) (date_iso h) = Eq) as Hrefl.
        { destruct (String.compare (date_iso h) (date_iso h)) eqn:Ec; [done| |];
            pose proof (String.compare_antisym (date_iso h) (date_iso h)) as Ha;
            rewrite Ec in Ha; discriminate. }
        congruence.
      * exact E.
      * by apply ltb_before_not_later with (date_iso h); [|apply Hpost].
    + exists pre, (post ++ [e]). split; [by rewrite <- app_assoc|]. split; [exact Hpre|].
      intros x Hx. apply elem_of_app in Hx as [Hx|Hx]; [by apply Hpost|].
      apply list_elem_of_singleton in Hx as ->. exact E.
  - subst events. exists [], []. split; [reflexivity|].
    split; by intros ? ?%elem_of_nil.
Qed.

(** X12: with events in the cache, a question that holds an open-day
    keyword is answered with the event whose [date_iso] is least, and with
    the first such event of the cache when several share that date; the
    answer carries that event's booking link, and the world is left as it
    was. *)
Theorem X12_open_days_answer_names_earliest_event (env : Env) (question language : string)
    (session_id family_id : option string) (w : World) :
  PyStr.any_in open_day_keywords (PyStr.lower (PyStr.strip question)) = true →
  get_open_day_events env ≠ [] →
  ∃ next, earliest_event (get_open_day_events env) next ∧
          find_best_answer env question language session_id family_id w
          = (Ok (next_event_answer next), w).
Proof.
  intros Hkw Hne.
  pose proof (head_sorted_by_date (get_open_day_events env)) as Hhead.
  destruct (sorted_by_date (get_open_day_events env)) as [|next rest] eqn:Es;
    cbn [head] in Hhead; [done|].
  exists next. split; [exact Hhead|].
  unfold find_best_answer. rewrite Hkw, Es.
  destruct (negb (language =? "en")%string); [|reflexivity].
  unfold mbind, M_bind, bind, try_except, lift, mret, M_ret, ret.
  by destruct (translate env question "en").
Qed.

Lemma X12_open_days_answer_names_earliest_event_witness :
  ∃ next, earliest_event (get_open_day_events open_days_env) next ∧
          find_best_answer open_days_env "When is your next open day?" "en" (Some "s1")
                           None fresh_world
          = (Ok (next_event_answer next), fresh_world).
Proof.
  apply (X12_open_days_answer_names_earliest_event open_days_env
           "When is your next open day?" "en" (Some "s1") None fresh_world).
  - reflexivity.
  - discriminate.
Defined.

(** ** Failures of the embedding service *)

Lemma vector_search_provider_failure (env : Env) (query : string) (k : nat) (e : PyExc) :
  embeddings_create env (PyStr.strip query) = Raise e →
  Retrieval.vector_search env query k = Raise e.
Proof.
  intros H. unfold Retrieval.vector_search, Retrieval.embed_text. by rewrite H.
Qed.

(** X13: [find_best_answer] does not catch a failure of the embedding
    service.  A question that passes the open-days and static tiers while
    the service raises makes the whole call raise the same exception
    instead of returning the no-match answer; nothing is recorded, but a
    session that was unknown has been registered by then, with an empty
    tracker. *)
Theorem X13_embedding_failure_is_not_caught (env : Env) (question language : string)
    (session_id family_id : option string) (w : World) (e : PyExc) :
  PyStr.any_in open_day_keywords (PyStr.lower (PyStr.strip question)) = false →
  exact_match (STATIC_QAS env) language (PyStr.lower (PyStr.strip question)) = None →
  fuzzy_match (STATIC_QAS env) language (PyStr.lower (PyStr.strip question)) = None →
  embeddings_create env (PyStr.strip question) = Raise e →
  let out := find_best_answer env question language session_id family_id w in
  out.1 = Raise e ∧ left_registered session_id family_id w out.2.
Proof.
  intros Hkw Hexact Hfuzzy Hembed. cbv zeta.
  pose proof (vector_search_provider_failure env question 10 e Hembed) as Hsearch.
  clear Hembed.
  change (wp (find_best_answer env question language session_id family_id)
            (λ r w', r = Raise e ∧ left_registered session_id family_id w w') w).
  destruct session_id as [[|c sid]|].
  all: wp_walk; try congruence.
  all: unfold left_registered; cbn [truthy_id PyStr.truthy trace conversation_memory].
  all: (split; [congruence|]); (split; [reflexivity|]).
  all: try reflexivity.
  all: rewrite ?lookup_insert_eq;
       repeat match goal with
              | H : conversation_memory _ !! _ = _ |- _ => rewrite H
              end; reflexivity.
Qed.

Lemma X13_embedding_failure_is_not_caught_witness :
  let out := find_best_answer embedding_down_env "What is on the lunch menu?" "en"
                              (Some "s1") None fresh_world in
  out.1 = Raise (ExternalError "embedding service unavailable") ∧
  left_registered (Some "s1") None fresh_world out.2.
Proof.
  apply (X13_embedding_failure_is_not_caught embedding_down_env
           "What is on the lunch menu?" "en" (Some "s1") None fresh_world
           (ExternalError "embedding service unavailable")).
  - vm_compute. reflexivity.
  - vm_compute. reflexivity.
  - vm_compute. reflexivity.
  - reflexivity.
Defined.

(** ** The fields of an answer *)

Lemma fuzzy_match_language (table : list StaticQA) (language q_lower : string)
    (e : StaticQA) :
  fuzzy_match table language q_lower = Some e → qa_language e = language.
Proof.
  intros H. destruct (fuzzy_match_spec table language q_lower) as [_ Hbest].
  by destruct (Hbest e H) as (pre & post & v & _ & Hlang & _).
Qed.

Lemma link_url_not_empty (detected_topic meta_url : option string) :
  (get_better_url_and_label detected_topic meta_url).1 ≠ EmptyString.
Proof.
  unfold get_better_url_and_label.
  destruct (PyStr.truthy detected_topic).
  - unfold topic_urls.
    repeat match goal with
           | |- context [String.eqb ?x ?y] => destruct (String.eqb x y); [discriminate|]
           end.
    destruct meta_url as [[|c u]|]; discriminate.
  - destruct meta_url as [[|c u]|]; discriminate.
Qed.

Lemma link_label_fixed (detected_topic meta_url : option string) (u l : string) :
  get_better_url_and_label detected_topic meta_url = (u, l) → u ≠ EmptyString.
Proof.
  intros H. pose proof (link_url_not_empty detected_topic meta_url) as Hne.
  by rewrite H in Hne.
Qed.

(** X14: the [source] of a returned answer fixes the shape of the other
    fields.  An open-days answer has the key "open_days" and a link; a
    static or fuzzy answer carries the url, label and key of one entry of
    the table written in the request language; a retrieval answer has no
    key and a labelled link whose URL is not empty; and the no-match
    answer is the fixed apology with no link, label or key. *)
Theorem X14_source_fixes_the_fields (env : Env) (question language : string)
    (session_id family_id : option string) (w w' : World) (ans : Answer) :
  find_best_answer env question language session_id family_id w = (Ok ans, w') →
  fields_fit_source env language ans.
Proof.
  intros Hrun.
  refine (wp_run _ (λ r _, match r with
                           | Ok ans => fields_fit_source env language ans
                           | Raise _ => True
                           end) _ _ _ _ Hrun).
  clear Hrun.
  wp_walk; try exact I.
  all: unfold fields_fit_source; cbn [source url label matched_key].
  all: split; [intros H; first [discriminate H | by eauto]|].
  all: split;
       [intros H;
        first [ by destruct H as [H|H]; discriminate H
              | eexists;
                repeat split;
                first [ by eapply exact_match_sound
                      | by eapply fuzzy_match_sound
                      | by eapply fuzzy_match_language
                      | reflexivity ] ]|].
  all: split;
       [intros H;
        first [ discriminate H
              | split; [reflexivity|]; split; [by eauto|];
                eexists; split; [reflexivity|]; by eapply link_label_fixed ]|].
  all: intros H; first [discriminate H | reflexivity].
Qed.

Lemma X14_source_fixes_the_fields_witness :
  fields_fit_source offline_env "en"
    (entry_answer qa_admissions (qa_answer qa_admissions) "fuzzy").
Proof.
  apply (X14_source_fixes_the_fields offline_env "admision" "en" None None fresh_world
           {| conversation_memory := ∅; clock := 2;
              trace := [EvAddInteraction Private
                          (add_interaction 1 (new_tracker 0 (uuid4 offline_env 0) None)
                             "admision" (qa_answer qa_admissions)
                             (Some (qa_key qa_admissions)))] |}).
  vm_compute. reflexivity.
Defined.

(** ** The matcher of [difflib]: blocks mark equal pieces *)

Lemma agree_snoc (a b : list ascii) (i j k : nat) (c : ascii) :
  agree a b i j k → a !! (i + k) = Some c → b !! (j + k) = Some c →
  agree a b i j (k + 1).
Proof.
  intros H Ha Hb d Hd. destruct (decide (d = k)) as [->|Hne]; [by exists c|].
  apply H. lia.
Qed.

Lemma agree_cons (a b : list ascii) (i j k : nat) (c : ascii) :
  agree a b (S i) (S j) k → a !! i = Some c → b !! j = Some c →
  agree a b i j (k + 1).
Proof.
  intros H Ha Hb [|d] Hd.
  - exists c. by rewrite !Nat.add_0_r.
  - destruct (H d ltac:(lia)) as (x & Hx1 & Hx2). exists x.
    by rewrite <- !Nat.add_succ_comm.
Qed.

Lemma agree_join (a b : list ascii) (i j k1 k2 : nat) :
  agree a b i j k1 → agree a b (i + k1) (j + k1) k2 → agree a b i j (k1 + k2).
Proof.
  intros H1 H2 d Hd. destruct (decide (d < k1)) as [Hlt|Hge]; [by apply H1|].
  destruct (H2 (d - k1) ltac:(lia)) as (x & Hx1 & Hx2). exists x.
  by replace (i + d) with (i + k1 + (d - k1)) by lia;
     replace (j + d) with (j + k1 + (d - k1)) by lia.
Qed.

Lemma same_at_true (a b : list ascii) (i j : nat) :
  difflib.same_at a b i j = true → ∃ c, a !! i = Some c ∧ b !! j = Some c.
Proof.
  unfold difflib.same_at. destruct (a !! i) as [x|], (b !! j) as [y|]; try done.
  intros ->%bool_decide_eq_true. by exists y.
Qed.

Section longest_match_agrees.
Variables (a b : list ascii) (b2j : gmap ascii (list nat)).
Variables (alo ahi blo bhi : nat).
Hypothesis Hindex : index_of b b2j.

Lemma scan_row_agrees (i : nat) (c : ascii) (js : list nat)
    (j2len newj2len : gmap nat nat) (best : difflib.Match) :
  a !! i = Some c →
  (∀ j, j ∈ js → b !! j = Some c) →
  runs_agree a b i j2len →
  runs_agree a b (i + 1) newj2len →
  block_agrees a b best →
  runs_agree a b (i + 1) (difflib.scan_row blo bhi i js j2len newj2len best).1 ∧
  block_agrees a b (difflib.scan_row blo bhi i js j2len newj2len best).2.
Proof.
  intros Hc Hjs Hold. revert newj2len best.
  induction js as [|j js IH]; intros newj2len best Hnew Hbest; cbn [difflib.scan_row].
  - done.
  - assert (∀ j', j' ∈ js → b !! j' = Some c) as Hjs'.
    { intros j' Hj'. apply Hjs. by right. }
    specialize (IH Hjs').
    destruct (j <? blo); [by apply IH|].
    destruct (bhi <=? j); [done|].
    set (prev := match j with O => 0 | S j' => default 0 (j2len !! j') end).
    assert (prev ≤ j ∧ prev ≤ i ∧ agree a b (i - prev) (j - prev) prev)
      as (Hp1 & Hp2 & Hp3).
    { subst prev. destruct j as [|j'].
      { split; [lia|]. split; [lia|]. intros d ?. lia. }
      destruct (j2len !! j') as [v|] eqn:Ev; simpl.
      - destruct (Hold _ _ Ev) as (? & ? & Hag).
        split; [lia|]. split; [lia|]. by replace (S j' - v) with (j' + 1 - v) by lia.
      - split; [lia|]. split; [lia|]. intros d ?. lia. }
    assert (agree a b (i + 1 - (prev + 1)) (j + 1 - (prev + 1)) (prev + 1)) as Hrun.
    { replace (i + 1 - (prev + 1)) with (i - prev) by lia.
      replace (j + 1 - (prev + 1)) with (j - prev) by lia.
      apply agree_snoc with c; [done| |].
      - by replace (i - prev + prev) with i by lia.
      - replace (j - prev + prev) with j by lia. apply Hjs. by left. }
    apply IH.
    + intros j0 v. destruct (decide (j0 = j)) as [->|Hne].
      * rewrite lookup_insert_eq. intros [= <-]. split; [lia|]. split; [lia|]. exact Hrun.
      * rewrite lookup_insert_ne by done. apply Hnew.
    + destruct (best.2 <? prev + 1); [exact Hrun|done].
Qed.

Lemma scan_rows_agrees (n i : nat) (j2len : gmap nat nat) (best : difflib.Match) :
  runs_agree a b i j2len →
  block_agrees a b best →
  block_agrees a b (difflib.scan_rows a b2j blo bhi (seq i n) j2len best).
Proof.
  revert i j2len best. induction n as [|n IH]; intros i j2len best Hold Hbest;
    cbn [seq difflib.scan_rows]; [done|].
  assert (runs_agree a b (i + 1) ∅) as Hempty.
  { intros j v. by rewrite lookup_empty. }
  destruct (a !! i) as [c|] eqn:Hc.
  - pose proof (scan_row_agrees i c (default [] (b2j !! c)) j2len ∅ best Hc
                  (Hindex c) Hold Hempty Hbest) as Hrow.
    destruct (difflib.scan_row blo bhi i _ j2len ∅ best) as [newj2len best'].
    destruct Hrow as [Hnew Hbest']. apply IH; [|done].
    by replace (S i) with (i + 1) by lia.
  - cbn [difflib.scan_row]. apply IH; [|done].
    by replace (S i) with (i + 1) by lia.
Qed.

Lemma extend_left_agrees (besti bestj bestsize : nat) :
  block_agrees a b (besti, bestj, bestsize) →
  block_agrees a b (difflib.extend_left a b alo blo besti bestj bestsize).
Proof.
  revert bestj bestsize. induction besti as [|i' IH]; intros bestj bestsize Hag;
    cbn [difflib.extend_left]; [done|].
  destruct bestj as [|j']; [done|].
  destruct (_ && _ && _) eqn:E; [|done].
  apply andb_prop in E as [_ (c & Hc1 & Hc2)%same_at_true].
  apply IH. unfold block_agrees in *. cbn [fst snd] in *. by apply agree_cons with c.
Qed.

Lemma extend_right_agrees (room besti bestj bestsize : nat) :
  block_agrees a b (besti, bestj, bestsize) →
  block_agrees a b (difflib.extend_right a b ahi bhi room besti bestj bestsize).
Proof.
  revert bestsize. induction room as [|room IH]; intros bestsize Hag;
    cbn [difflib.extend_right]; [done|].
  destruct (_ && _ && _) eqn:E; [|done].
  apply andb_prop in E as [_ (c & Hc1 & Hc2)%same_at_true].
  apply IH. unfold block_agrees in *. cbn [fst snd] in *. by apply agree_snoc with c.
Qed.

Lemma find_longest_match_agrees :
  block_agrees a b (difflib.find_longest_match a b b2j alo ahi blo bhi).
Proof.
  unfold difflib.find_longest_match.
  pose proof (scan_rows_agrees (ahi - alo) alo ∅ (alo, blo, 0)) as H.
  destruct (difflib.scan_rows _ _ _ _ _ _ _) as [[besti bestj] bestsize].
  pose proof (extend_left_agrees besti bestj bestsize) as H'.
  destruct (difflib.extend_left _ _ _ _ _ _ _) as [[besti' bestj'] bestsize'].
  apply extend_right_agrees, H', H.
  - intros j v. by rewrite lookup_empty.
  - intros d Hd. cbn in Hd. lia.
Qed.

End longest_match_agrees.

Lemma matching_loop_genuine (a b : list ascii) (b2j : gmap ascii (list nat)) (fuel : nat)
    (queue : list (nat * nat * nat * nat)) (acc res : list difflib.Match) :
  index_of b b2j →
  Forall (genuine a b) acc →
  difflib.matching_loop a b b2j fuel queue acc = Some res →
  Forall (genuine a b) res.
Proof.
  intros Hindex. revert queue acc. induction fuel as [|fuel IH]; intros queue acc Hacc;
    destruct queue as [|[[[alo ahi] blo] bhi] queue]; cbn [difflib.matching_loop];
    try (by intros [= <-]); try discriminate.
  pose proof (find_longest_match_agrees a b b2j alo ahi blo bhi Hindex) as Hag.
  destruct (difflib.find_longest_match a b b2j alo ahi blo bhi) as [[i j] k].
  destruct (k =? 0) eqn:Ek; [by apply IH|].
  apply Nat.eqb_neq in Ek. apply IH.
  apply Forall_app. split; [done|]. apply Forall_singleton. split; [cbn; lia|done].
Qed.

Lemma collapse_genuine (a b : list ascii) (blocks : list difflib.Match)
    (cur : difflib.Match) (non_adjacent : list difflib.Match) :
  Forall (genuine a b) blocks →
  block_agrees a b cur →
  Forall (genuine a b) non_adjacent →
  Forall (genuine a b) (difflib.collapse blocks cur non_adjacent).
Proof.
  revert cur non_adjacent.
  induction blocks as [|[[i2 j2] k2] blocks IH]; intros [[i1 j1] k1] non_adjacent
    Hblocks Hcur Hdone; cbn [difflib.collapse snd].
  - destruct (k1 =? 0) eqn:E; [done|]. apply Nat.eqb_neq in E.
    apply Forall_app. split; [done|]. apply Forall_singleton. split; [cbn; lia|done].
  - apply Forall_cons in Hblocks as [[Hpos Hblock] Hblocks].
    destruct ((i1 + k1 =? i2) && (j1 + k1 =? j2)) eqn:E.
    + apply andb_prop in E as [<-%Nat.eqb_eq <-%Nat.eqb_eq].
      apply IH; [done| |done]. by apply agree_join.
    + apply IH; [done|done|].
      destruct (k1 =? 0) eqn:E1; [done|]. apply Nat.eqb_neq in E1.
      apply Forall_app. split; [done|]. apply Forall_singleton. split; [cbn; lia|done].
Qed.

(** [chain_b] indexes [b]: a listed position holds the element it is
    listed under. *)
Lemma chain_b_indexes (b : list ascii) : index_of b (difflib.chain_b b).
Proof. intros c j Hj. by apply kept_position_holds. Qed.

(** The blocks that [get_matching_blocks] returns, up to the closing one,
    have positive size and mark equal pieces. *)
Lemma matching_blocks_genuine (a b : list ascii) :
  ∃ blocks,
    difflib.get_matching_blocks a b = blocks ++ [(length a, length b, 0)] ∧
    Forall (genuine a b) blocks.
Proof.
  destruct (get_matching_blocks_terminates a b) as (found & Hloop & ->).
  eexists. split; [reflexivity|].
  apply collapse_genuine; [| |constructor].
  - eapply Permutation_Forall; [symmetry; apply merge_sort_Permutation|].
    eapply matching_loop_genuine; [apply chain_b_indexes| |exact Hloop]. constructor.
  - intros d Hd. cbn in Hd. lia.
Qed.

Lemma genuine_same_piece (a b : list ascii) (m : difflib.Match) :
  genuine a b m → same_piece a b m.
Proof.
  destruct m as [[i j] k]. intros [Hpos Hag]. unfold block_agrees, same_piece in *.
  cbn [fst snd] in *.
  destruct (Hag (k - 1) ltac:(lia)) as (c & Hc1 & Hc2).
  apply lookup_lt_Some in Hc1, Hc2.
  split; [lia|]. split; [lia|].
  apply list_eq. intros d. destruct (decide (d < k)) as [Hd|Hd].
  - rewrite !lookup_take_lt, !lookup_drop by done.
    destruct (Hag d Hd) as (x & -> & ->). reflexivity.
  - rewrite !lookup_take_ge by lia. reflexivity.
Qed.

(** X15: every block [Match(i, j, k)] that [get_matching_blocks] returns
    marks equal text: [a[i:i+k] == b[j:j+k]], with both slices inside
    their sequences; and every block but the closing
    [Match(len(a), len(b), 0)] has positive size.  The similarity score
    therefore counts only text that the two strings really share. *)
Theorem X15_matching_blocks_mark_equal_text (a b : list ascii) (m : difflib.Match) :
  m ∈ difflib.get_matching_blocks a b →
  same_piece a b m ∧ (0 < m.2 ∨ m = (length a, length b, 0)).
Proof.
  destruct (matching_blocks_genuine a b) as (blocks & -> & Hblocks).
  intros Hin. apply elem_of_app in Hin as [Hin|Hin];
    [|apply list_elem_of_singleton in Hin as ->].
  - rewrite Forall_forall in Hblocks. specialize (Hblocks m Hin).
    split; [by apply genuine_same_piece|left; apply Hblocks].
  - split; [|by right]. unfold same_piece. cbn [fst snd].
    split; [lia|]. split; [lia|]. by rewrite !take_0.
Qed.

Lemma X15_matching_blocks_mark_equal_text_witness :
  same_piece (String.list_ascii_of_string "admision")
             (String.list_ascii_of_string "admissions") (0, 0, 5)
  ∧ (0 < 5 ∨ (0, 0, 5) = (8, 10, 0)).
Proof.
  apply (X15_matching_blocks_mark_equal_text (String.list_ascii_of_string "admision")
           (String.list_ascii_of_string "admissions") (0, 0, 5)).
  vm_compute. left.
Defined.

(** ** What the score tells about the two texts *)

Lemma length_list_ascii (s : string) :
  length (String.list_ascii_of_string s) = String.length s.
Proof. induction s as [|c s IH]; cbn; [reflexivity|]. by rewrite IH. Qed.

(** A score above 0.8 needs texts of similar length. *)
Lemma ratio_above_threshold_lengths (q v : string) :
  (8 # 10 < difflib.ratio q v)%Q →
  (2 * String.length v < 3 * String.length q ∧ 2 * String.length q < 3 * String.length v)
  ∨ (String.length q = 0 ∧ String.length v = 0).
Proof.
  unfold difflib.ratio. cbv zeta.
  pose proof (matches_bounded (String.list_ascii_of_string q)
                (String.list_ascii_of_string v)) as [Hq Hv].
  unfold total_size in Hq, Hv. rewrite !length_list_ascii in *.
  set (matches := sum_list_with difflib.match_size _) in *.
  destruct (String.length q + String.length v) as [|n] eqn:En; [right; lia|].
  intros Hlt. left. unfold difflib._calculate_ratio, Qlt in Hlt. cbn [Qnum Qden] in Hlt.
  assert (Z.pos (Pos.of_nat (S n)) = Z.of_nat (S n)) as Hpos by lia.
  rewrite Hpos in Hlt. lia.
Qed.

(** X16: the fuzzy tier returns an entry only if one of its variants,
    once lower-cased as the tier compares it, is of a length similar to
    the question's: the shorter of the two compared texts is longer than
    two thirds of the longer one (or both are empty).  A long question is
    never matched to a short key, however much of the key it contains. *)
Theorem X16_fuzzy_match_needs_similar_lengths (table : list StaticQA)
    (language q_lower : string) (e : StaticQA) :
  fuzzy_match table language q_lower = Some e →
  ∃ v, v ∈ all_variants e ∧
       ((2 * String.length (PyStr.lower v) < 3 * String.length q_lower ∧
         2 * String.length q_lower < 3 * String.length (PyStr.lower v))
        ∨ (String.length q_lower = 0 ∧ String.length (PyStr.lower v) = 0)).
Proof.
  intros H. destruct (fuzzy_match_spec table language q_lower) as [_ Hbest].
  destruct (Hbest e H) as (pre & post & v & _ & _ & Hv & Hgt & _).
  exists v. split; [exact Hv|].
  exact (ratio_above_threshold_lengths _ _ Hgt).
Qed.

Lemma X16_fuzzy_match_needs_similar_lengths_witness :
  ∃ v, v ∈ all_variants qa_admissions ∧
       ((2 * String.length (PyStr.lower v) < 3 * String.length "admision" ∧
         2 * String.length "admision" < 3 * String.length (PyStr.lower v))
        ∨ (String.length "admision" = 0 ∧ String.length (PyStr.lower v) = 0)).
Proof.
  apply (X16_fuzzy_match_needs_similar_lengths STATIC_QA_LIST "en" "admision"
           qa_admissions).
  vm_compute. reflexivity.
Defined.

(** X17: two texts that have no character in common, and are not both
    empty, score 0. *)
Theorem X17_no_common_character_scores_zero (q v : string) :
  (∀ c, c ∈ String.list_ascii_of_string q → c ∉ String.list_ascii_of_string v) →
  q ≠ EmptyString ∨ v ≠ EmptyString →
  (difflib.ratio q v == 0)%Q.
Proof.
  intros Hdisjoint Hne. unfold difflib.ratio. cbv zeta.
  destruct (matching_blocks_genuine (String.list_ascii_of_string q)
              (String.list_ascii_of_string v)) as (blocks & -> & Hblocks).
  destruct blocks as [|m blocks].
  - cbn [app sum_list_with difflib.match_size snd].
    rewrite !length_list_ascii.
    destruct (String.length q + String.length v) as [|n] eqn:En.
    + exfalso. destruct q, v; cbn in En; try lia. by destruct Hne.
    + reflexivity.
  - exfalso. apply Forall_cons in Hblocks as [[Hpos Hag] _].
    destruct (Hag 0 Hpos) as (c & Hc1 & Hc2).
    apply (Hdisjoint c); eapply list_elem_of_lookup_2; eassumption.
Qed.

Lemma X17_no_common_character_scores_zero_witness :
  (difflib.ratio "fees" "autumn" == 0)%Q.
Proof.
  apply (X17_no_common_character_scores_zero "fees" "autumn").
  - intros c Hc Hv. vm_compute in Hc, Hv.
    repeat (apply elem_of_cons in Hc as [->|Hc];
            [repeat (apply elem_of_cons in Hv as [Hv|Hv]; [discriminate Hv|]);
             by apply elem_of_nil in Hv|]).
    by apply elem_of_nil in Hc.
  - left. discriminate.
Defined.

(** ** The conversation route *)




(** ** The exceptions of a request *)







(** ** The interaction log of [/ask] *)

(** A request with a session that is answered past the open-days tier
    leaves, under the session id, a tracker whose last change is the
    recording of the question. *)
Lemma session_tracker_after_answer (env : Env) (question language sid : string)
    (family_id : option string) (w w' : World) (ans : Answer) :
  sid ≠ EmptyString →
  find_best_answer env question language (Some sid) family_id w = (Ok ans, w') →
  source ans ≠ "open_days" →
  ∃ now before stored_answer topic,
    conversation_memory w' !! sid
    = Some (add_interaction now before question stored_answer topic).
Proof.
  intros Hsid Hrun.
  set (Q := λ (r : Result Answer) (w' : World),
              match r with
              | Ok ans =>
                  source ans ≠ "open_days" →
                  ∃ now before stored_answer topic,
                    conversation_memory w' !! sid
                    = Some (add_interaction now before question stored_answer topic)
              | Raise _ => True
              end).
  refine (wp_run _ Q _ _ _ _ Hrun).
  clear Hrun. destruct sid as [|c s]; [done|]. clear Hsid.
  wp_walk.
  all: subst Q; cbv beta iota; try exact I.
  all: cbn [conversation_memory source]; intros Hsrc; try done.
  all: rewrite lookup_insert_eq; by eexists _, _, _, _.
Qed.

Lemma concern_makes_concerned (now : nat) (self : ConversationTracker)
    (question answer : string) (topic : option string) :
  mentions concern_keywords question = true →
  emotional_state (add_interaction now self question answer topic) = concerned.
Proof. unfold mentions. intros H. cbn [emotional_state add_interaction]. by rewrite H. Qed.

Lemma intent_makes_signal (now : nat) (self : ConversationTracker)
    (question answer : string) (topic : option string) :
  mentions high_intent_keywords question = true →
  (0 <? high_intent_signals (add_interaction now self question answer topic)) = true.
Proof.
  unfold mentions. intros H. cbn [high_intent_signals add_interaction]. by rewrite H.
Qed.

(** X20: the sentiment and the high-intent flag that [/ask] logs for a
    family are read from the registry entry of the session, after the
    question was answered.  A request without [session_id] is therefore
    always logged as neutral and without intent, whatever it asks: the
    tracker that recorded it is not in the registry.  With a session id,
    and an answer from any tier but the open-days one, a question that
    holds a concern keyword is logged as concerned and one that holds a
    high-intent keyword as high intent. *)
Theorem X20_logged_sentiment_is_the_sessions (aenv : AskEnv) (data : AskRequest)
    (w w' : World) (reply : AskReply) (row : LoggedRow) :
  ask aenv data w = (Ok (reply, Some row), w') →
  let question := default EmptyString (req_question data) in
  match req_session_id data with
  | None => row_sentiment row = neutral ∧ md_high_intent (row_metadata row) = false
  | Some sid =>
      sid ≠ EmptyString → reply_source reply ≠ "open_days" →
      (mentions concern_keywords question = true → row_sentiment row = concerned) ∧
      (mentions high_intent_keywords question = true →
       md_high_intent (row_metadata row) = true)
  end.
Proof.
  intros Hask. cbv zeta. unfold ask in Hask. cbv zeta in Hask.
  unfold mbind, M_bind in Hask. unfold bind at 1 in Hask.
  destruct (find_best_answer (matcher aenv) (default "" (req_question data))
              (default "en" (req_language data)) (req_session_id data)
              (req_family_id data) w) as [[ans|e] w1] eqn:Hrun; [|discriminate].
  unfold log_interaction_to_db, registry_get, registry_lookup, datetime_now,
    mbind, M_bind, bind, mret, M_ret, ret in Hask.
  destruct (req_family_id data) as [[|c fid]|]; cbn [PyStr.truthy] in Hask;
    [discriminate| |discriminate].
  destruct (db_pool aenv); cbn [negb orb] in Hask.
  - destruct (req_session_id data) as [sid|] eqn:Hsid.
    + injection Hask as <- <- <-.
      cbn [row_sentiment row_metadata md_high_intent reply_source].
      intros Hne Hsrc.
      destruct (session_tracker_after_answer _ _ _ _ _ _ _ _ Hne Hrun Hsrc)
        as (now & before & stored & topic & ->).
      split; [apply concern_makes_concerned|apply intent_makes_signal].
    + injection Hask as <- <- <-. by split.
  - destruct (req_session_id data); discriminate.
Qed.

Lemma X20_logged_sentiment_is_the_sessions_witness :
  let data := {| req_question := Some "I am worried about the fees";
                 req_language := None; req_family_id := Some "f9";
                 req_session_id := None |} in
  ∃ reply row w',
    ask offline_ask_env data fresh_world = (Ok (reply, Some row), w') ∧
    mentions concern_keywords "I am worried about the fees" = true ∧
    row_sentiment row = neutral ∧ md_high_intent (row_metadata row) = false.
Proof.
  cbv zeta.
  destruct (ask offline_ask_env
              {| req_question := Some "I am worried about the fees";
                 req_language := None; req_family_id := Some "f9";
                 req_session_id := None |} fresh_world) as [[[reply [row|]]|e] w'] eqn:E;
    try (vm_compute in E; discriminate E).
  exists reply, row, w'. split; [reflexivity|]. split; [reflexivity|].
  apply (X20_logged_sentiment_is_the_sessions offline_ask_env _ _ _ _ _ E).
Defined.

(** ** The open-days scraper *)

Lemma compare_refl (x : string) : String.compare x x = Eq.
Proof.
  destruct (String.compare x x) eqn:E; [done| |];
    pose proof (String.compare_antisym x x) as H; rewrite E in H; discriminate.
Qed.

Lemma compare_gt_lt (x y : string) : String.compare x y = Gt ↔ String.compare y x = Lt.
Proof.
  rewrite (String.compare_antisym y x). destruct (String.compare x y); naive_solver.
Qed.

Lemma compare_not_gt_trans (x y z : string) :
  String.compare x y ≠ Gt → String.compare y z ≠ Gt → String.compare x z ≠ Gt.
Proof.
  intros Hxy Hyz.
  destruct (String.compare x y) eqn:Exy; [| |done].
  - apply String.compare_eq_iff in Exy as ->. exact Hyz.
  - destruct (String.compare y z) eqn:Eyz; [| |done].
    + apply String.compare_eq_iff in Eyz as <-. by rewrite Exy.
    + by rewrite (compare_lt_trans _ _ _ Exy Eyz).
Qed.

Global Instance key_le_total : Total key_le.
Proof.
  intros x y. unfold key_le.
  rewrite (String.compare_antisym (date_iso y) (date_iso x)).
  destruct (String.compare (date_iso x) (date_iso y)); cbn [CompOpp]; [|by left|by right].
  rewrite (String.compare_antisym (event_name y) (event_name x)).
  destruct (String.compare (event_name x) (event_name y)); cbn [CompOpp];
    [by left|by left|by right].
Qed.

Global Instance key_le_trans : Transitive key_le.
Proof.
  intros x y z. unfold key_le.
  destruct (String.compare (date_iso x) (date_iso y)) eqn:Exy; [| |done].
  - apply String.compare_eq_iff in Exy. rewrite Exy.
    destruct (String.compare (date_iso y) (date_iso z)); [|done|done].
    apply compare_not_gt_trans.
  - intros _. destruct (String.compare (date_iso y) (date_iso z)) eqn:Eyz; [| |done].
    + apply String.compare_eq_iff in Eyz. rewrite <- Eyz, Exy. done.
    + by rewrite (compare_lt_trans _ _ _ Exy Eyz).
Qed.

Lemma key_seen_false (name iso : string) (unique : list OpenDayEvent) :
  key_seen name iso unique = false → (name, iso) ∉ event_key <$> unique.
Proof.
  unfold key_seen. intros H Hin.
  apply list_elem_of_fmap in Hin as (ev & Hkey & Hev).
  assert (existsb (λ ev, String.eqb (event_name ev) name && String.eqb (date_iso ev) iso)
                  unique = true) as Htrue; [|congruence].
  apply existsb_exists. exists ev. split; [by apply list_elem_of_In|].
  injection Hkey as -> ->. by rewrite !String.eqb_refl.
Qed.

(** The loop keeps the keys of [unique] distinct and adds only events of
    matches that are not in the past. *)
Lemma collect_events_keeps (sc : Scraper) (all matches : list (string * string))
    (P : OpenDayEvent → Prop) (unique result : list OpenDayEvent) :
  (∀ name date_str dt,
     (name, date_str) ∈ matches → parse_date sc date_str = Ok dt → (today sc <= dt)%N →
     P {| event_name := title_words sc name; date_iso := isoformat sc dt;
          date_human := strftime_long sc dt; booking_link := OPEN_DAYS_URL |}) →
  NoDup (event_key <$> unique) → Forall P unique →
  collect_events sc matches unique = Ok result →
  NoDup (event_key <$> result) ∧ Forall P result.
Proof.
  revert unique. induction matches as [|[name date_str] matches IH];
    intros unique HP Hnd Hall; cbn [collect_events].
  - by intros [= <-].
  - assert (∀ name date_str dt,
              (name, date_str) ∈ matches → parse_date sc date_str = Ok dt →
              (today sc <= dt)%N →
              P {| event_name := title_words sc name; date_iso := isoformat sc dt;
                   date_human := strftime_long sc dt; booking_link := OPEN_DAYS_URL |})
      as HP'.
    { intros n d dt Hin. apply HP. by right. }
    destruct (parse_date sc date_str) as [dt|e] eqn:Hparse; [|discriminate].
    destruct (dt <? today sc)%N eqn:Hpast; [by apply IH|].
    destruct (key_seen _ _ unique) eqn:Hseen; [by apply IH|].
    apply IH; [done| |].
    + rewrite fmap_app. apply NoDup_app. split; [done|].
      split; [|apply NoDup_singleton].
      intros key Hkey Hnew. apply list_elem_of_singleton in Hnew as ->.
      by apply key_seen_false in Hseen.
    + apply Forall_app. split; [done|]. apply Forall_singleton.
      apply (HP name date_str dt); [by left|done|]. by apply N.ltb_ge.
Qed.

Lemma scraped_events_sorted (sc : Scraper) (html : string) (events : list OpenDayEvent) :
  _extract_events_from_html sc html = Ok events → Sorted key_le events.
Proof.
  unfold _extract_events_from_html.
  destruct (collect_events sc (page_matches sc html) []); [|discriminate].
  intros [= <-]. apply Sorted_merge_sort, _.
Qed.

(** X21: the events that [_extract_events_from_html] returns are sorted by
    [(date_iso, event_name)], no two of them share both the name and the
    date, and each of them is read off a match of the page whose date is
    not before today, with the open-events page as its booking link. *)
Theorem X21_scraped_events_sorted_unique_upcoming (sc : Scraper) (html : string)
    (events : list OpenDayEvent) :
  _extract_events_from_html sc html = Ok events →
  Sorted key_le events ∧
  NoDup (event_key <$> events) ∧
  Forall (from_upcoming_match sc html) events.
Proof.
  intros Hrun. split; [by apply (scraped_events_sorted sc html)|].
  revert Hrun. unfold _extract_events_from_html.
  destruct (collect_events sc (page_matches sc html) []) as [unique|e] eqn:Hloop;
    [|discriminate].
  intros [= <-].
  destruct (collect_events_keeps sc (page_matches sc html) (page_matches sc html)
              (from_upcoming_match sc html) [] unique) as [Hnd Hall]; try done.
  { intros name date_str dt Hin Hparse Hdt. by exists name, date_str, dt. }
  { constructor. }
  pose proof (merge_sort_Permutation key_le unique) as Hperm.
  split.
  - eapply NoDup_Permutation_proper; [|exact Hnd]. by apply fmap_Permutation.
  - eapply Permutation_Forall; [symmetry; exact Hperm|exact Hall].
Qed.

Lemma X21_scraped_events_sorted_unique_upcoming_witness :
  Sorted key_le [autumn_open_morning; autumn_open_evening] ∧
  NoDup (event_key <$> [autumn_open_morning; autumn_open_evening]) ∧
  Forall (from_upcoming_match sample_scraper "<html></html>")
         [autumn_open_morning; autumn_open_evening].
Proof.
  apply (X21_scraped_events_sorted_unique_upcoming sample_scraper "<html></html>").
  vm_compute. reflexivity.
Defined.

(** The head of a list in key order has the least date, and is the first
    of the list to have it. *)
Lemma sorted_head_is_earliest (first next : OpenDayEvent) (rest : list OpenDayEvent) :
  Sorted key_le (first :: rest) → earliest_event (first :: rest) next → next = first.
Proof.
  intros Hsorted (pre & post & Hsplit & Hpre & _).
  destruct pre as [|e0 pre]; [by injection Hsplit as ->|].
  exfalso. injection Hsplit as <- ->.
  apply Sorted_StronglySorted in Hsorted; [|apply _].
  apply StronglySorted_inv in Hsorted as [_ Hall].
  rewrite Forall_forall in Hall.
  specialize (Hall next ltac:(apply elem_of_app; right; left)).
  specialize (Hpre first ltac:(left)).
  apply ltb_compare, compare_gt_lt in Hpre. unfold key_le in Hall. by rewrite Hpre in Hall.
Qed.

(** X22: when the cache holds a list that [_extract_events_from_html]
    returned, a question with an open-day keyword is answered with the
    first event of that list, or with the "no upcoming Open Days" text
    when the list is empty: sorting the cache again by date does not
    change which event comes first. *)
Theorem X22_refreshed_cache_is_served_in_order (sc : Scraper) (html : string)
    (env : Env) (question language : string) (session_id family_id : option string)
    (w : World) :
  _extract_events_from_html sc html = Ok (get_open_day_events env) →
  PyStr.any_in open_day_keywords (PyStr.lower (PyStr.strip question)) = true →
  find_best_answer env question language session_id family_id w
  = (Ok (match get_open_day_events env with
         | first :: _ => next_event_answer first
         | [] => no_events_answer
         end), w).
Proof.
  intros Hscraped Hkw.
  apply scraped_events_sorted in Hscraped as Hsorted.
  pose proof (head_sorted_by_date (get_open_day_events env)) as Hhead.
  assert (find_best_answer env question language session_id family_id w
          = (Ok (match sorted_by_date (get_open_day_events env) with
                 | next :: _ => next_event_answer next
                 | [] => no_events_answer
                 end), w)) as ->.
  { unfold find_best_answer. rewrite Hkw.
    unfold mbind, M_bind, bind, try_except, lift, mret, M_ret, ret.
    destruct (negb (language =? "en")%string); [destruct (translate env question "en")|];
      by destruct (sorted_by_date (get_open_day_events env)). }
  destruct (sorted_by_date (get_open_day_events env)) as [|next rest'];
    cbn [head] in Hhead.
  - by rewrite Hhead.
  - destruct (get_open_day_events env) as [|first rest].
    + destruct Hhead as (pre & post & Hsplit & _). by destruct pre.
    + by rewrite (sorted_head_is_earliest first next rest Hsorted Hhead).
Qed.

Lemma X22_refreshed_cache_is_served_in_order_witness :
  find_best_answer refreshed_env "When is the next open morning?" "en" None None fresh_world
  = (Ok (match get_open_day_events refreshed_env with
         | first :: _ => next_event_answer first
         | [] => no_events_answer
         end), fresh_world).
Proof.
  apply (X22_refreshed_cache_is_served_in_order sample_scraper "<html></html>"
           refreshed_env).
  - vm_compute. reflexivity.
  - reflexivity.
Defined.

(** ** The family context *)

(** [lstrip] leaves nothing, or a text that starts with a character that
    is not white space. *)
Lemma lstrip_head (s : string) :
  match PyStr.lstrip s with
  | EmptyString => True
  | String c _ => PyStr.is_space c = false
  end.
Proof.
  induction s as [|c s IH]; cbn [PyStr.lstrip]; [done|].
  destruct (PyStr.is_space c) eqn:E; [exact IH|exact E].
Qed.

(** [rstrip] keeps a first character that is not white space. *)
Lemma rstrip_head (c : ascii) (s : string) :
  PyStr.is_space c = false → ∃ r, PyStr.rstrip (String c s) = String c r.
Proof.
  intros Hc. cbn [PyStr.rstrip]. destruct (PyStr.rstrip s); [|by eexists].
  rewrite Hc. by eexists.
Qed.

Lemma rstrip_idem (s : string) : PyStr.rstrip (PyStr.rstrip s) = PyStr.rstrip s.
Proof.
  induction s as [|c s IH]; [done|]. cbn [PyStr.rstrip].
  destruct (PyStr.rstrip s) as [|d r] eqn:E.
  - destruct (PyStr.is_space c) eqn:Ec; [done|]. cbn [PyStr.rstrip]. by rewrite Ec.
  - change (PyStr.rstrip (String c (String d r))) with
      (match PyStr.rstrip (String d r) with
       | EmptyString => if PyStr.is_space c then EmptyString else String c EmptyString
       | r' => String c r'
       end).
    by rewrite IH.
Qed.

(** A stripped text is empty or starts with a character that is not white
    space. *)
Lemma strip_head (s : string) :
  match PyStr.strip s with
  | EmptyString => True
  | String c _ => PyStr.is_space c = false
  end.
Proof.
  unfold PyStr.strip. pose proof (lstrip_head s) as H.
  destruct (PyStr.lstrip s) as [|c t]; [done|].
  destruct (rstrip_head c t H) as [r ->]. exact H.
Qed.

Lemma strip_idem (s : string) : PyStr.strip (PyStr.strip s) = PyStr.strip s.
Proof.
  pose proof (strip_head s) as H. unfold PyStr.strip in *.
  destruct (PyStr.rstrip (PyStr.lstrip s)) as [|c r] eqn:E; [done|].
  cbn [PyStr.lstrip]. rewrite H, <- E. apply rstrip_idem.
Qed.

(** A text that starts with a character that is not white space does not
    strip to the empty string. *)
Lemma strip_keeps_head (c : ascii) (s : string) :
  PyStr.is_space c = false → PyStr.strip (String c s) ≠ EmptyString.
Proof.
  intros Hc. unfold PyStr.strip. cbn [PyStr.lstrip]. rewrite Hc.
  by destruct (rstrip_head c s Hc) as [r ->].
Qed.

(** [safe_trim] at the limit the code uses: empty exactly for a blank
    value, and otherwise a text that starts with a character that is not
    white space. *)
Lemma safe_trim_head (v : option string) :
  match safe_trim v 120 with
  | EmptyString => blank v
  | String c _ => PyStr.is_space c = false ∧ ¬ blank v
  end.
Proof.
  unfold safe_trim, blank. destruct v as [text|]; [|done].
  change (default "" (Some text)) with text.
  pose proof (strip_head text) as H.
  destruct (PyStr.strip text) as [|c t] eqn:E; [done|].
  destruct (String.length (String c t) <=? 120).
  - split; [exact H|discriminate].
  - change (PyStr.take 120 (String c t) +:+ ellipsis)
      with (String c (PyStr.take 119 t +:+ ellipsis)).
    split; [exact H|discriminate].
Qed.

(** X23: the family context built from a database row has a child name
    that is either [None] or a non-empty text without white space at
    either end, so the enhancer's test of the name never sees an empty
    one; the name is [None] exactly when both name columns are NULL or
    blank.  The language preference is never empty and at most five
    characters long. *)
Theorem X23_family_summary_is_normalised (fetchone : string → Result (option Inquiry))
    (family_id : string) (row : Inquiry) :
  fetchone family_id = Ok (Some row) →
  ∃ fc, Db.fetch_family_context (Some fetchone) family_id = Some fc ∧
    match fc_child_name fc with
    | Some name => name ≠ EmptyString ∧ PyStr.strip name = name
    | None => True
    end ∧
    known_child_name (Some fc) = fc_child_name fc ∧
    (fc_child_name fc = None ↔
     blank (inq_child_first_name row) ∧ blank (inq_child_last_name row)) ∧
    fc_language_pref fc ≠ EmptyString ∧ String.length (fc_language_pref fc) ≤ 5.
Proof.
  intros Hrow. eexists. split; [unfold Db.fetch_family_context; by rewrite Hrow|].
  unfold Db.summary. cbn [fc_child_name fc_language_pref known_child_name].
  set (joined := PyStr.join " " _).
  assert (∀ s, match or_none (PyStr.strip s) with
               | Some name => name ≠ EmptyString ∧ PyStr.strip name = name
               | None => True
               end) as Hname.
  { intros s. pose proof (strip_idem s) as Hidem.
    destruct (PyStr.strip s) eqn:E; [done|]. cbn [or_none]. by split. }
  split; [apply Hname|].
  split.
  { specialize (Hname joined). by destruct (PyStr.strip joined). }
  split.
  - subst joined. unfold nonempty_parts. cbn [List.filter].
    pose proof (safe_trim_head (inq_child_first_name row)) as H1.
    pose proof (safe_trim_head (inq_child_last_name row)) as H2.
    destruct (safe_trim (inq_child_first_name row) 120) as [|c1 t1] eqn:E1,
             (safe_trim (inq_child_last_name row) 120) as [|c2 t2] eqn:E2;
      cbn [String.eqb negb PyStr.join].
    + by split.
    + destruct H2 as [Hc Hnb]. pose proof (strip_keeps_head c2 t2 Hc) as Hne.
      destruct (PyStr.strip (String c2 t2)); [done|]. cbn [or_none]. split; [done|].
      by intros [_ ?].
    + destruct H1 as [Hc Hnb]. pose proof (strip_keeps_head c1 t1 Hc) as Hne.
      destruct (PyStr.strip (String c1 t1)); [done|]. cbn [or_none]. split; [done|].
      by intros [? _].
    + destruct H1 as [Hc Hnb].
      pose proof (strip_keeps_head c1 (t1 +:+ " " +:+ String c2 t2) Hc) as Hne.
      change (String c1 t1 +:+ " " +:+ String c2 t2)
        with (String c1 (t1 +:+ " " +:+ String c2 t2)).
      destruct (PyStr.strip (String c1 _)); [done|]. cbn [or_none]. split; [done|].
      by intros [? _].
  - destruct (inq_language_pref row) as [[|c s]|]; cbn [PyStr.or_else].
    + split; [discriminate|cbn; lia].
    + split; [discriminate|apply take_length].
    + split; [discriminate|cbn; lia].
Qed.

Lemma X23_family_summary_is_normalised_witness :
  ∃ fc, Db.fetch_family_context (Some sample_pool) "f9" = Some fc ∧
    match fc_child_name fc with
    | Some name => name ≠ EmptyString ∧ PyStr.strip name = name
    | None => True
    end ∧
    known_child_name (Some fc) = fc_child_name fc ∧
    (fc_child_name fc = None ↔
     blank (Some "  Alice ") ∧ blank (Some "")) ∧
    fc_language_pref fc ≠ EmptyString ∧ String.length (fc_language_pref fc) ≤ 5.
Proof.
  apply (X23_family_summary_is_normalised sample_pool "f9"
           {| inq_family_id := "f9";
              inq_child_first_name := Some "  Alice ";
              inq_child_last_name := Some "";
              inq_year_group := Some "Year 9";
              inq_boarding_status := Some "";
              inq_main_interests := Some "rowing";
              inq_parent_name := Some "Ms Reed";
              inq_parent_email := Some "reed@example.org";
              inq_country := Some "UK";
              inq_language_pref := Some "en-GB-oxendict" |}).
  reflexivity.
Defined.

(** ** Keywords and the stripping of the question *)

Lemma is_space_lower_char (c : ascii) :
  PyStr.is_space (PyStr.lower_char c) = PyStr.is_space c.
Proof. destruct c as [[] [] [] [] [] [] [] []]; vm_compute; reflexivity. Qed.

Lemma lower_lstrip (s : string) : PyStr.lower (PyStr.lstrip s) = PyStr.lstrip (PyStr.lower s).
Proof.
  induction s as [|c s IH]; [done|]. cbn [PyStr.lstrip PyStr.lower].
  rewrite is_space_lower_char. by destruct (PyStr.is_space c).
Qed.

Lemma lower_rstrip (s : string) : PyStr.lower (PyStr.rstrip s) = PyStr.rstrip (PyStr.lower s).
Proof.
  induction s as [|c s IH]; [done|]. cbn [PyStr.rstrip PyStr.lower].
  rewrite <- IH, is_space_lower_char.
  destruct (PyStr.rstrip s); cbn [PyStr.lower]; [by destruct (PyStr.is_space c)|done].
Qed.

(** Lower-casing and stripping commute. *)
Lemma lower_strip (s : string) : PyStr.lower (PyStr.strip s) = PyStr.strip (PyStr.lower s).
Proof. unfold PyStr.strip. by rewrite lower_rstrip, lower_lstrip. Qed.

Lemma prefix_nil_false (c : ascii) (n : string) : String.prefix (String c n) "" = false.
Proof. reflexivity. Qed.

Lemma prefix_head (c d : ascii) (n s : string) :
  String.prefix (String c n) (String d s) = true → c = d ∧ String.prefix n s = true.
Proof. cbn [String.prefix]. by destruct (Ascii.ascii_dec c d). Qed.

Lemma prefix_cons (c : ascii) (n s : string) :
  String.prefix n s = true → String.prefix (String c n) (String c s) = true.
Proof. intros H. cbn [String.prefix]. by destruct (Ascii.ascii_dec c c). Qed.

(** A prefix without white space survives [rstrip]. *)
Lemma prefix_rstrip (n s : string) :
  forallb (λ c, negb (PyStr.is_space c)) (String.list_ascii_of_string n) = true →
  String.prefix n s = true → String.prefix n (PyStr.rstrip s) = true.
Proof.
  revert s. induction n as [|c n IH]; intros s Hplain Hpre.
  - by destruct (PyStr.rstrip s).
  - destruct s as [|d s]; [discriminate|].
    apply prefix_head in Hpre as [<- Hpre].
    cbn [String.list_ascii_of_string forallb] in Hplain.
    apply andb_true_iff in Hplain as [Hc%negb_true_iff Hplain].
    specialize (IH s Hplain Hpre). cbn [PyStr.rstrip].
    destruct (PyStr.rstrip s) as [|e r].
    + rewrite Hc. apply prefix_cons. by destruct n.
    + by apply prefix_cons.
Qed.

Lemma contains_cons (n : string) (c : ascii) (s : string) :
  PyStr.contains n s = true → PyStr.contains n (String c s) = true.
Proof. intros H. cbn [PyStr.contains]. rewrite H. apply orb_true_r. Qed.

Lemma contains_nil (c : ascii) (n : string) : PyStr.contains (String c n) "" = false.
Proof. reflexivity. Qed.

(** An occurrence of a text without white space survives [rstrip] and
    [lstrip]. *)
Lemma contains_rstrip (c0 : ascii) (n0 s : string) :
  forallb (λ c, negb (PyStr.is_space c))
          (String.list_ascii_of_string (String c0 n0)) = true →
  PyStr.contains (String c0 n0) s = true →
  PyStr.contains (String c0 n0) (PyStr.rstrip s) = true.
Proof.
  intros Hplain. induction s as [|d s IH]; [done|].
  change (PyStr.contains (String c0 n0) (String d s))
    with (String.prefix (String c0 n0) (String d s) || PyStr.contains (String c0 n0) s).
  intros [Hpre|Hin]%orb_true_iff.
  - by apply contains_prefix, prefix_rstrip.
  - specialize (IH Hin). cbn [PyStr.rstrip].
    destruct (PyStr.rstrip s) as [|e r]; [by rewrite contains_nil in IH|].
    by apply contains_cons.
Qed.

Lemma contains_lstrip (c0 : ascii) (n0 s : string) :
  PyStr.is_space c0 = false →
  PyStr.contains (String c0 n0) s = true →
  PyStr.contains (String c0 n0) (PyStr.lstrip s) = true.
Proof.
  intros Hc. induction s as [|d s IH]; [done|]. cbn [PyStr.lstrip].
  destruct (PyStr.is_space d) eqn:Ed; [|done].
  change (PyStr.contains (String c0 n0) (String d s))
    with (String.prefix (String c0 n0) (String d s) || PyStr.contains (String c0 n0) s).
  intros [Hpre|Hin]%orb_true_iff; [|by apply IH].
  apply prefix_head in Hpre as [-> _]. congruence.
Qed.

Lemma visit_survives_strip (question : string) :
  PyStr.contains "visit" (PyStr.lower question) = true →
  PyStr.contains "visit" (PyStr.lower (PyStr.strip question)) = true.
Proof.
  intros H. rewrite lower_strip. unfold PyStr.strip.
  apply contains_rstrip; [reflexivity|]. by apply contains_lstrip.
Qed.

(** X24: a question that mentions "visit", in any letter case, is always
    answered by the open-days tier, which returns before any tracker is
    resolved: the world is left as it was.  Such a question is therefore
    never handed to [add_interaction], and the entry "visit" of its
    high-intent keywords never counts for a question that came through
    [find_best_answer]. *)
Theorem X24_visit_questions_are_never_recorded (env : Env) (question language : string)
    (session_id family_id : option string) (w : World) :
  PyStr.contains "visit" (PyStr.lower question) = true →
  let out := find_best_answer env question language session_id family_id w in
  out.2 = w ∧ ∃ ans, out.1 = Ok ans ∧ source ans = "open_days".
Proof.
  intros Hvisit. apply open_days_tier_outcome.
  unfold PyStr.any_in, open_day_keywords. cbn [existsb].
  rewrite (visit_survives_strip question Hvisit). by rewrite !orb_true_r.
Qed.

Lemma X24_visit_questions_are_never_recorded_witness :
  let out := find_best_answer offline_env "  May we VISIT in June? " "en" (Some "s1") None
                              fresh_world in
  out.2 = fresh_world ∧ ∃ ans, out.1 = Ok ans ∧ source ans = "open_days".
Proof.
  apply (X24_visit_questions_are_never_recorded offline_env "  May we VISIT in June? "
           "en" (Some "s1") None fresh_world).
  reflexivity.
Defined.

(** ** The follow-up question *)

Ltac rotate_cases n :=
  unfold ResponseEnhancer.rotate; cbn [length];
  first
    [ rewrite (Nat.mod_1_r n)
    | let H := fresh in
      pose proof (Nat.mod_upper_bound n 3 ltac:(discriminate)) as H;
      destruct (n mod 3) as [|[|[|?]]]; [| | |exfalso; lia]; clear H ].

(** X25: [_get_follow_up_question] never returns an empty text, so the
    test [if follow_up] of [enhance_for_voice] never fails; and when no child name is known, the placeholder "{child_name}" of the
    question templates does not reach the caller (it is replaced by "your
    daughter"). *)
Theorem X25_follow_up_is_never_empty (context : ConversationTracker)
    (family_ctx : option FamilyContext) :
  ResponseEnhancer._get_follow_up_question context family_ctx ≠ EmptyString ∧
  (known_child_name family_ctx = None →
   PyStr.contains "{child_name}"
     (ResponseEnhancer._get_follow_up_question context family_ctx) = false).
Proof.
  unfold ResponseEnhancer._get_follow_up_question.
  destruct (PyStr.truthy (last_topic context)); cbn [negb];
    [|split; [discriminate|reflexivity]].
  unfold ResponseEnhancer._categorize_topic.
  set (n := length (interactions context)). clearbody n.
  repeat match goal with
         | |- context [PyStr.any_in ?kws ?s] => destruct (PyStr.any_in kws s)
         end.
  all: cbv zeta;
       match goal with
       | |- context [ResponseEnhancer.follow_up_questions ?k] =>
           let v := eval vm_compute in (ResponseEnhancer.follow_up_questions k) in
           change (ResponseEnhancer.follow_up_questions k) with v
       end;
       cbn [from_option id].
  all: rotate_cases n.
  all: destruct (known_child_name family_ctx) as [name|];
       (split; [intros Hempty; vm_compute in Hempty; discriminate Hempty
               |intros H; first [discriminate H|reflexivity]]).
Qed.

(** ** The normal form of a question *)

Lemma lower_char_idem (c : ascii) : PyStr.lower_char (PyStr.lower_char c) = PyStr.lower_char c.
Proof. destruct c as [[] [] [] [] [] [] [] []]; vm_compute; reflexivity. Qed.

Lemma lower_idem (s : string) : PyStr.lower (PyStr.lower s) = PyStr.lower s.
Proof.
  induction s as [|c s IH]; [done|]. cbn [PyStr.lower]. by rewrite lower_char_idem, IH.
Qed.

(** Stripping and lower-casing a question a second time changes nothing. *)
Lemma normal_form_idem (question : string) :
  PyStr.lower (PyStr.strip (PyStr.lower (PyStr.strip question)))
  = PyStr.lower (PyStr.strip question).
Proof. by rewrite <- lower_strip, strip_idem, lower_idem. Qed.

Lemma static_tiers_answer (env : Env) (question language : string)
    (family_id : option string) (w : World) (ans : Answer) :
  static_tiers env language (PyStr.lower (PyStr.strip question)) = Some ans →
  (find_best_answer env question language None family_id w).1 = Ok ans.
Proof.
  unfold static_tiers. intros Htiers.
  set (Q := λ (r : Result Answer) (_ : World), r = Ok ans).
  change (wp (find_best_answer env question language None family_id) Q w).
  destruct (PyStr.any_in open_day_keywords (PyStr.lower (PyStr.strip question))) eqn:Hkw.
  - injection Htiers as <-. wp_walk; subst Q; reflexivity.
  - destruct (exact_match (STATIC_QAS env) language (PyStr.lower (PyStr.strip question)))
      as [qa|] eqn:Hexact.
    + injection Htiers as <-. wp_walk; subst Q; reflexivity.
    + destruct (fuzzy_match (STATIC_QAS env) language (PyStr.lower (PyStr.strip question)))
        as [qa|] eqn:Hfuzzy; [|discriminate].
      injection Htiers as <-. wp_walk; subst Q; reflexivity.
Qed.

(** X26: without a session, what the open-days, exact and fuzzy tiers
    answer depends on the question only through its stripped, lower-cased
    form: when these tiers answer, the reply is the one [static_tiers]
    computes from that form, and asking the normal form itself brings the
    same reply.  Letter case and white space around the question never
    change a static answer. *)
Theorem X26_static_answers_ignore_case_and_padding (env : Env) (question language : string)
    (family_id : option string) (w : World) (ans : Answer) :
  static_tiers env language (PyStr.lower (PyStr.strip question)) = Some ans →
  (find_best_answer env question language None family_id w).1 = Ok ans ∧
  (find_best_answer env (PyStr.lower (PyStr.strip question)) language None family_id w).1
  = Ok ans.
Proof.
  intros Htiers. split; [by apply static_tiers_answer|].
  apply static_tiers_answer. by rewrite normal_form_idem.
Qed.

Lemma X26_static_answers_ignore_case_and_padding_witness :
  (find_best_answer offline_env "  HOW to Apply " "en" None None fresh_world).1
  = Ok (entry_answer qa_admissions (qa_answer qa_admissions) "static") ∧
  (find_best_answer offline_env (PyStr.lower (PyStr.strip "  HOW to Apply ")) "en" None None
                    fresh_world).1
  = Ok (entry_answer qa_admissions (qa_answer qa_admissions) "static").
Proof.
  apply (X26_static_answers_ignore_case_and_padding offline_env "  HOW to Apply " "en"
           None fresh_world).
  vm_compute. reflexivity.
Defined.

